(** * network-test: the measurement pipeline

    A shallow embedding of the two Go source files of the repository,
    [main.go] (Window, Histogram, Stats, the consumer's [model.Update] and
    [model.tick], the views [PrintHistogram] and [View]) and
    [pkg/ping/ping.go] (the line parser [processLine], [NewPinger] and the
    producer [Pinger.Run]), followed by the properties of the pipeline.

    Conventions.
    - Go's [int64], and [int] on the 64-bit platforms the program runs on,
      are integers of [Z] with the wrap-around of every arithmetic
      operation written out ([Int64.wrap]).
    - A method with a pointer receiver [func (x *T) m(..) R] is a
      computation [M T R]: it reads and writes the receiver and may panic.
    - [time.Now()] is an input: a method that reads the clock takes the
      readings as arguments, in the order in which the code takes them.
    - [float64] is the kernel's binary64 ([PrimFloat]). *)

From Stdlib Require Import ZArith Lia Bool Ascii String Floats Uint63.
From Stdlib Require Import DecimalString DecimalZ DecimalFacts.
From stdpp Require Import base list.

Local Open Scope Z_scope.

(** ** Machine integers *)

Module Int64.

Definition min_int : Z := - 2 ^ 63.
Definition max_int : Z := 2 ^ 63 - 1.

Definition in_range (z : Z) : Prop := min_int <= z <= max_int.

(** Two's complement reduction of an integer to 64 bits. *)
Definition wrap (z : Z) : Z := (z + 2 ^ 63) mod 2 ^ 64 - 2 ^ 63.

Definition add (x y : Z) : Z := wrap (x + y).
Definition sub (x y : Z) : Z := wrap (x - y).
Definition mul (x y : Z) : Z := wrap (x * y).
Definition neg (x : Z) : Z := wrap (- x).

(** Go's [/] and [%] on integers truncate toward zero; the only quotient
    that leaves the range, [min_int / -1], wraps. *)
Definition quot (x y : Z) : Z := wrap (Z.quot x y).
Definition rem (x y : Z) : Z := Z.rem x y.

End Int64.

Module Uint64.

Definition wrap (z : Z) : Z := z mod 2 ^ 64.
Definition add (x y : Z) : Z := wrap (x + y).
Definition sub (x y : Z) : Z := wrap (x - y).
Definition mul (x y : Z) : Z := wrap (x * y).

End Uint64.

(** ** Receivers: state with panics *)

Definition M (St A : Type) : Type := St -> option (A * St).

Definition ret {St A} (a : A) : M St A := fun s => Some (a, s).

Definition bind {St A B} (m : M St A) (k : A -> M St B) : M St B :=
  fun s => match m s with
           | Some (a, s') => k a s'
           | None => None
           end.

Definition get {St} : M St St := fun s => Some (s, s).
Definition put {St} (s : St) : M St unit := fun _ => Some (tt, s).
Definition modify {St} (f : St -> St) : M St unit := fun s => Some (tt, f s).

(** A run-time panic (index out of range, ...). *)
Definition panic {St A} : M St A := fun _ => None.

(** Calling a method of a field [x.f.m()]. *)
Definition zoom {St T A} (proj : St -> T) (upd : T -> St -> St) (m : M T A) : M St A :=
  fun s => match m (proj s) with
           | Some (a, t') => Some (a, upd t' s)
           | None => None
           end.

Definition when {St} (b : bool) (m : M St unit) : M St unit :=
  if b then m else ret tt.

Definition exec {St A} (m : M St A) (s : St) : option St := snd <$> m s.
Definition eval {St A} (m : M St A) (s : St) : option A := fst <$> m s.

Declare Scope go_scope.
Delimit Scope go_scope with go.
Notation "x <- m ;; k" := (bind m (fun x => k))
  (at level 100, m at next level, k at level 200, right associativity) : go_scope.
Notation "m ;; k" := (bind m (fun _ => k))
  (at level 100, k at level 200, right associativity) : go_scope.
Local Open Scope go_scope.

(** ** Package time (the part the program uses)

    [Duration], [Time.Sub] and [ParseDuration] with its helpers, after the
    source of Go's standard library ([time/time.go], [time/format.go]). *)

Module time.

(** [time.Duration]: an [int64] count of nanoseconds. *)
Definition Duration : Type := Z.

Definition Nanosecond : Duration := 1.
Definition Microsecond : Duration := 1000.
Definition Millisecond : Duration := 1000000.
Definition Second : Duration := 1000000000.
Definition Minute : Duration := 60000000000.
Definition Hour : Duration := 3600000000000.

Definition minDuration : Duration := Int64.min_int.
Definition maxDuration : Duration := Int64.max_int.

(** [func (d Duration) Milliseconds() int64 { return int64(d) / 1e6 }] *)
Definition Milliseconds (d : Duration) : Z := Int64.quot d 1000000.

(** Conversion of an [int64] to [float64] (round to nearest even). *)
Definition float64_of_int64 (z : Z) : float :=
  if z <? 0 then
    if z =? Int64.min_int then (-9223372036854775808)%float
    else PrimFloat.opp (PrimFloat.of_uint63 (Uint63.of_Z (- z)))
  else PrimFloat.of_uint63 (Uint63.of_Z z).

(** [func (d Duration) Seconds() float64 {
       sec := d / Second; nsec := d % Second
       return float64(sec) + float64(nsec)/1e9 }] *)
Definition Seconds (d : Duration) : float :=
  let sec := Int64.quot d Second in
  let nsec := Int64.rem d Second in
  PrimFloat.add (float64_of_int64 sec)
                (PrimFloat.div (float64_of_int64 nsec) 1e9%float).

(** [time.Time] as [time.Now()] returns it: the reading of the monotonic
    clock, an [int64] count of nanoseconds. *)
Definition Time : Type := Z.

(** [func (t Time) Sub(u Time) Duration] for two readings of the
    monotonic clock ([subMono]): the difference, saturated. *)
Definition Sub (t u : Time) : Duration :=
  let d := Int64.sub t u in
  if (d <? 0) && (t >? u) then maxDuration
  else if (d >? 0) && (t <? u) then minDuration
  else d.

(** *** [time.ParseDuration] *)

Inductive error : Type :=
| InvalidDuration    (* "time: invalid duration ..." *)
| MissingUnit        (* "time: missing unit in duration ..." *)
| UnknownUnit (u : string).  (* "time: unknown unit ... in duration ..." *)

Definition byte (c : ascii) : Z := Z.of_N (N_of_ascii c).

(** ['0' <= c && c <= '9'] *)
Definition is_digit (c : ascii) : bool := (48 <=? byte c) && (byte c <=? 57).

(** [leadingInt]: the loop from the accumulator [x] on; [None] is
    [errLeadingInt]. *)
Fixpoint leadingInt_from (x : Z) (s : string) : option (Z * string) :=
  match s with
  | EmptyString => Some (x, s)
  | String c s' =>
      if negb (is_digit c) then Some (x, s)
      else if x >? 2 ^ 63 / 10 then None
      else
        let x' := Uint64.sub (Uint64.add (Uint64.mul x 10) (byte c)) 48 in
        if x' >? 2 ^ 63 then None else leadingInt_from x' s'
  end.

Definition leadingInt (s : string) : option (Z * string) :=
  leadingInt_from 0 s.

(** [leadingFraction]: the loop from [x], [scale] and [overflow] on. *)
Fixpoint leadingFraction_from (x : Z) (scale : float) (overflow : bool)
                              (s : string) : Z * float * string :=
  match s with
  | EmptyString => (x, scale, s)
  | String c s' =>
      if negb (is_digit c) then (x, scale, s)
      else if overflow then leadingFraction_from x scale overflow s'
      else if x >? (2 ^ 63 - 1) / 10 then leadingFraction_from x scale true s'
      else
        let y := Uint64.sub (Uint64.add (Uint64.mul x 10) (byte c)) 48 in
        if y >? 2 ^ 63 then leadingFraction_from x scale true s'
        else leadingFraction_from y (PrimFloat.mul scale 10%float) overflow s'
  end.

Definition leadingFraction (s : string) : Z * float * string :=
  leadingFraction_from 0 1%float false s.

(** The unit: the characters up to the next ['.'] or digit. *)
Fixpoint span_unit (s : string) : string * string :=
  match s with
  | EmptyString => (EmptyString, s)
  | String c s' =>
      if (byte c =? 46) || is_digit c then (EmptyString, s)
      else let '(u, r) := span_unit s' in (String c u, r)
  end.

Definition micro_sign : string :=   (* U+00B5 *)
  String (ascii_of_nat 194) (String (ascii_of_nat 181) EmptyString).
Definition greek_mu : string :=     (* U+03BC *)
  String (ascii_of_nat 206) (String (ascii_of_nat 188) EmptyString).

Definition unitMap (u : string) : option Z :=
  if String.eqb u "ns" then Some Nanosecond
  else if String.eqb u "us" then Some Microsecond
  else if String.eqb u (micro_sign ++ "s") then Some Microsecond
  else if String.eqb u (greek_mu ++ "s") then Some Microsecond
  else if String.eqb u "ms" then Some Millisecond
  else if String.eqb u "s" then Some Second
  else if String.eqb u "m" then Some Minute
  else if String.eqb u "h" then Some Hour
  else None.

(** Conversion of a [uint64] to [float64] (round to nearest even; from
    [2^63] on through the halved value with its sticky bit). *)
Definition float64_of_uint64 (z : Z) : float :=
  if z <? 2 ^ 63 then PrimFloat.of_uint63 (Uint63.of_Z z)
  else
    let h := PrimFloat.of_uint63 (Uint63.of_Z (Z.lor (Z.shiftr z 1) (Z.land z 1))) in
    PrimFloat.add h h.

(** Conversion of a [float64] to [uint64]: truncation. Go leaves the
    result open for a value outside the range of [uint64]; ParseDuration
    only converts values between 0 and 3.6e12, and the model gives 0
    elsewhere. *)
Definition trunc_SF (x : spec_float) : Z :=
  match x with
  | S754_finite false m e =>
      let v := if 0 <=? e then Z.shiftl (Z.pos m) e
               else Z.shiftr (Z.pos m) (- e) in
      if v <? 2 ^ 64 then v else 0
  | _ => 0
  end.

Definition uint64_of_float64 (x : float) : Z := trunc_SF (Prim2SF x).

(** The body of [for s != ""], [fuel] times at most: [Some (inr d)] when
    the string is consumed, [Some (inl e)] at an error, [None] when the
    fuel is spent ([ParseDuration] gives enough). *)
Fixpoint parse_groups (fuel : nat) (d : Z) (s : string) : option (error + Z) :=
  match fuel with
  | O => None
  | S fuel' =>
      match s with
      | EmptyString => Some (inr d)
      | String c0 _ =>
          if negb ((byte c0 =? 46) || is_digit c0) then Some (inl InvalidDuration)
          else
            match leadingInt s with
            | None => Some (inl InvalidDuration)
            | Some (v, s1) =>
                let pre := negb (String.length s =? String.length s1)%nat in
                let '(f, scale, s2, post) :=
                  match s1 with
                  | String c1 s1' =>
                      if byte c1 =? 46 then
                        let '(f, scale, s2) := leadingFraction s1' in
                        (f, scale, s2,
                         negb (String.length s1' =? String.length s2)%nat)
                      else (0, 1%float, s1, false)
                  | EmptyString => (0, 1%float, s1, false)
                  end in
                if negb pre && negb post then Some (inl InvalidDuration)
                else
                  let '(u, s3) := span_unit s2 in
                  if (String.length u =? 0)%nat then Some (inl MissingUnit)
                  else
                    match unitMap u with
                    | None => Some (inl (UnknownUnit u))
                    | Some unit =>
                        if v >? 2 ^ 63 / unit then Some (inl InvalidDuration)
                        else
                          let v := Uint64.mul v unit in
                          let frac :=
                            uint64_of_float64
                              (PrimFloat.mul (float64_of_uint64 f)
                                 (PrimFloat.div (float64_of_uint64 unit) scale)) in
                          let v := if f >? 0 then Uint64.add v frac else v in
                          if (f >? 0) && (v >? 2 ^ 63) then Some (inl InvalidDuration)
                          else
                            let d := Uint64.add d v in
                            if d >? 2 ^ 63 then Some (inl InvalidDuration)
                            else parse_groups fuel' d s3
                    end
            end
      end
  end.

(** [func ParseDuration(s string) (Duration, error)] *)
Definition ParseDuration (orig : string) : Duration * option error :=
  let '(neg, s) :=
    match orig with
    | String c s' =>
        if (byte c =? 45) || (byte c =? 43) then ((byte c =? 45), s')
        else (false, orig)
    | EmptyString => (false, orig)
    end in
  if String.eqb s "0" then (0, None)
  else if String.eqb s "" then (0, Some InvalidDuration)
  else
    match parse_groups (S (String.length s)) 0 s with
    | Some (inr d) =>
        if neg then (Int64.neg (Int64.wrap d), None)
        else if d >? 2 ^ 63 - 1 then (0, Some InvalidDuration)
        else (Int64.wrap d, None)
    | Some (inl e) => (0, Some e)
    | None => (0, Some InvalidDuration)
    end.

End time.

(** ** Package regexp (the part [PING_LINE] uses)

    The search of Go's regexp for a match is the leftmost one a
    backtracking search finds first; the text is read as UTF-8, one rune
    at a time ([unicode/utf8]). *)

Module regexp.

(** The instructions of a pattern that is a sequence of literal
    characters, [.], [\d+], one level of capture groups and the anchors
    [^] and [$]. *)
Inductive inst : Type :=
| Char (c : ascii)    (* a literal character *)
| AnyNotNL            (* .    any character but a newline *)
| Digits              (* \d+  one or more of 0-9, as many as possible first *)
| CapOpen             (* opening parenthesis *)
| CapClose            (* closing parenthesis *)
| BeginText           (* ^  *)
| EndText.            (* $  *)

Fixpoint lit (s : string) : list inst :=
  match s with
  | EmptyString => []
  | String c s' => Char c :: lit s'
  end.

(** [utf8.DecodeRuneInString]: for a leading byte of a multi-byte
    encoding, its size and the range accepted for the second byte. *)
Definition first (b0 : Z) : option (nat * Z * Z) :=
  if b0 <? 194 then None                                (* ASCII, or invalid *)
  else if b0 <=? 223 then Some (2%nat, 128, 191)        (* C2..DF *)
  else if b0 =? 224 then Some (3%nat, 160, 191)         (* E0 *)
  else if b0 =? 237 then Some (3%nat, 128, 159)         (* ED *)
  else if b0 <=? 239 then Some (3%nat, 128, 191)        (* E1..EF *)
  else if b0 =? 240 then Some (4%nat, 144, 191)         (* F0 *)
  else if b0 <=? 243 then Some (4%nat, 128, 191)        (* F1..F3 *)
  else if b0 =? 244 then Some (4%nat, 128, 143)         (* F4 *)
  else None.                                            (* invalid *)

Definition between (lo hi : Z) (c : ascii) : bool :=
  (lo <=? time.byte c) && (time.byte c <=? hi).

(** The width in bytes of the first rune of a non-empty string; an
    invalid or truncated encoding is one byte wide. *)
Definition rune_width (s : string) : nat :=
  match s with
  | EmptyString => 0
  | String c0 r =>
      match first (time.byte c0) with
      | None => 1
      | Some (sz, lo, hi) =>
          match r with
          | String c1 r1 =>
              if negb (between lo hi c1) then 1
              else if (sz <=? 2)%nat then 2
              else
                match r1 with
                | String c2 r2 =>
                    if negb (between 128 191 c2) then 1
                    else if (sz <=? 3)%nat then 3
                    else
                      match r2 with
                      | String c3 _ => if negb (between 128 191 c3) then 1 else 4
                      | EmptyString => 1
                      end
                | EmptyString => 1
                end
          | EmptyString => 1
          end
      end
  end.

Fixpoint drop (n : nat) (s : string) : string :=
  match n, s with
  | O, _ => s
  | S n', String _ s' => drop n' s'
  | S _, EmptyString => s
  end.

(** The backtracking search for the pattern [p] in what is left of the
    text, [s], of which [pos] bytes are consumed: the first match in the
    order of preference, as the positions (the rest of the text there) of
    the parentheses passed, last first. *)
Fixpoint run (p : list inst) : nat -> string -> list string -> option (list string) :=
  match p with
  | [] => fun _ _ marks => Some marks
  | i :: p' =>
      let k := run p' in
      match i with
      | Char c => fun pos s marks =>
          match s with
          | String c' s' => if Ascii.eqb c c' then k (S pos) s' marks else None
          | EmptyString => None
          end
      | AnyNotNL => fun pos s marks =>
          match s with
          | String c' _ =>
              if time.byte c' =? 10 then None
              else k (pos + rune_width s)%nat (drop (rune_width s) s) marks
          | EmptyString => None
          end
      | Digits =>
          fix more (pos : nat) (s : string) (marks : list string) :=
            match s with
            | String c' s' =>
                if time.is_digit c' then
                  match more (S pos) s' marks with
                  | Some r => Some r
                  | None => k (S pos) s' marks
                  end
                else None
            | EmptyString => None
            end
      | CapOpen | CapClose => fun pos s marks => k pos s (s :: marks)
      | BeginText => fun pos s marks =>
          match pos with O => k pos s marks | S _ => None end
      | EndText => fun pos s marks =>
          match s with EmptyString => k pos s marks | String _ _ => None end
      end
  end.

(** [Regexp.FindStringSubmatch] for a pattern that begins with [^]
    (a match can only start at offset 0) and has one capture group: nil
    when there is no match, else the match and the group's text. *)
Definition FindStringSubmatch (p : list inst) (s : string) : list string :=
  match run p 0 s [] with
  | Some [close; open] =>
      [s; substring 0 (String.length open - String.length close) open]
  | _ => []
  end.

End regexp.

(** ** pkg/ping/ping.go: the line parser *)

Module ping.

Import regexp.

(** [^\d+ bytes from \d+.\d+.\d+.\d+: icmp_seq=\d+ ttl=\d+ time=(\d+.\d+) ms$] *)
Definition PING_LINE : list inst :=
  [BeginText; Digits] ++ lit " bytes from "
  ++ [Digits; AnyNotNL; Digits; AnyNotNL; Digits; AnyNotNL; Digits]
  ++ lit ": icmp_seq=" ++ [Digits] ++ lit " ttl=" ++ [Digits]
  ++ lit " time=" ++ [CapOpen; Digits; AnyNotNL; Digits; CapClose]
  ++ lit " ms" ++ [EndText].

Inductive error : Type :=
| FailedToParse (line : string)     (* "failed to parse line: %s" *)
| TimeError (e : time.error).

Definition processLine (line : string) : time.Duration * option error :=
  let matches := FindStringSubmatch PING_LINE line in
  if (length matches <? 2)%nat then (0, Some (FailedToParse line))
  else
    let '(d, err) := time.ParseDuration (nth 1 matches EmptyString ++ "ms") in
    (d, TimeError <$> err).

(** The body of the scanner's loop (lines 61-76) for one line: the
    sample it sends on [pings], or [None] when it continues with the next
    line. *)
Definition scan_line (line : string) : option time.Duration :=
  if (String.length line <? 1)%nat then None
  else if String.prefix "PING" line then None
  else
    let '(duration, err) := processLine line in
    match err with
    | Some _ => None
    | None => Some duration
    end.

End ping.

(** ** main.go: Window *)

Record Window : Type := mkWindow {
  Min : Z;      (* int64 *)
  Max : Z;      (* int64 *)
  Total : Z;    (* int64 *)
  Count : Z     (* int *)
}.

Definition newline : string := String (ascii_of_nat 10) EmptyString.

(** [fmt.Sprintf]'s [%d]. *)
Definition format_d (z : Z) : string := NilZero.string_of_int (Z.to_int z).

Module Window.

Definition set_Min (v : Z) (w : Window) : Window :=
  mkWindow v (Max w) (Total w) (Count w).
Definition set_Max (v : Z) (w : Window) : Window :=
  mkWindow (Min w) v (Total w) (Count w).
Definition set_Total (v : Z) (w : Window) : Window :=
  mkWindow (Min w) (Max w) v (Count w).
Definition set_Count (v : Z) (w : Window) : Window :=
  mkWindow (Min w) (Max w) (Total w) v.

(** The zero value [Window{}]. *)
Definition zero : Window := mkWindow 0 0 0 0.

Definition Update (duration : Z) : M Window unit :=
  w <- get ;;
  when ((Min w =? 0) || (duration <? Min w))
       (modify (set_Min duration)) ;;
  w <- get ;;
  when (duration >? Max w)
       (modify (set_Max duration)) ;;
  w <- get ;;
  modify (set_Total (Int64.add (Total w) duration)) ;;
  w <- get ;;
  modify (set_Count (Int64.add (Count w) 1)).

Definition Reset : M Window unit :=
  modify (set_Min 0) ;;
  modify (set_Max 0) ;;
  modify (set_Total 0) ;;
  modify (set_Count 0).

Definition Average : M Window Z :=
  w <- get ;;
  if Count w =? 0 then ret 0
  else ret (Int64.quot (Total w) (Count w)).

Definition String : M Window string :=
  w <- get ;;
  avg <- Average ;;
  ret ("Min: " ++ format_d (Min w) ++ "ms, Max: " ++ format_d (Max w)
       ++ "ms, Avg: " ++ format_d avg ++ "ms")%string.

End Window.

(** ** main.go: Histogram *)

Record Histogram : Type := mkHistogram {
  thresholds : list Z;   (* []int64 *)
  buckets : list Z;      (* []int *)
  total : Z              (* int *)
}.

Definition NewHistogram (ths : list Z) : Histogram :=
  mkHistogram ths (replicate (length ths) 0) 0.

Module Histogram.

Definition set_buckets (v : list Z) (h : Histogram) : Histogram :=
  mkHistogram (thresholds h) v (total h).
Definition set_total (v : Z) (h : Histogram) : Histogram :=
  mkHistogram (thresholds h) (buckets h) v.

(** [h.buckets[i]++]; an index outside the slice panics. *)
Definition incr_bucket (i : nat) : M Histogram unit :=
  h <- get ;;
  match buckets h !! i with
  | Some c => modify (set_buckets (<[i := Int64.add c 1]> (buckets h)))
  | None => panic
  end.

(** The [for i, threshold := range h.thresholds] loop from index [i] on,
    over the thresholds not yet visited; [break] ends it. *)
Fixpoint range_thresholds (duration : Z) (i : nat) (ths : list Z)
  : M Histogram unit :=
  match ths with
  | [] => ret tt
  | threshold :: rest =>
      if duration <=? threshold then incr_bucket i
      else range_thresholds duration (S i) rest
  end.

Definition Update (duration : Z) : M Histogram unit :=
  h <- get ;;
  range_thresholds duration 0 (thresholds h) ;;
  h <- get ;;
  modify (set_total (Int64.add (total h) 1)).

End Histogram.

(** ** main.go: Stats *)

Record Stats : Type := mkStats {
  windowSize : time.Duration;
  windowStart : time.Time;
  window : Window;
  lastWindow : Window;
  totals : Window;
  histogram : Histogram
}.

Module Stats.

Definition set_windowStart (v : time.Time) (s : Stats) : Stats :=
  mkStats (windowSize s) v (window s) (lastWindow s) (totals s) (histogram s).
Definition set_window (v : Window) (s : Stats) : Stats :=
  mkStats (windowSize s) (windowStart s) v (lastWindow s) (totals s) (histogram s).
Definition set_lastWindow (v : Window) (s : Stats) : Stats :=
  mkStats (windowSize s) (windowStart s) (window s) v (totals s) (histogram s).
Definition set_totals (v : Window) (s : Stats) : Stats :=
  mkStats (windowSize s) (windowStart s) (window s) (lastWindow s) v (histogram s).
Definition set_histogram (v : Histogram) (s : Stats) : Stats :=
  mkStats (windowSize s) (windowStart s) (window s) (lastWindow s) (totals s) v.

(** The test of line 130,
    [time.Now().Sub(s.windowStart).Seconds() > s.windowSize.Seconds()],
    at the clock reading [now]. *)
Definition elapsed_exceeds (now : time.Time) (s : Stats) : bool :=
  PrimFloat.ltb (time.Seconds (windowSize s))
                (time.Seconds (time.Sub now (windowStart s))).

(** [now1] is the clock reading of line 130, [now2] that of line 133. *)
Definition Update (now1 now2 : time.Time) (duration : Z) : M Stats unit :=
  zoom window set_window (Window.Update duration) ;;
  zoom totals set_totals (Window.Update duration) ;;
  zoom histogram set_histogram (Histogram.Update duration) ;;
  s <- get ;;
  when (elapsed_exceeds now1 s)
       (s <- get ;;
        modify (set_lastWindow (window s)) ;;
        zoom window set_window Window.Reset ;;
        modify (set_windowStart now2)).

Definition String : M Stats string :=
  last <- zoom lastWindow set_lastWindow Window.String ;;
  tot <- zoom totals set_totals Window.String ;;
  ret ("Window - " ++ last ++ newline ++ "Totals - " ++ tot)%string.

End Stats.

(** ** main.go: the consumer *)

(** A channel value, as the fields [pings] and [errs] hold it: nil, or
    the identity of a channel. *)
Definition chan : Type := option nat.

Record model : Type := mkModel {
  host : string;
  interval : Z;
  window_flag : Z;     (* the field [window] *)
  pings : chan;
  errs : chan;
  stats : Stats
}.

(** The messages [model.Update] tells apart, and the commands it returns. *)
Inductive Msg : Type :=
| KeyMsg (key : string)             (* tea.KeyMsg, with its String() *)
| initParams (pings errs : chan)
| DurationMsg (d : time.Duration)   (* time.Duration *)
| errorMsg                          (* error *)
| otherMsg.                         (* any other message *)

Inductive Cmd : Type :=
| nilCmd       (* nil *)
| tick         (* m.tick *)
| Quit.        (* tea.Quit *)

Module model.

Definition set_pings (v : chan) (m : model) : model :=
  mkModel (host m) (interval m) (window_flag m) v (errs m) (stats m).
Definition set_errs (v : chan) (m : model) : model :=
  mkModel (host m) (interval m) (window_flag m) (pings m) v (stats m).
Definition set_stats (v : Stats) (m : model) : model :=
  mkModel (host m) (interval m) (window_flag m) (pings m) (errs m) v.

(** [func (m model) Update(msg tea.Msg) (tea.Model, tea.Cmd)]: the
    receiver is a copy, and the state the computation ends in is the
    model returned. [now1] and [now2] are the clock readings of
    [Stats.Update]. *)
Definition Update (now1 now2 : time.Time) (msg : Msg) : M model Cmd :=
  match msg with
  | KeyMsg key =>
      if String.eqb key "q" || String.eqb key "esc" || String.eqb key "ctrl+c"
      then ret Quit
      else ret nilCmd
  | initParams p e =>
      modify (set_pings p) ;;
      modify (set_errs e) ;;
      ret tick
  | DurationMsg d =>
      zoom stats set_stats (Stats.Update now1 now2 (time.Milliseconds d)) ;;
      ret tick
  | errorMsg => ret Quit
  | otherMsg => ret nilCmd
  end.

(** [test]'s initial statistics, for the value [window] of the flag and
    the clock reading [now]. *)
Definition initial_stats (window : Z) (now : time.Time) : Stats :=
  mkStats (Int64.mul window time.Second) now Window.zero Window.zero Window.zero
          (NewHistogram [1; 2; 5; 10; 20; 50; 100; 200; 500; 1000]).

End model.

(** What happens to the consumer's model: a message is delivered to
    [Update] (at the clock readings given), or the statistics are rendered
    ([Stats.String]). *)
Inductive event : Type :=
| Deliver (now1 now2 : time.Time) (msg : Msg)
| Render.

Definition handle (e : event) : M model unit :=
  match e with
  | Deliver now1 now2 msg => _ <- model.Update now1 now2 msg ;; ret tt
  | Render => _ <- zoom stats model.set_stats Stats.String ;; ret tt
  end.

Fixpoint handle_all (es : list event) : M model unit :=
  match es with
  | [] => ret tt
  | e :: es' => handle e ;; handle_all es'
  end.

Definition is_sample (e : event) : bool :=
  match e with
  | Deliver _ _ (DurationMsg _) => true
  | _ => false
  end.

(** ** pkg/ping/ping.go: the producer [Pinger.Run]

    The three goroutines of [Run], the two channels it returns, the
    channel [finished], the subprocess and the context, as a transition
    system. A label names the step taken: a step of one goroutine, a
    rendezvous on an unbuffered channel, or a step of the environment (the
    subprocess, the context, the consumer receiving). A panic of any
    goroutine ends the program. *)

Module Run.

(** The values sent on [errs]; nil is [None]. *)
Inductive err : Type :=
| PipeErr      (* from cmd.StdoutPipe, line 45 *)
| StartErr     (* from cmd.Start, line 52 *)
| WaitErr.     (* from cmd.Wait, line 84 *)

(** The goroutine of lines 40-97. *)
Inductive outer_pc : Type :=
| OPipe                     (* lines 44-45 *)
| OStart                    (* line 52 *)
| OSpawnScanner             (* line 57 *)
| OSpawnWaiter              (* lines 80-81 *)
| OSelect                   (* line 91 *)
| OSend (e : option err)    (* blocked in [errs <- e]: lines 48, 53, 93, 95 *)
| OCloseErrs                (* the deferred call of line 42 *)
| OClosePings               (* the deferred call of line 41 *)
| ODone.

(** The goroutine of lines 57-78. *)
Inductive scanner_pc : Type :=
| SNotStarted
| SScan                         (* in scanner.Scan(), line 60 *)
| SSend (d : time.Duration)     (* blocked in [pings <- duration], line 76 *)
| SDone.

(** The goroutine of lines 81-89. *)
Inductive waiter_pc : Type :=
| WNotStarted
| WWait                   (* in cmd.Wait(), line 84 *)
| WSend (e : err)         (* blocked in [finished <- err], line 85 *)
| WCloseErrs              (* the deferred call of line 82 *)
| WDone.

Inductive process : Type :=
| NotStarted
| Running
| Exited (ok : bool).     (* exit status 0, or not *)

Record state : Type := mkState {
  outer : outer_pc;
  scanner : scanner_pc;
  waiter : waiter_pc;
  pings_closed : bool;
  errs_closed : bool;
  proc : process;
  stdout : list string;   (* lines written and not yet read *)
  cancelled : bool;       (* ctx.Done() is closed *)
  panicked : bool
}.

Definition init : state :=
  mkState OPipe SNotStarted WNotStarted false false NotStarted [] false false.

Definition set_outer v st :=
  mkState v (scanner st) (waiter st) (pings_closed st) (errs_closed st)
          (proc st) (stdout st) (cancelled st) (panicked st).
Definition set_scanner v st :=
  mkState (outer st) v (waiter st) (pings_closed st) (errs_closed st)
          (proc st) (stdout st) (cancelled st) (panicked st).
Definition set_waiter v st :=
  mkState (outer st) (scanner st) v (pings_closed st) (errs_closed st)
          (proc st) (stdout st) (cancelled st) (panicked st).
Definition set_pings_closed v st :=
  mkState (outer st) (scanner st) (waiter st) v (errs_closed st)
          (proc st) (stdout st) (cancelled st) (panicked st).
Definition set_errs_closed v st :=
  mkState (outer st) (scanner st) (waiter st) (pings_closed st) v
          (proc st) (stdout st) (cancelled st) (panicked st).
Definition set_proc v st :=
  mkState (outer st) (scanner st) (waiter st) (pings_closed st) (errs_closed st)
          v (stdout st) (cancelled st) (panicked st).
Definition set_stdout v st :=
  mkState (outer st) (scanner st) (waiter st) (pings_closed st) (errs_closed st)
          (proc st) v (cancelled st) (panicked st).
Definition set_cancelled v st :=
  mkState (outer st) (scanner st) (waiter st) (pings_closed st) (errs_closed st)
          (proc st) (stdout st) v (panicked st).
Definition set_panicked v st :=
  mkState (outer st) (scanner st) (waiter st) (pings_closed st) (errs_closed st)
          (proc st) (stdout st) (cancelled st) v.

Inductive label : Type :=
(* the outer goroutine *)
| PipeOk | PipeFail               (* cmd.StdoutPipe() returns *)
| StartOk | StartFail             (* cmd.Start() returns *)
| SpawnScanner                    (* go func() of line 57 *)
| SpawnWaiter                     (* make(chan error); go func() of line 81 *)
| SelectCancel                    (* case <-ctx.Done() *)
| SelectFinished                  (* case err := <-finished, with the waiter's send *)
| Outcome (e : option err)        (* the consumer receives [e] from errs *)
| SendOnClosedErrs                (* [errs <- e] on the closed channel: panic *)
| OuterCloseErrs                  (* close(errs), line 42 *)
| OuterClosePings                 (* close(pings), line 41 *)
(* the scanner goroutine *)
| ScanLine                        (* Scan() returns true: one line is read *)
| ScanEnd                         (* Scan() returns false *)
| Sample (d : time.Duration)      (* the consumer receives [d] from pings *)
| SendOnClosedPings               (* [pings <- duration] on the closed channel: panic *)
(* the waiter goroutine *)
| WaitReturns                     (* cmd.Wait() returns *)
| WaiterCloseErrs                 (* close(errs), line 82 *)
(* the environment *)
| Cancel                          (* the context is cancelled *)
| Exit (ok : bool)                (* the subprocess exits on its own *)
| Writes (line : string).         (* the subprocess writes a line *)

Definition err_eqb (a b : option err) : bool :=
  match a, b with
  | None, None => true
  | Some PipeErr, Some PipeErr => true
  | Some StartErr, Some StartErr => true
  | Some WaitErr, Some WaitErr => true
  | _, _ => false
  end.

(** [close(c)] by the goroutine that goes on as [next] says: closing a
    closed channel panics. *)
Definition close (closed : state -> bool) (set_closed : bool -> state -> state)
                 (next : state -> state) (st : state) : state :=
  if closed st then set_panicked true st else next (set_closed true st).

(** One step; [None] when the step is not enabled in the state. *)
Definition step (l : label) (st : state) : option state :=
  if panicked st then None else
  match l, outer st, scanner st, waiter st with
  | PipeOk, OPipe, _, _ => Some (set_outer OStart st)
  | PipeFail, OPipe, _, _ => Some (set_outer (OSend (Some PipeErr)) st)
  | StartOk, OStart, _, _ => Some (set_outer OSpawnScanner (set_proc Running st))
  | StartFail, OStart, _, _ => Some (set_outer (OSend (Some StartErr)) st)
  | SpawnScanner, OSpawnScanner, _, _ =>
      Some (set_outer OSpawnWaiter (set_scanner SScan st))
  | SpawnWaiter, OSpawnWaiter, _, _ =>
      Some (set_outer OSelect (set_waiter WWait st))
  | SelectCancel, OSelect, _, _ =>
      if cancelled st then Some (set_outer (OSend None) st) else None
  | SelectFinished, OSelect, _, WSend e =>
      Some (set_outer (OSend (Some e)) (set_waiter WCloseErrs st))
  | Outcome e, OSend e', _, _ =>
      if err_eqb e e' && negb (errs_closed st)
      then Some (set_outer OCloseErrs st) else None
  | SendOnClosedErrs, OSend _, _, _ =>
      if errs_closed st then Some (set_panicked true st) else None
  | OuterCloseErrs, OCloseErrs, _, _ =>
      Some (close errs_closed set_errs_closed (set_outer OClosePings) st)
  | OuterClosePings, OClosePings, _, _ =>
      Some (close pings_closed set_pings_closed (set_outer ODone) st)
  | ScanLine, _, SScan, _ =>
      match stdout st with
      | line :: rest =>
          Some (set_stdout rest
                  (set_scanner (match ping.scan_line line with
                                | Some d => SSend d
                                | None => SScan
                                end) st))
      | [] => None
      end
  | ScanEnd, _, SScan, w =>
      (* end of the output: the subprocess has exited and either nothing
         is left to read or cmd.Wait has closed the pipe *)
      match proc st, stdout st, w with
      | Exited _, [], _ => Some (set_scanner SDone st)
      | Exited _, _, (WSend _ | WCloseErrs | WDone) => Some (set_scanner SDone st)
      | _, _, _ => None
      end
  | Sample d, _, SSend d', _ =>
      if (d =? d') && negb (pings_closed st)
      then Some (set_scanner SScan st) else None
  | SendOnClosedPings, _, SSend _, _ =>
      if pings_closed st then Some (set_panicked true st) else None
  | WaitReturns, _, _, WWait =>
      match proc st with
      | Exited true => Some (set_waiter WCloseErrs st)         (* err == nil *)
      | Exited false => Some (set_waiter (WSend WaitErr) st)
      | _ => None
      end
  | WaiterCloseErrs, _, _, WCloseErrs =>
      Some (close errs_closed set_errs_closed (set_waiter WDone) st)
  | Cancel, _, _, _ => Some (set_cancelled true st)
  | Exit ok, _, _, _ =>
      match proc st with
      | Running => Some (set_proc (Exited ok) st)
      | _ => None
      end
  | Writes line, _, _, _ =>
      match proc st with
      | Running => Some (set_stdout (stdout st ++ [line]) st)
      | _ => None
      end
  | _, _, _, _ => None
  end.

(** The state a sequence of steps leads to, when each is enabled. *)
Fixpoint run (tr : list label) (st : state) : option state :=
  match tr with
  | [] => Some st
  | l :: tr' =>
      match step l st with
      | Some st' => run tr' st'
      | None => None
      end
  end.

Definition is_outcome (l : label) : bool :=
  match l with Outcome _ => true | _ => false end.

Definition is_exit (l : label) : bool :=
  match l with Exit _ => true | _ => false end.

Definition is_start (l : label) : bool :=
  match l with StartOk => true | _ => false end.


(** The run in which the context is cancelled while the subprocess runs,
    up to the end of the outer goroutine. *)
Definition cancellation : list label :=
  [PipeOk; StartOk; SpawnScanner; SpawnWaiter; Cancel; SelectCancel;
   Outcome None; OuterCloseErrs; OuterClosePings].


(** The states of the runs in which the subprocess does not exit on its
    own: before it is started ([started = false]) and after. *)
Definition no_exit_state (started : bool) (st : state) : Prop :=
  if started then
    proc st = Running /\
    (waiter st = WNotStarted \/ waiter st = WWait) /\
    match outer st with
    | OSpawnScanner | OSpawnWaiter | OSelect =>
        errs_closed st = false /\ pings_closed st = false /\ panicked st = false
    | OSend None =>
        cancelled st = true /\
        errs_closed st = false /\ pings_closed st = false /\ panicked st = false
    | OCloseErrs =>
        errs_closed st = false /\ pings_closed st = false /\ panicked st = false
    | OClosePings => pings_closed st = false /\ panicked st = false
    | ODone => True
    | _ => False
    end
  else
    proc st = NotStarted /\ waiter st = WNotStarted /\ scanner st = SNotStarted /\
    match outer st with
    | OPipe | OStart | OSend (Some PipeErr) | OSend (Some StartErr) =>
        errs_closed st = false /\ pings_closed st = false
    | OCloseErrs | OClosePings | ODone => True
    | _ => False
    end.

(** The lines the subprocess has written, and the samples the consumer
    has received from [pings], in a run. *)
Definition written (tr : list label) : list string :=
  omap (fun l => match l with Writes line => Some line | _ => None end) tr.

Definition delivered (tr : list label) : list time.Duration :=
  omap (fun l => match l with Sample d => Some d | _ => None end) tr.

(** The samples the scanner makes of lines. *)
Definition parsed (lines : list string) : list time.Duration :=
  omap ping.scan_line lines.

(** The sample the scanner holds, and those to come of the lines not yet
    read. *)
Definition in_flight (st : state) : list time.Duration :=
  match scanner st with
  | SSend d => d :: parsed (stdout st)
  | _ => parsed (stdout st)
  end.

(** The goroutines that have completed their [close(errs)]. *)
Definition outer_closed_errs (st : state) : bool :=
  match outer st with OClosePings | ODone => true | _ => false end.

Definition waiter_closed_errs (st : state) : bool :=
  match waiter st with WDone => true | _ => false end.

(** The states of the runs in which [cmd.Start] has not succeeded. *)
Definition not_started (delivered_outcome : bool) (st : state) : Prop :=
  proc st = NotStarted /\ waiter st = WNotStarted /\ scanner st = SNotStarted /\
  panicked st = false /\
  match outer st with
  | OPipe | OStart | OSend (Some PipeErr) | OSend (Some StartErr) =>
      errs_closed st = false /\ pings_closed st = false /\ delivered_outcome = false
  | OCloseErrs =>
      errs_closed st = false /\ pings_closed st = false /\ delivered_outcome = true
  | OClosePings =>
      errs_closed st = true /\ pings_closed st = false /\ delivered_outcome = true
  | ODone =>
      errs_closed st = true /\ pings_closed st = true /\ delivered_outcome = true
  | _ => False
  end.

End Run.

(** ** pkg/ping/ping.go: the Pinger and the command it runs *)

Module Pinger.

Record Pinger : Type := mkPinger {
  host : string;
  interval : time.Duration
}.

(** [func NewPinger(host string, interval int) *Pinger] *)
Definition NewPinger (h : string) (i : Z) : Pinger :=
  mkPinger h (Int64.mul i time.Second).

(** The command of line 44:
    [exec.Command("ping", p.host, "-i", fmt.Sprintf("%d", p.interval/time.Second))]. *)
Definition command (p : Pinger) : list string :=
  ["ping"%string; host p; "-i"%string; format_d (Int64.quot (interval p) time.Second)].

End Pinger.

(** [model.Init] starts the producer for the model's host and interval
    (line 188); the command of its subprocess. *)
Definition Init_command (m : model) : list string :=
  Pinger.command (Pinger.NewPinger (host m) (interval m)).

(** ** main.go: the tick of the consumer *)

(** The case the select of [model.tick] takes (lines 177-184). *)
Inductive tick_case : Type :=
| FromPings (d : time.Duration)      (* case duration := <-m.pings *)
| FromErrs (e : option Run.err)      (* case err := <-m.errs; nil is [None] *)
| ContextDone.                       (* case <-m.ctx.Done() *)

(** [func (m model) tick() tea.Msg]: the message returned. A nil error
    is the nil message, and [return tea.Quit] returns the command itself,
    a function, as the message: the type switch of [Update] has a case
    for neither. *)
Definition model_tick (c : tick_case) : Msg :=
  match c with
  | FromPings d => DurationMsg d
  | FromErrs (Some _) => errorMsg
  | FromErrs None => otherMsg
  | ContextDone => otherMsg
  end.

(** ** main.go: the views

    [strings.Repeat] and [strings.Join] after the source of Go's standard
    library ([strings/strings.go]). *)

Module strings.

Fixpoint repeat_string (s : string) (n : nat) : string :=
  match n with
  | O => EmptyString
  | S n' => (s ++ repeat_string s n')%string
  end.

(** [func Repeat(s string, count int) string]: a negative count panics,
    and so does a result longer than the greatest int. *)
Definition Repeat (s : string) (count : Z) : option string :=
  if count <? 0 then None
  else if Z.of_nat (String.length s) * count >? Int64.max_int then None
  else Some (repeat_string s (Z.to_nat count)).

(** [func Join(elems []string, sep string) string] *)
Fixpoint Join (elems : list string) (sep : string) : string :=
  match elems with
  | [] => EmptyString
  | [e] => e
  | e :: rest => (e ++ sep ++ Join rest sep)%string
  end.

End strings.

(** [fmt.Sprintf]'s [%5d]: padded with spaces on the left to five
    characters. *)
Definition format_5d (z : Z) : string :=
  let s := format_d z in
  (strings.repeat_string " " (5 - String.length s) ++ s)%string.

Section Views.

(** Go leaves open what the conversion of a float64 to an integer type
    yields when no value of the type is the truncated float64 (a NaN, an
    infinity, a value out of range): "the result value is
    implementation-dependent". [impl] is that result. *)
Variable impl : float -> Z.

(** [int(x)] for a float64 [x]: truncation toward zero. *)
Definition int_of_float64 (x : float) : Z :=
  match Prim2SF x with
  | S754_zero _ => 0
  | S754_finite s m e =>
      let v := if 0 <=? e then Z.shiftl (Z.pos m) e else Z.shiftr (Z.pos m) (- e) in
      let z := if s then - v else v in
      if (Int64.min_int <=? z) && (z <=? Int64.max_int) then z
      else Int64.wrap (impl x)
  | _ => Int64.wrap (impl x)
  end.

(** The string literal of line 155, as the source file has it: seven
    bytes, C3 A2 E2 80 93 CB 86. *)
Definition block : string :=
  String (ascii_of_nat 195) (String (ascii_of_nat 162)
  (String (ascii_of_nat 226) (String (ascii_of_nat 128) (String (ascii_of_nat 147)
  (String (ascii_of_nat 203) (String (ascii_of_nat 134) EmptyString)))))).

(** The loop of lines 144-149. *)
Definition max_count (bs : list Z) : Z :=
  foldl (fun max count => if count >? max then count else max) 0 bs.

(** [int(float64(s.histogram.buckets[i]) / float64(max) * 50)] *)
Definition bar_length (count max : Z) : Z :=
  int_of_float64
    (PrimFloat.mul (PrimFloat.div (time.float64_of_int64 count)
                                  (time.float64_of_int64 max)) 50).

(** The loop of lines 153-156 from index [i] on, over the thresholds not
    yet visited. *)
Fixpoint bars (max : Z) (i : nat) (ths : list Z) (lines : list string)
  : M Stats (list string) :=
  match ths with
  | [] => ret lines
  | threshold :: rest =>
      s <- get ;;
      match buckets (histogram s) !! i with
      | None => panic
      | Some count =>
          match strings.Repeat block (bar_length count max) with
          | None => panic
          | Some bar =>
              bars max (S i) rest
                   (lines ++ [(format_5d threshold ++ "ms : " ++ bar)%string])
          end
      end
  end.

(** [func (s *Stats) PrintHistogram() string] *)
Definition PrintHistogram : M Stats string :=
  s <- get ;;
  let max := max_count (buckets (histogram s)) in
  let lines := [("Histogram, Total: " ++ format_d (total (histogram s)))%string] in
  lines <- bars max 0 (thresholds (histogram s)) lines ;;
  ret (strings.Join lines newline).

(** [func (m model) View() string] *)
Definition View : M model string :=
  m <- get ;;
  str <- zoom stats model.set_stats Stats.String ;;
  hist <- zoom stats model.set_stats PrintHistogram ;;
  ret (strings.Join
         [("PING: " ++ host m ++ " (interval: " ++ format_d (interval m) ++ "s)")%string;
          EmptyString; str; EmptyString; hist] newline).

End Views.

(** ** Sequences of calls, and the words of the specification *)

Definition sumZ (l : list Z) : Z := foldr Z.add 0 l.

(** The least and the greatest of [d :: ds]. *)
Definition minimum (d : Z) (ds : list Z) : Z := foldl Z.min d ds.
Definition maximum (d : Z) (ds : list Z) : Z := foldl Z.max d ds.

(** [w.Update(d1); ...; w.Update(dn)] *)
Fixpoint Window_updates (ds : list Z) : M Window unit :=
  match ds with
  | [] => ret tt
  | d :: ds' => Window.Update d ;; Window_updates ds'
  end.

(** A call on a Window: [Update(d)] or [Reset()]. *)
Inductive Window_call : Type :=
| CallUpdate (d : Z)
| CallReset.

Definition Window_do (c : Window_call) : M Window unit :=
  match c with
  | CallUpdate d => Window.Update d
  | CallReset => Window.Reset
  end.

Fixpoint Window_calls (cs : list Window_call) : M Window unit :=
  match cs with
  | [] => ret tt
  | c :: cs' => Window_do c ;; Window_calls cs'
  end.

(** The values of the updates since the last reset, given those ([acc])
    before the calls [cs]. *)
Fixpoint since_reset (acc : list Z) (cs : list Window_call) : list Z :=
  match cs with
  | [] => acc
  | CallUpdate d :: cs' => since_reset (acc ++ [d]) cs'
  | CallReset :: cs' => since_reset [] cs'
  end.

(** [h.Update(d1); ...; h.Update(dn)] *)
Fixpoint Histogram_updates (ds : list Z) : M Histogram unit :=
  match ds with
  | [] => ret tt
  | d :: ds' => Histogram.Update d ;; Histogram_updates ds'
  end.

(** A histogram as [NewHistogram] makes it: one bucket per threshold. *)
Definition well_formed (h : Histogram) : Prop :=
  length (buckets h) = length (thresholds h).

(** The largest threshold, if there is one. *)
Fixpoint largest (ths : list Z) : option Z :=
  match ths with
  | [] => None
  | t :: ths' =>
      match largest ths' with
      | None => Some t
      | Some t' => Some (Z.max t t')
      end
  end.

Definition within_largest (ths : list Z) (d : Z) : Prop :=
  exists t, largest ths = Some t /\ d <= t.

(** What a Window holds of the values [ds] applied since it was last
    empty. *)
Definition tracks (w : Window) (ds : list Z) : Prop :=
  Total w = Int64.wrap (sumZ ds) /\
  Count w = Int64.wrap (Z.of_nat (length ds)) /\
  Min w <= Max w /\
  (ds = [] -> w = Window.zero).

(** The position of the first threshold, in the order of the slice, that
    the sample [d] does not exceed. *)
Fixpoint first_fit (d : Z) (ths : list Z) : option nat :=
  match ths with
  | [] => None
  | t :: ths' => if d <=? t then Some O else S <$> first_fit d ths'
  end.

Definition fits (ths : list Z) (d : Z) : bool :=
  match first_fit d ths with Some _ => true | None => false end.

(** A histogram over the thresholds [ths] that has seen [n] samples, [c]
    of them counted in a bucket. *)
Definition counts (ths : list Z) (h : Histogram) (n c : Z) : Prop :=
  thresholds h = ths /\
  length (buckets h) = length ths /\
  Forall (fun b => 0 <= b) (buckets h) /\
  sumZ (buckets h) = c /\
  total h = n /\
  0 <= c <= n.

(** How many of the samples [ds] some threshold admits. *)
Fixpoint fitting (ths : list Z) (ds : list Z) : Z :=
  match ds with
  | [] => 0
  | d :: ds' => (if fits ths d then 1 else 0) + fitting ths ds'
  end.

(** The consumer's model at the start of [test]. *)
Definition initial_model (h : string) (i window : Z) (now : time.Time) : model :=
  mkModel h i window None None (model.initial_stats window now).

(** The pipeline from the subprocess's output to the consumer: each line,
    read at the clock readings paired with it, becomes the message that
    carries its sample, or nothing when the scanner drops the line. *)
Fixpoint deliveries (lines : list (string * (time.Time * time.Time))) : list event :=
  match lines with
  | [] => []
  | (line, (now1, now2)) :: rest =>
      match ping.scan_line line with
      | Some d => Deliver now1 now2 (DurationMsg d) :: deliveries rest
      | None => deliveries rest
      end
  end.

(** ** The words of the specification about data lines *)

Fixpoint all_digits (s : string) : bool :=
  match s with
  | EmptyString => true
  | String c s' => time.is_digit c && all_digits s'
  end.

(** A field written as one or more decimal digits. *)
Definition number (s : string) : Prop :=
  s <> EmptyString /\ all_digits s = true.

Fixpoint decimal_from (x : Z) (s : string) : Z :=
  match s with
  | EmptyString => x
  | String c s' => decimal_from (x * 10 + (time.byte c - 48)) s'
  end.

(** The value of a string of decimal digits. *)
Definition decimal (s : string) : Z := decimal_from 0 s.

(** [<n> bytes from <a>.<b>.<c>.<d>: icmp_seq=<seq> ttl=<ttl> time=<ip>.<fp> ms] *)
Definition data_line (n a b c d seq ttl ip fp : string) : string :=
  (n ++ " bytes from " ++ a ++ "." ++ b ++ "." ++ c ++ "." ++ d
     ++ ": icmp_seq=" ++ seq ++ " ttl=" ++ ttl
     ++ " time=" ++ ip ++ "." ++ fp ++ " ms")%string.

(** The parser yields for [line] a sample of exactly [ip.fp] milliseconds:
    the sample [dur], in nanoseconds, is [ip.fp * 10^6]. *)
Definition exact_sample (line ip fp : string) : Prop :=
  exists dur, ping.processLine line = (dur, None) /\
    dur * 10 ^ Z.of_nat (String.length fp) =
    (decimal ip * 10 ^ Z.of_nat (String.length fp) + decimal fp) * 1000000.

(** What follows a field is not a digit. *)
Definition ends_number (rest : string) : bool :=
  match rest with
  | EmptyString => true
  | String c _ => negb (time.is_digit c)
  end.

(** ** The float64 arithmetic of ParseDuration on short fractions *)

(** [scale] after [k] digits of [leadingFraction]. *)
Fixpoint scale_up (k : nat) (scale : float) : float :=
  match k with
  | O => scale
  | S k' => scale_up k' (PrimFloat.mul scale 10%float)
  end.

(** [P 0 && P 1 && ... && P (n-1)] *)
Definition check_upto (P : Z -> bool) (n : N) : bool :=
  snd (N.iter n (fun '(i, ok) => (i + 1, ok && P i)) (0, true)).

(** The product [float64(f) * c] is the float64 of the integer [f * m]. *)
Definition exact_at (c : float) (m : int) (f : Z) : bool :=
  let i := Uint63.of_Z f in
  PrimFloat.eqb (PrimFloat.mul (PrimFloat.of_uint63 i) c)
                (PrimFloat.of_uint63 (Uint63.mul i m)).

(** [float64(unit) / scale] for the unit ms after [k] fraction digits. *)
Definition unit_over_scale (k : nat) : float :=
  PrimFloat.div (time.float64_of_uint64 1000000) (scale_up k 1%float).

(** For every fraction [f] of [k] digits, [float64(f) * (1e6 / 10^k)] is
    computed exactly. *)
Definition exact_for (k : nat) : bool :=
  check_upto (exact_at (unit_over_scale k) (Uint63.of_Z (10 ^ (6 - Z.of_nat k))))
             (10 ^ N.of_nat k).

(** ** Sequences of samples, and invariants *)

(** State of a window in terms of the values applied since it was last
    empty, whatever their sign. *)
Definition bounds_latest (w : Window) (acc : list Z) : Prop :=
  Max w = maximum 0 acc /\
  forall acc' d, acc = acc' ++ [d] -> Min w <= d <= Max w.

(** Thresholds in non-decreasing order. *)
Definition ascending (ths : list Z) : Prop :=
  forall j k tj tk, (j <= k)%nat -> ths !! j = Some tj -> ths !! k = Some tk -> tj <= tk.

(** [s.Update(d1); ...; s.Update(dn)], each with its two clock readings. *)
Fixpoint Stats_updates (samples : list (time.Time * time.Time * Z)) : M Stats unit :=
  match samples with
  | [] => ret tt
  | (now1, now2, d) :: rest => Stats.Update now1 now2 d ;; Stats_updates rest
  end.

(** The values of the samples. *)
Definition values (samples : list (time.Time * time.Time * Z)) : list Z :=
  map snd samples.

(** No sample of [samples] finds the window of [s] past its span. *)
Definition within_span (s : Stats) (samples : list (time.Time * time.Time * Z)) : Prop :=
  Forall (fun x => Stats.elapsed_exceeds (fst (fst x)) s = false) samples.

(** What [Stats.Update] keeps, after [n] samples. *)
Definition Stats_counts (size : time.Duration) (ths : list Z) (n : Z) (s : Stats) : Prop :=
  windowSize s = size /\ thresholds (histogram s) = ths /\
  well_formed (histogram s) /\
  total (histogram s) = n /\ Count (totals s) = n /\
  0 <= Count (window s) <= n /\ 0 <= Count (lastWindow s) <= n.

(** One character as [.] takes it: between one and four bytes, the first
    of which is not a newline. *)
Definition one_char (w : string) : Prop :=
  (1 <= String.length w <= 4)%nat /\
  forall c w', w = String c w' -> time.byte c <> 10.

(** The shape of the lines the pattern accepts. *)
Definition line_shape (n a w1 b w2 c w3 d seq ttl ip w fp : string) : string :=
  (n ++ " bytes from " ++ a ++ w1 ++ b ++ w2 ++ c ++ w3 ++ d
     ++ ": icmp_seq=" ++ seq ++ " ttl=" ++ ttl
     ++ " time=" ++ ip ++ w ++ fp ++ " ms")%string.

(** [<n> bytes from <a>.<b>.<c>.<d>: icmp_seq=<seq> ttl=<ttl> time=<t> ms] *)
Definition whole_line (n a b c d seq ttl t : string) : string :=
  (n ++ " bytes from " ++ a ++ "." ++ b ++ "." ++ c ++ "." ++ d
     ++ ": icmp_seq=" ++ seq ++ " ttl=" ++ ttl
     ++ " time=" ++ t ++ " ms")%string.

(** What follows [\d+] inside the parentheses, to the end of the pattern. *)
Definition after_digits : list regexp.inst :=
  [regexp.AnyNotNL; regexp.Digits; regexp.CapClose] ++ regexp.lit " ms" ++ [regexp.EndText].

(** Before the waiter is spawned it has not started. *)
Definition waiter_unborn (st : Run.state) : Prop :=
  match Run.outer st with
  | Run.OPipe | Run.OStart | Run.OSpawnScanner | Run.OSpawnWaiter =>
      Run.waiter st = Run.WNotStarted
  | _ => True
  end.

(** The samples of the lines written are those delivered, then those in
    flight; once the scanner has ended, those delivered and the ones lost. *)
Definition in_order (tr : list Run.label) (st : Run.state) : Prop :=
  match Run.outer st with
  | Run.OPipe | Run.OStart | Run.OSpawnScanner => Run.scanner st = Run.SNotStarted
  | _ => True
  end /\
  match Run.scanner st with
  | Run.SDone => exists rest, Run.parsed (Run.written tr) = Run.delivered tr ++ rest
  | _ => Run.parsed (Run.written tr) = Run.delivered tr ++ Run.in_flight st
  end.

(** The scanner has been spawned. *)
Definition scanner_spawned (st : Run.state) : Prop :=
  match Run.outer st with
  | Run.OPipe | Run.OStart | Run.OSpawnScanner => False
  | _ => True
  end.

(** The lines of the bars, for the bar lengths [len]. *)
Definition bar_lines (len : Z -> Z) (ths bs : list Z) : list string :=
  zip_with (fun t b => format_5d t ++ "ms : "
                       ++ strings.repeat_string block (Z.to_nat (len b)))%string ths bs.

(** * Properties *)

(** ** Machine integers *)

Lemma wrap_in_range (z : Z) : Int64.in_range z -> Int64.wrap z = z.
Proof.
  unfold Int64.in_range, Int64.wrap, Int64.min_int, Int64.max_int.
  intros H. rewrite Z.mod_small by lia. lia.
Qed.

Lemma wrap_add_wrap_l (a b : Z) : Int64.wrap (Int64.wrap a + b) = Int64.wrap (a + b).
Proof.
  unfold Int64.wrap.
  replace ((a + 2 ^ 63) mod 2 ^ 64 - 2 ^ 63 + b + 2 ^ 63)
    with ((a + 2 ^ 63) mod 2 ^ 64 + b) by lia.
  rewrite Z.add_mod_idemp_l by lia.
  f_equal. f_equal. lia.
Qed.

(** ** Window *)

Lemma Window_Update_run (d : Z) (w : Window) :
  Window.Update d w =
  Some (tt, mkWindow (if (Min w =? 0) || (d <? Min w) then d else Min w)
                     (if d >? Max w then d else Max w)
                     (Int64.add (Total w) d)
                     (Int64.add (Count w) 1)).
Proof.
  destruct w as [mn mx tot cnt].
  unfold Window.Update, bind, get, when, modify, ret. cbn.
  destruct ((mn =? 0) || (d <? mn)); cbn; destruct (d >? mx); reflexivity.
Qed.

Lemma Window_Reset_run (w : Window) : Window.Reset w = Some (tt, Window.zero).
Proof. reflexivity. Qed.

Lemma Window_Average_run (w : Window) :
  Window.Average w =
  Some (if Count w =? 0 then 0 else Int64.quot (Total w) (Count w), w).
Proof.
  unfold Window.Average, bind, get, ret. destruct (Count w =? 0); reflexivity.
Qed.

Lemma sumZ_app (l1 l2 : list Z) : sumZ (l1 ++ l2) = sumZ l1 + sumZ l2.
Proof.
  unfold sumZ. induction l1 as [|x l1 IH]; cbn; [reflexivity|].
  rewrite IH. lia.
Qed.

Lemma tracks_zero : tracks Window.zero [].
Proof. repeat split; cbn; lia. Qed.

Lemma tracks_Update (w : Window) (ds : list Z) (d : Z) :
  tracks w ds ->
  exists w', Window.Update d w = Some (tt, w') /\ tracks w' (ds ++ [d]).
Proof.
  intros (Htot & Hcnt & Hle & _).
  eexists. split; [apply Window_Update_run|].
  repeat split; cbn [Min Max Total Count].
  - unfold Int64.add. rewrite Htot, wrap_add_wrap_l, sumZ_app. cbn. f_equal. lia.
  - unfold Int64.add. rewrite Hcnt, wrap_add_wrap_l, length_app. cbn. f_equal. lia.
  - destruct ((Min w =? 0) || (d <? Min w)) eqn:E1; destruct (d >? Max w) eqn:E2; lia.
  - intros E. destruct ds; discriminate E.
Qed.

Lemma length_since_reset (cs : list Window_call) (acc : list Z) :
  (length (since_reset acc cs) <= length acc + length cs)%nat.
Proof.
  revert acc. induction cs as [|[d|] cs IH]; intros acc; cbn.
  - lia.
  - specialize (IH (acc ++ [d])). rewrite length_app in IH. cbn in IH. lia.
  - specialize (IH []). cbn in IH. lia.
Qed.

Lemma tracks_calls (cs : list Window_call) (w : Window) (acc : list Z) :
  tracks w acc ->
  exists w', Window_calls cs w = Some (tt, w') /\ tracks w' (since_reset acc cs).
Proof.
  revert w acc.
  induction cs as [|[d|] cs IH]; intros w acc Hw; cbn [Window_calls Window_do since_reset].
  - exists w. split; [reflexivity | assumption].
  - destruct (tracks_Update w acc d Hw) as (w1 & E1 & H1).
    destruct (IH w1 _ H1) as (w2 & E2 & H2).
    exists w2. split; [|assumption].
    unfold bind. rewrite E1. exact E2.
  - destruct (IH Window.zero [] tracks_zero) as (w2 & E2 & H2).
    exists w2. split; [|assumption].
    unfold bind. rewrite Window_Reset_run. exact E2.
Qed.

(** C6. Every Window reached from the empty one by calls of Update and
    Reset (fewer than 2^63 of them, so that the counter has not wrapped
    around) has all its fields zero when its count is zero, has
    Min <= Max when its count is positive, and holds in Total the sum of
    the values applied since the last reset: the sum as int64 arithmetic
    computes it, which is the exact sum whenever that fits in an int64. *)
Theorem Window_invariants (cs : list Window_call) :
  Z.of_nat (length cs) <= Int64.max_int ->
  exists w, exec (Window_calls cs) Window.zero = Some w /\
    (Count w = 0 -> Min w = 0 /\ Max w = 0 /\ Total w = 0) /\
    (Count w > 0 -> Min w <= Max w) /\
    Total w = Int64.wrap (sumZ (since_reset [] cs)) /\
    (Int64.in_range (sumZ (since_reset [] cs)) ->
     Total w = sumZ (since_reset [] cs)).
Proof.
  intros Hlen.
  destruct (tracks_calls cs Window.zero [] tracks_zero) as (w & E & Htot & Hcnt & Hle & Hz).
  exists w. split; [unfold exec; rewrite E; reflexivity|].
  pose proof (length_since_reset cs []) as Hl. cbn in Hl.
  rewrite wrap_in_range in Hcnt
    by (unfold Int64.in_range, Int64.min_int, Int64.max_int in *; lia).
  repeat split.
  - rewrite Hz; [reflexivity|]. destruct (since_reset [] cs); [reflexivity | cbn in Hcnt; lia].
  - rewrite Hz; [reflexivity|]. destruct (since_reset [] cs); [reflexivity | cbn in Hcnt; lia].
  - rewrite Hz; [reflexivity|]. destruct (since_reset [] cs); [reflexivity | cbn in Hcnt; lia].
  - intros _. exact Hle.
  - exact Htot.
  - intros Hr. rewrite Htot. apply wrap_in_range, Hr.
Qed.

Lemma Window_invariants_witness :
  let cs := [CallUpdate 3; CallReset; CallUpdate 5; CallUpdate 2] in
  Z.of_nat (length cs) <= Int64.max_int /\
  exists w, exec (Window_calls cs) Window.zero = Some w /\
    (Count w = 0 -> Min w = 0 /\ Max w = 0 /\ Total w = 0) /\
    (Count w > 0 -> Min w <= Max w) /\
    Total w = Int64.wrap (sumZ (since_reset [] cs)) /\
    (Int64.in_range (sumZ (since_reset [] cs)) ->
     Total w = sumZ (since_reset [] cs)).
Proof.
  intros cs.
  assert (H : Z.of_nat (length cs) <= Int64.max_int) by (vm_compute; discriminate).
  split; [exact H | exact (Window_invariants cs H)].
Defined.

(** [Window.Update] on the samples 0 and 7 (a round trip below one
    millisecond, then one of 7 ms). *)
Lemma Window_updates_0_7 :
  exec (Window_updates [0; 7]) Window.zero = Some (mkWindow 7 7 7 2).
Proof. reflexivity. Qed.

Lemma Window_updates_from (ds : list Z) (w : Window) (t c : Z) :
  0 < Min w ->
  Total w = Int64.wrap t ->
  Count w = Int64.wrap c ->
  Forall (fun d => 0 < d) ds ->
  exists w', Window_updates ds w = Some (tt, w') /\
    Min w' = foldl Z.min (Min w) ds /\
    Max w' = foldl Z.max (Max w) ds /\
    Total w' = Int64.wrap (t + sumZ ds) /\
    Count w' = Int64.wrap (c + Z.of_nat (length ds)).
Proof.
  revert w t c. induction ds as [|d ds IH]; intros w t c Hmin Ht Hc Hpos.
  - exists w. cbn. rewrite !Z.add_0_r. auto.
  - inversion Hpos as [|? ? Hd Hds]; subst.
    cbn [Window_updates]. unfold bind. rewrite Window_Update_run.
    set (w1 := mkWindow _ _ _ _).
    assert (Hmin1 : Min w1 = Z.min (Min w) d).
    { subst w1. cbn. destruct (Min w =? 0) eqn:E0; [lia|]. cbn.
      destruct (d <? Min w) eqn:E; lia. }
    assert (Hmax1 : Max w1 = Z.max (Max w) d).
    { subst w1. cbn. destruct (d >? Max w) eqn:E; lia. }
    destruct (IH w1 (t + d) (c + 1)) as (w' & E & H1 & H2 & H3 & H4).
    + rewrite Hmin1. lia.
    + subst w1. cbn. unfold Int64.add. rewrite Ht. apply wrap_add_wrap_l.
    + subst w1. cbn. unfold Int64.add. rewrite Hc. apply wrap_add_wrap_l.
    + assumption.
    + exists w'. split; [exact E|].
      rewrite H1, H2, H3, H4, Hmin1, Hmax1. unfold sumZ. cbn [foldl foldr length].
      repeat split; f_equal; lia.
Qed.

(** What C1 states does hold when every sample is positive: the Window
    then has the least and the greatest sample, their number and their
    sum, and Average is the floor of the mean. *)
Lemma Window_updates_positive (d : Z) (ds : list Z) :
  Forall (fun x => 0 < x) (d :: ds) ->
  Z.of_nat (length (d :: ds)) <= Int64.max_int ->
  sumZ (d :: ds) <= Int64.max_int ->
  exists w, exec (Window_updates (d :: ds)) Window.zero = Some w /\
    Min w = minimum d ds /\
    Max w = maximum d ds /\
    Count w = Z.of_nat (length (d :: ds)) /\
    Total w = sumZ (d :: ds) /\
    eval Window.Average w = Some (sumZ (d :: ds) / Z.of_nat (length (d :: ds))).
Proof.
  intros Hpos Hlen Hsum.
  inversion Hpos as [|? ? Hd Hds]; subst.
  assert (Hnn : 0 <= sumZ ds).
  { clear -Hds. induction Hds; cbn; [lia|]. unfold sumZ in *. lia. }
  cbn [Window_updates]. unfold exec, bind. rewrite Window_Update_run.
  cbn [Min Max Total Count Window.zero Z.eqb orb].
  replace (d >? 0) with true by (symmetry; apply Z.gtb_lt; lia).
  destruct (Window_updates_from ds (mkWindow d d (Int64.add 0 d) (Int64.add 0 1)) d 1)
    as (w & E & H1 & H2 & H3 & H4); cbn [Min Max Total Count]; try assumption.
  - reflexivity.
  - reflexivity.
  - rewrite E. exists w. cbn [fmap option_fmap option_map snd].
    cbn [Min Max] in H1, H2. cbn [sumZ foldr length] in *.
    fold (sumZ ds) in *.
    rewrite wrap_in_range in H3
      by (unfold Int64.in_range, Int64.min_int, Int64.max_int in *; lia).
    rewrite wrap_in_range in H4
      by (unfold Int64.in_range, Int64.min_int, Int64.max_int in *; lia).
    repeat split; try assumption.
    + rewrite H4. lia.
    + unfold eval. rewrite Window_Average_run. cbn [fmap option_fmap option_map fst].
      rewrite H3, H4.
      replace (1 + Z.of_nat (length ds) =? 0) with false by (symmetry; apply Z.eqb_neq; lia).
      f_equal. unfold Int64.quot.
      rewrite Z.quot_div_nonneg by lia.
      replace (Z.of_nat (S (length ds))) with (1 + Z.of_nat (length ds)) by lia.
      apply wrap_in_range.
      assert (0 <= (d + sumZ ds) / (1 + Z.of_nat (length ds)) <= d + sumZ ds).
      { split; [apply Z.div_pos; lia|].
        apply Z.div_le_upper_bound; [lia|]. nia. }
      unfold Int64.in_range, Int64.min_int, Int64.max_int in *. lia.
Qed.

(** ** Histogram *)

Lemma first_fit_Some (d : Z) (ths : list Z) (i : nat) :
  first_fit d ths = Some i <->
  exists t, ths !! i = Some t /\ d <= t /\
    forall j t', (j < i)%nat -> ths !! j = Some t' -> t' < d.
Proof.
  revert i. induction ths as [|t ths IH]; intros i; cbn [first_fit].
  - split; [discriminate | intros (t & E & _); discriminate E].
  - destruct (d <=? t) eqn:E.
    + split.
      * intros [= <-]. exists t. repeat split; [lia | intros j t' Hj; lia].
      * intros (t0 & Ei & Hle & Hlt). destruct i as [|i]; [reflexivity|].
        specialize (Hlt O t ltac:(lia) eq_refl). lia.
    + split.
      * destruct (first_fit d ths) as [k|] eqn:Ek; [|discriminate].
        intros [= <-]. destruct (proj1 (IH k) eq_refl) as (t0 & Ei & Hle & Hlt).
        exists t0. repeat split; [exact Ei | exact Hle |].
        intros [|j] t' Hj Ej; cbn in Ej.
        -- injection Ej as <-. lia.
        -- apply (Hlt j); [lia | exact Ej].
      * intros (t0 & Ei & Hle & Hlt). destruct i as [|i].
        -- cbn in Ei. injection Ei as <-. lia.
        -- cbn in Ei.
           assert (Ek : first_fit d ths = Some i).
           { apply IH. exists t0. repeat split; [exact Ei | exact Hle |].
             intros j t' Hj Ej. apply (Hlt (S j)); [lia | exact Ej]. }
           rewrite Ek. reflexivity.
Qed.

Lemma first_fit_None (d : Z) (ths : list Z) :
  first_fit d ths = None <-> Forall (fun t => t < d) ths.
Proof.
  induction ths as [|t ths IH]; cbn [first_fit].
  - split; [constructor | reflexivity].
  - destruct (d <=? t) eqn:E.
    + split; [discriminate | intros H; inversion H; lia].
    + destruct (first_fit d ths) eqn:Ek.
      * split; [discriminate|]. intros H. inversion H; subst.
        destruct IH as [_ IH]. discriminate IH. assumption.
      * split; [|reflexivity]. intros _. constructor; [lia|]. apply IH. reflexivity.
Qed.

Lemma first_fit_lt (d : Z) (ths : list Z) (i : nat) :
  first_fit d ths = Some i -> (i < length ths)%nat.
Proof.
  intros H. apply first_fit_Some in H as (t & E & _).
  apply lookup_lt_Some in E. exact E.
Qed.

Lemma fits_within_largest (ths : list Z) (d : Z) :
  fits ths d = true <-> within_largest ths d.
Proof.
  unfold fits, within_largest.
  induction ths as [|t ths IH]; cbn [first_fit largest].
  - split; [discriminate | intros (t & E & _); discriminate E].
  - destruct (d <=? t) eqn:E.
    + split; [|reflexivity]. intros _.
      destruct (largest ths) as [t'|]; eexists; (split; [reflexivity | lia]).
    + destruct (first_fit d ths) as [k|] eqn:Ek; cbn.
      * destruct IH as [IH _]. destruct (IH eq_refl) as (t' & -> & Hle).
        split; [|reflexivity]. intros _. eexists. split; [reflexivity | lia].
      * split; [discriminate|]. intros (t0 & E0 & Hle).
        destruct (largest ths) as [t'|].
        -- destruct IH as [_ IH]. injection E0 as <-.
           assert (d <= t') by lia.
           discriminate IH. exists t'. split; [reflexivity | assumption].
        -- injection E0 as <-. lia.
Qed.

Lemma range_thresholds_run (d : Z) (ths : list Z) (i : nat) (h : Histogram) :
  Histogram.range_thresholds d i ths h =
  match first_fit d ths with
  | Some k => Histogram.incr_bucket (i + k) h
  | None => Some (tt, h)
  end.
Proof.
  revert i. induction ths as [|t ths IH]; intros i; cbn [Histogram.range_thresholds first_fit].
  - reflexivity.
  - destruct (d <=? t).
    + rewrite Nat.add_0_r. reflexivity.
    + rewrite IH. destruct (first_fit d ths) as [k|]; cbn [fmap option_fmap option_map];
        [|reflexivity].
      replace (S i + k)%nat with (i + S k)%nat by lia. reflexivity.
Qed.

Lemma incr_bucket_run (i : nat) (c : Z) (h : Histogram) :
  buckets h !! i = Some c ->
  Histogram.incr_bucket i h =
  Some (tt, Histogram.set_buckets (<[i := Int64.add c 1]> (buckets h)) h).
Proof.
  intros E. unfold Histogram.incr_bucket, bind, get. rewrite E. reflexivity.
Qed.

Lemma sumZ_lookup_le (l : list Z) (i : nat) (x : Z) :
  Forall (fun b => 0 <= b) l -> l !! i = Some x -> 0 <= x <= sumZ l.
Proof.
  intros Hl. revert i. induction Hl as [|y l Hy Hl IH]; intros i E.
  - discriminate E.
  - assert (0 <= sumZ l).
    { clear -Hl. induction Hl; cbn; [lia|]. unfold sumZ in *. lia. }
    unfold sumZ in *. cbn [foldr]. destruct i as [|i]; cbn in E.
    + injection E as <-. lia.
    + specialize (IH i E). lia.
Qed.

Lemma sumZ_insert (l : list Z) (i : nat) (x y : Z) :
  l !! i = Some x -> sumZ (<[i := y]> l) = sumZ l - x + y.
Proof.
  unfold sumZ. revert i. induction l as [|z l IH]; intros i E.
  - discriminate E.
  - destruct i as [|i]; simpl in *.
    + injection E as <-. lia.
    + rewrite (IH i E). lia.
Qed.

Lemma counts_New (ths : list Z) : counts ths (NewHistogram ths) 0 0.
Proof.
  unfold counts, NewHistogram. cbn [thresholds buckets total].
  repeat split; try lia.
  - apply length_replicate.
  - apply Forall_replicate. lia.
  - induction (length ths) as [|n IH]; cbn; [reflexivity|]. unfold sumZ in IH. lia.
Qed.

Lemma counts_Update (ths : list Z) (h : Histogram) (n c d : Z) :
  counts ths h n c ->
  n < Int64.max_int ->
  exists h', Histogram.Update d h = Some (tt, h') /\
    counts ths h' (n + 1) (c + (if fits ths d then 1 else 0)) /\
    match first_fit d ths with
    | Some i => exists b, buckets h !! i = Some b /\ buckets h' = <[i := b + 1]> (buckets h)
    | None => buckets h' = buckets h
    end.
Proof.
  intros (Hth & Hlen & Hnn & Hsum & Htot & Hc) Hn.
  assert (Htot1 : Int64.add (total h) 1 = n + 1).
  { unfold Int64.add. rewrite Htot. apply wrap_in_range.
    unfold Int64.in_range, Int64.min_int, Int64.max_int in *. lia. }
  unfold Histogram.Update, bind, get. rewrite range_thresholds_run, Hth.
  unfold fits. destruct (first_fit d ths) as [i|] eqn:Ei.
  - pose proof (first_fit_lt _ _ _ Ei) as Hi.
    destruct (lookup_lt_is_Some_2 (buckets h) i) as [b Eb]; [lia|].
    pose proof (sumZ_lookup_le _ _ _ Hnn Eb) as Hb.
    assert (Hb1 : Int64.add b 1 = b + 1).
    { unfold Int64.add. apply wrap_in_range.
      unfold Int64.in_range, Int64.min_int, Int64.max_int in *. lia. }
    cbn [Nat.add]. rewrite (incr_bucket_run i b h Eb). unfold modify.
    cbn [Histogram.set_total Histogram.set_buckets thresholds buckets total].
    rewrite Htot1, Hb1.
    eexists. split; [reflexivity|]. split.
    + unfold counts, Histogram.set_total, Histogram.set_buckets.
      cbn [thresholds buckets total].
      split; [exact Hth|].
      split; [rewrite length_insert; exact Hlen|].
      split; [apply Forall_insert; [assumption | lia]|].
      split; [rewrite (sumZ_insert _ _ _ _ Eb); lia|].
      split; [reflexivity | lia].
    + exists b. split; [exact Eb | reflexivity].
  - unfold modify. cbn [Histogram.set_total thresholds buckets total].
    rewrite Htot1.
    eexists. split; [reflexivity|]. split; [|reflexivity].
    unfold counts, Histogram.set_total. cbn [thresholds buckets total].
    split; [exact Hth|]. split; [exact Hlen|]. split; [exact Hnn|].
    split; [lia|]. split; [reflexivity | lia].
Qed.

Lemma fitting_bounds (ths ds : list Z) : 0 <= fitting ths ds <= Z.of_nat (length ds).
Proof.
  induction ds as [|d ds IH]; cbn [fitting length]; [lia|].
  destruct (fits ths d); lia.
Qed.

Lemma fitting_all (ths ds : list Z) :
  fitting ths ds = Z.of_nat (length ds) <-> Forall (within_largest ths) ds.
Proof.
  induction ds as [|d ds IH]; cbn [fitting length].
  - split; [constructor | reflexivity].
  - pose proof (fitting_bounds ths ds) as Hb.
    destruct (fits ths d) eqn:E.
    + split.
      * intros H. constructor; [apply fits_within_largest, E | apply IH; lia].
      * intros H. inversion H; subst. apply IH in H3. lia.
    + split; [lia|]. intros H. inversion H as [|? ? Hd ?]; subst.
      apply fits_within_largest in Hd. congruence.
Qed.

Lemma counts_updates (ths : list Z) (ds : list Z) (h : Histogram) (n c : Z) :
  counts ths h n c ->
  n + Z.of_nat (length ds) <= Int64.max_int ->
  exists h', Histogram_updates ds h = Some (tt, h') /\
    counts ths h' (n + Z.of_nat (length ds)) (c + fitting ths ds).
Proof.
  revert h n c. induction ds as [|d ds IH]; intros h n c Hh Hn; cbn [Histogram_updates].
  - exists h. split; [reflexivity|]. cbn. rewrite !Z.add_0_r. exact Hh.
  - cbn [length] in Hn.
    destruct (counts_Update ths h n c d Hh) as (h1 & E1 & H1 & _); [lia|].
    destruct (IH h1 _ _ H1) as (h2 & E2 & H2); [lia|].
    exists h2. split; [unfold bind; rewrite E1; exact E2|].
    cbn [fitting length].
    replace (n + Z.of_nat (S (length ds))) with (n + 1 + Z.of_nat (length ds)) by lia.
    replace (c + ((if fits ths d then 1 else 0) + fitting ths ds))
      with (c + (if fits ths d then 1 else 0) + fitting ths ds) by lia.
    exact H2.
Qed.

(** C3. In the histogram reached from [NewHistogram ths] by any sequence
    of samples [ds] (fewer than 2^63 - 1, so that no counter has wrapped
    around), one more sample [d] adds one to the total in every case; it
    adds one to exactly one bucket, that of the first threshold, in the
    order of the slice, with [d <= threshold] (so a sample equal to a
    threshold goes to that threshold's bucket), and to no bucket when it
    exceeds every threshold. Therefore the sum of the buckets is at most
    the total, and equals it exactly when every sample was within the
    largest threshold. *)
Theorem Histogram_Update_counts_first_fit (ths ds : list Z) (d : Z) :
  Z.of_nat (length ds) < Int64.max_int ->
  exists h h',
    exec (Histogram_updates ds) (NewHistogram ths) = Some h /\
    exec (Histogram.Update d) h = Some h' /\
    thresholds h = ths /\ thresholds h' = ths /\
    total h = Z.of_nat (length ds) /\
    total h' = total h + 1 /\
    match first_fit d ths with
    | Some i =>
        (exists t, ths !! i = Some t /\ d <= t /\
           forall j t', (j < i)%nat -> ths !! j = Some t' -> t' < d) /\
        (exists b, buckets h !! i = Some b /\ buckets h' = <[i := b + 1]> (buckets h))
    | None =>
        Forall (fun t => t < d) ths /\ buckets h' = buckets h
    end /\
    sumZ (buckets h) <= total h /\
    (sumZ (buckets h) = total h <-> Forall (within_largest ths) ds).
Proof.
  intros Hlen.
  destruct (counts_updates ths ds _ 0 0 (counts_New ths)) as (h & E & Hh); [lia|].
  cbn [Z.add] in Hh.
  destruct (counts_Update ths h _ _ d Hh) as (h' & E' & Hh' & Hb); [lia|].
  exists h, h'.
  destruct Hh as (Hth & _ & _ & Hsum & Htot & Hc).
  destruct Hh' as (Hth' & _ & _ & _ & Htot' & _).
  unfold exec. rewrite E, E'. cbn [fmap option_fmap option_map snd].
  repeat split; try assumption; try lia.
  - destruct (first_fit d ths) as [i|] eqn:Ei.
    + split; [apply first_fit_Some, Ei | exact Hb].
    + split; [apply first_fit_None, Ei | exact Hb].
  - intros H. apply fitting_all. lia.
  - intros H. apply fitting_all in H. lia.
Qed.

Lemma Histogram_Update_counts_first_fit_witness :
  let ths := [1; 2; 5; 10; 20; 50; 100; 200; 500; 1000] in
  let ds := [1; 3; 2000; 5] in
  Z.of_nat (length ds) < Int64.max_int /\
  exists h h',
    exec (Histogram_updates ds) (NewHistogram ths) = Some h /\
    exec (Histogram.Update 5) h = Some h' /\
    thresholds h = ths /\ thresholds h' = ths /\
    total h = Z.of_nat (length ds) /\
    total h' = total h + 1 /\
    match first_fit 5 ths with
    | Some i =>
        (exists t, ths !! i = Some t /\ 5 <= t /\
           forall j t', (j < i)%nat -> ths !! j = Some t' -> t' < 5) /\
        (exists b, buckets h !! i = Some b /\ buckets h' = <[i := b + 1]> (buckets h))
    | None =>
        Forall (fun t => t < 5) ths /\ buckets h' = buckets h
    end /\
    sumZ (buckets h) <= total h /\
    (sumZ (buckets h) = total h <-> Forall (within_largest ths) ds).
Proof.
  intros ths ds.
  assert (H : Z.of_nat (length ds) < Int64.max_int) by (vm_compute; reflexivity).
  split; [exact H | exact (Histogram_Update_counts_first_fit ths ds 5 H)].
Defined.

Lemma Histogram_Update_total (d : Z) (h : Histogram) :
  well_formed h ->
  exists h', Histogram.Update d h = Some (tt, h') /\
    well_formed h' /\ thresholds h' = thresholds h /\
    total h' = Int64.add (total h) 1.
Proof.
  unfold well_formed. intros Hwf.
  unfold Histogram.Update, bind, get. rewrite range_thresholds_run.
  destruct (first_fit d (thresholds h)) as [i|] eqn:Ei.
  - pose proof (first_fit_lt _ _ _ Ei) as Hi.
    destruct (lookup_lt_is_Some_2 (buckets h) i) as [b Eb]; [lia|].
    cbn [Nat.add]. rewrite (incr_bucket_run i b h Eb).
    eexists. split; [reflexivity|].
    unfold Histogram.set_total, Histogram.set_buckets. cbn [thresholds buckets total].
    rewrite length_insert. auto.
  - eexists. split; [reflexivity|].
    unfold Histogram.set_total. cbn [thresholds buckets total]. auto.
Qed.

(** ** Stats *)

Lemma Stats_Update_run (now1 now2 : time.Time) (d : Z) (s : Stats) (w' t' : Window)
      (h' : Histogram) :
  Window.Update d (window s) = Some (tt, w') ->
  Window.Update d (totals s) = Some (tt, t') ->
  Histogram.Update d (histogram s) = Some (tt, h') ->
  Stats.Update now1 now2 d s =
  Some (tt, if Stats.elapsed_exceeds now1 s
            then mkStats (windowSize s) now2 Window.zero w' t' h'
            else mkStats (windowSize s) (windowStart s) w' (lastWindow s) t' h').
Proof.
  intros Ew Et Eh. destruct s as [size start w lw t h]. cbn [window totals histogram] in *.
  unfold Stats.Update, bind, zoom, get, when, modify, ret.
  cbn [window totals histogram Stats.set_window Stats.set_totals Stats.set_histogram
       windowSize windowStart lastWindow].
  rewrite Ew. cbn [window totals histogram Stats.set_window Stats.set_totals
                   Stats.set_histogram windowSize windowStart lastWindow].
  rewrite Et. cbn [window totals histogram Stats.set_window Stats.set_totals
                   Stats.set_histogram windowSize windowStart lastWindow].
  rewrite Eh.
  unfold Stats.elapsed_exceeds. cbn [windowSize windowStart].
  destruct (PrimFloat.ltb _ _); reflexivity.
Qed.



Lemma Window_String_run (w : Window) :
  exists str, Window.String w = Some (str, w).
Proof.
  unfold Window.String, bind, get. rewrite Window_Average_run.
  eexists. reflexivity.
Qed.

Lemma Stats_String_run (s : Stats) :
  exists str, Stats.String s = Some (str, s).
Proof.
  destruct s as [size start w lw t h].
  unfold Stats.String, bind, zoom. cbn [lastWindow totals].
  destruct (Window_String_run lw) as (s1 & ->).
  unfold Stats.set_lastWindow. cbn [windowSize windowStart window lastWindow totals histogram].
  destruct (Window_String_run t) as (s2 & ->).
  unfold Stats.set_totals. cbn [windowSize windowStart window lastWindow totals histogram].
  eexists. reflexivity.
Qed.

Lemma handle_no_sample (e : event) (m : model) :
  is_sample e = false ->
  exists m', handle e m = Some (tt, m') /\ stats m' = stats m.
Proof.
  destruct e as [now1 now2 msg|]; intros He.
  - destruct msg as [key|p e|d| |]; try discriminate He;
      unfold handle, model.Update, bind, modify, ret.
    + destruct (_ || _); eexists; split; reflexivity.
    + eexists. split; reflexivity.
    + eexists. split; reflexivity.
    + eexists. split; reflexivity.
  - unfold handle, bind, zoom, ret.
    destruct (Stats_String_run (stats m)) as (str & ->).
    eexists. split; [reflexivity|]. reflexivity.
Qed.

(** C7. While no sample arrives the statistics do not change, whatever
    else happens and at whatever times: the other messages delivered to
    [Update] and the rendering of the statistics leave them as they are,
    also when the clock readings are far past the window span. A window
    rolls over only inside [Stats.Update], which only a sample calls. *)
Theorem Stats_unchanged_without_samples (es : list event) (m : model) :
  Forall (fun e => is_sample e = false) es ->
  exists m', exec (handle_all es) m = Some m' /\ stats m' = stats m.
Proof.
  intros Hes. revert m. induction Hes as [|e es He Hes IH]; intros m.
  - exists m. split; reflexivity.
  - destruct (handle_no_sample e m He) as (m1 & E1 & H1).
    destruct (IH m1) as (m2 & E2 & H2).
    exists m2. split; [|congruence].
    unfold exec in *. cbn [handle_all]. unfold bind. rewrite E1. exact E2.
Qed.

Lemma Stats_unchanged_without_samples_witness :
  let m := initial_model "google.co.uk" 1 5 0 in
  let es := [Render; Deliver 9000000000 9000000001 (KeyMsg "x");
             Deliver 60000000000 60000000001 otherMsg; Render] in
  Forall (fun e => is_sample e = false) es /\
  Stats.elapsed_exceeds 9000000000 (stats m) = true /\
  exists m', exec (handle_all es) m = Some m' /\ stats m' = stats m.
Proof.
  intros m es.
  assert (Hes : Forall (fun e => is_sample e = false) es)
    by (repeat constructor).
  split; [exact Hes|]. split; [vm_compute; reflexivity|].
  exact (Stats_unchanged_without_samples es m Hes).
Defined.

Lemma Stats_Update_lifetime (now1 now2 : time.Time) (d : Z) (s : Stats)
      (t' : Window) (h' : Histogram) :
  Window.Update d (totals s) = Some (tt, t') ->
  Histogram.Update d (histogram s) = Some (tt, h') ->
  exists s', Stats.Update now1 now2 d s = Some (tt, s') /\
    totals s' = t' /\ histogram s' = h' /\
    (window s' = Window.zero \/
     exec (Window.Update d) (window s) = Some (window s')).
Proof.
  intros Et Eh.
  rewrite (Stats_Update_run now1 now2 d s _ t' h' (Window_Update_run d _) Et Eh).
  eexists. split; [reflexivity|].
  destruct (Stats.elapsed_exceeds now1 s); cbn [totals histogram window]; repeat split.
  - left. reflexivity.
  - right. unfold exec. rewrite Window_Update_run. reflexivity.
Qed.

Lemma handle_sample (now1 now2 : time.Time) (d : time.Duration) (m : model) (s' : Stats) :
  Stats.Update now1 now2 (time.Milliseconds d) (stats m) = Some (tt, s') ->
  handle (Deliver now1 now2 (DurationMsg d)) m = Some (tt, model.set_stats s' m).
Proof.
  intros E. unfold handle, model.Update, bind, zoom, ret. rewrite E. reflexivity.
Qed.

(** C10. [model.Update] hands [Stats.Update] the sample in whole
    milliseconds, rounded toward zero ([Duration.Milliseconds]). A sample
    below one millisecond is therefore applied as the value 0: the current
    window, the lifetime window and the histogram each count one more
    sample, of value 0. *)
Theorem sample_applied_in_whole_milliseconds
        (m : model) (d : time.Duration) (now1 now2 : time.Time) :
  Int64.in_range d ->
  well_formed (histogram (stats m)) ->
  time.Milliseconds d = Z.quot d 1000000 /\
  (exists s', exec (Stats.Update now1 now2 (Z.quot d 1000000)) (stats m) = Some s' /\
     model.Update now1 now2 (DurationMsg d) m = Some (tick, model.set_stats s' m)) /\
  (0 <= d < 1000000 ->
   Z.quot d 1000000 = 0 /\
   exists w' s',
     exec (Window.Update 0) (window (stats m)) = Some w' /\
     Count w' = Int64.add (Count (window (stats m))) 1 /\
     exec (Stats.Update now1 now2 0) (stats m) = Some s' /\
     (window s' = w' \/ lastWindow s' = w' /\ window s' = Window.zero) /\
     exec (Window.Update 0) (totals (stats m)) = Some (totals s') /\
     Count (totals s') = Int64.add (Count (totals (stats m))) 1 /\
     total (histogram s') = Int64.add (total (histogram (stats m))) 1).
Proof.
  intros Hd Hwf.
  assert (Hms : time.Milliseconds d = Z.quot d 1000000).
  { unfold time.Milliseconds, Int64.quot. apply wrap_in_range.
    unfold Int64.in_range, Int64.min_int, Int64.max_int in *.
    assert (Hpos : forall x, 0 <= x -> 0 <= x / 1000000 <= x).
    { intros x Hx. split; [apply Z.div_pos; lia | apply Z.div_le_upper_bound; lia]. }
    destruct (Z_le_gt_dec 0 d) as [Hs|Hs].
    - rewrite Z.quot_div_nonneg by lia. specialize (Hpos d Hs). lia.
    - replace d with (- (- d)) by lia. rewrite Z.quot_opp_l by lia.
      rewrite Z.quot_div_nonneg by lia. specialize (Hpos (- d) ltac:(lia)). lia. }
  split; [exact Hms|]. split.
  - destruct (Histogram_Update_total (Z.quot d 1000000) _ Hwf) as (h' & Eh & _).
    pose proof (Stats_Update_run now1 now2 _ (stats m) _ _ h'
                  (Window_Update_run _ _) (Window_Update_run _ _) Eh) as E.
    eexists. split; [unfold exec; rewrite E; reflexivity|].
    unfold model.Update, bind, zoom, ret. rewrite Hms, E. reflexivity.
  - intros Hsmall.
    assert (Hq : Z.quot d 1000000 = 0) by (apply Z.quot_small; lia).
    split; [exact Hq|].
    destruct (Histogram_Update_total 0 _ Hwf) as (h' & Eh & _ & _ & Htot).
    pose proof (Stats_Update_run now1 now2 0 (stats m) _ _ h'
                  (Window_Update_run _ _) (Window_Update_run _ _) Eh) as E.
    eexists _, _. unfold exec. rewrite E, !Window_Update_run.
    cbn [fmap option_fmap option_map snd Count].
    split; [reflexivity|]. split; [reflexivity|]. split; [reflexivity|].
    destruct (Stats.elapsed_exceeds now1 (stats m));
      cbn [window lastWindow totals histogram Count];
      (split; [auto|]); repeat split; exact Htot.
Qed.

Lemma sample_applied_in_whole_milliseconds_witness :
  let m := initial_model "google.co.uk" 1 5 0 in
  let d := 512000 in
  Int64.in_range d /\
  well_formed (histogram (stats m)) /\
  time.Milliseconds d = Z.quot d 1000000 /\
  (exists s', exec (Stats.Update 1 2 (Z.quot d 1000000)) (stats m) = Some s' /\
     model.Update 1 2 (DurationMsg d) m = Some (tick, model.set_stats s' m)) /\
  (0 <= d < 1000000 ->
   Z.quot d 1000000 = 0 /\
   exists w' s',
     exec (Window.Update 0) (window (stats m)) = Some w' /\
     Count w' = Int64.add (Count (window (stats m))) 1 /\
     exec (Stats.Update 1 2 0) (stats m) = Some s' /\
     (window s' = w' \/ lastWindow s' = w' /\ window s' = Window.zero) /\
     exec (Window.Update 0) (totals (stats m)) = Some (totals s') /\
     Count (totals s') = Int64.add (Count (totals (stats m))) 1 /\
     total (histogram s') = Int64.add (total (histogram (stats m))) 1).
Proof.
  intros m d.
  assert (Hd : Int64.in_range d) by (vm_compute; split; discriminate).
  assert (Hwf : well_formed (histogram (stats m))) by reflexivity.
  split; [exact Hd|]. split; [exact Hwf|].
  exact (sample_applied_in_whole_milliseconds m d 1 2 Hd Hwf).
Defined.

(** ** The test of line 130 at the default window span of 5 s *)

Example elapsed_exceeds_at_span :
  Stats.elapsed_exceeds 5000000000 (model.initial_stats 5 0) = false.
Proof. vm_compute. reflexivity. Qed.

Example elapsed_exceeds_past_span :
  Stats.elapsed_exceeds 5000000001 (model.initial_stats 5 0) = true.
Proof. vm_compute. reflexivity. Qed.

Example elapsed_exceeds_before_span :
  Stats.elapsed_exceeds 4999999999 (model.initial_stats 5 0) = false.
Proof. vm_compute. reflexivity. Qed.

(** The comparison is one of float64 seconds: from a span of 2^24 s on, a
    nanosecond past the span is below its resolution. *)
Example elapsed_exceeds_resolution :
  Stats.elapsed_exceeds (16777216 * 1000000000 + 1) (model.initial_stats 16777216 0)
  = false /\
  Stats.elapsed_exceeds (16777216 * 1000000000 + 2) (model.initial_stats 16777216 0)
  = true.
Proof. vm_compute. split; reflexivity. Qed.

(** ** End to end *)

Lemma handle_sample_lifetime (now1 now2 : time.Time) (d : time.Duration) (m : model)
      (t' : Window) (h' : Histogram) :
  Window.Update (time.Milliseconds d) (totals (stats m)) = Some (tt, t') ->
  Histogram.Update (time.Milliseconds d) (histogram (stats m)) = Some (tt, h') ->
  exists m', handle (Deliver now1 now2 (DurationMsg d)) m = Some (tt, m') /\
    totals (stats m') = t' /\ histogram (stats m') = h'.
Proof.
  intros Et Eh.
  destruct (Stats_Update_lifetime now1 now2 _ (stats m) t' h' Et Eh)
    as (s' & E & Ht & Hh & _).
  exists (model.set_stats s' m). split; [apply handle_sample, E|].
  split; assumption.
Qed.

(** C9. The three data lines with time=1.0 ms, time=3.0 ms and
    time=5.0 ms, parsed and applied to the statistics of a fresh run,
    whatever the clock reads (rollover or not), give the lifetime window
    min=1, max=5, avg=3, count=3 and a histogram of total 3 in which the
    samples went to the buckets of the thresholds 1, 5 and 5: one sample
    in the bucket of threshold 1 and two in that of threshold 5. *)
Theorem three_lines_end_to_end
        (h : string) (i w : Z) (now t1 t1' t2 t2' t3 t3' : time.Time) :
  let ths := [1; 2; 5; 10; 20; 50; 100; 200; 500; 1000] in
  let lines :=
    [("64 bytes from 1.2.3.4: icmp_seq=1 ttl=64 time=1.0 ms"%string, (t1, t1'));
     ("64 bytes from 1.2.3.4: icmp_seq=2 ttl=64 time=3.0 ms"%string, (t2, t2'));
     ("64 bytes from 1.2.3.4: icmp_seq=3 ttl=64 time=5.0 ms"%string, (t3, t3'))] in
  deliveries lines =
    [Deliver t1 t1' (DurationMsg 1000000);
     Deliver t2 t2' (DurationMsg 3000000);
     Deliver t3 t3' (DurationMsg 5000000)] /\
  exists m',
    exec (handle_all (deliveries lines)) (initial_model h i w now) = Some m' /\
    totals (stats m') = mkWindow 1 5 9 3 /\
    eval Window.Average (totals (stats m')) = Some 3 /\
    thresholds (histogram (stats m')) = ths /\
    buckets (histogram (stats m')) = [1; 0; 2; 0; 0; 0; 0; 0; 0; 0] /\
    total (histogram (stats m')) = 3 /\
    first_fit 1 ths = Some 0%nat /\ ths !! 0%nat = Some 1 /\
    first_fit 3 ths = Some 2%nat /\ first_fit 5 ths = Some 2%nat /\
    ths !! 2%nat = Some 5.
Proof.
  intros ths lines.
  assert (Hd : deliveries lines =
    [Deliver t1 t1' (DurationMsg 1000000);
     Deliver t2 t2' (DurationMsg 3000000);
     Deliver t3 t3' (DurationMsg 5000000)]) by (vm_compute; reflexivity).
  split; [exact Hd|]. rewrite Hd.
  set (m0 := initial_model h i w now).
  destruct (handle_sample_lifetime t1 t1' 1000000 m0 (mkWindow 1 1 1 1)
              (mkHistogram ths [1; 0; 0; 0; 0; 0; 0; 0; 0; 0] 1))
    as (m1 & E1 & Ht1 & Hh1); [reflexivity | reflexivity |].
  destruct (handle_sample_lifetime t2 t2' 3000000 m1 (mkWindow 1 3 4 2)
              (mkHistogram ths [1; 0; 1; 0; 0; 0; 0; 0; 0; 0] 2))
    as (m2 & E2 & Ht2 & Hh2); [rewrite Ht1; reflexivity | rewrite Hh1; reflexivity |].
  destruct (handle_sample_lifetime t3 t3' 5000000 m2 (mkWindow 1 5 9 3)
              (mkHistogram ths [1; 0; 2; 0; 0; 0; 0; 0; 0; 0] 3))
    as (m3 & E3 & Ht3 & Hh3); [rewrite Ht2; reflexivity | rewrite Hh2; reflexivity |].
  exists m3. split.
  - unfold exec. cbn [handle_all]. unfold bind. rewrite E1, E2, E3. reflexivity.
  - rewrite Ht3, Hh3. repeat split.
Qed.

(** ** The minimum of a window *)

(** C1, at the input that breaks it. [Update] takes [Min == 0] for "no
    sample yet" (line 61): after a sample of 0 ms, which is what a round
    trip below one millisecond becomes, the next sample overwrites the
    minimum. The two data lines below are parsed to 0.512 ms and 7.31 ms
    and applied as 0 and 7; the lifetime window ends with Min = 7, and the
    minimum of the values applied is 0. Max, Count and Average are as
    claimed. *)
Theorem Window_Update_forgets_zero_minimum
        (h : string) (i w : Z) (now t1 t1' t2 t2' : time.Time) :
  let lines :=
    [("64 bytes from 1.2.3.4: icmp_seq=1 ttl=64 time=0.512 ms"%string, (t1, t1'));
     ("64 bytes from 1.2.3.4: icmp_seq=2 ttl=64 time=7.31 ms"%string, (t2, t2'))] in
  deliveries lines =
    [Deliver t1 t1' (DurationMsg 512000); Deliver t2 t2' (DurationMsg 7310000)] /\
  time.Milliseconds 512000 = 0 /\ time.Milliseconds 7310000 = 7 /\
  exec (Window_updates [0; 7]) Window.zero = Some (mkWindow 7 7 7 2) /\
  minimum 0 [7] = 0 /\ maximum 0 [7] = 7 /\
  (exists m',
     exec (handle_all (deliveries lines)) (initial_model h i w now) = Some m' /\
     totals (stats m') = mkWindow 7 7 7 2 /\
     eval Window.Average (totals (stats m')) = Some 3).
Proof.
  intros lines.
  assert (Hd : deliveries lines =
    [Deliver t1 t1' (DurationMsg 512000); Deliver t2 t2' (DurationMsg 7310000)])
    by (vm_compute; reflexivity).
  split; [exact Hd|]. rewrite Hd.
  split; [reflexivity|]. split; [reflexivity|]. split; [reflexivity|].
  split; [reflexivity|]. split; [reflexivity|].
  set (ths := [1; 2; 5; 10; 20; 50; 100; 200; 500; 1000]).
  destruct (handle_sample_lifetime t1 t1' 512000 (initial_model h i w now)
              (mkWindow 0 0 0 1) (mkHistogram ths [1; 0; 0; 0; 0; 0; 0; 0; 0; 0] 1))
    as (m1 & E1 & Ht1 & Hh1); [reflexivity | reflexivity |].
  destruct (handle_sample_lifetime t2 t2' 7310000 m1
              (mkWindow 7 7 7 2) (mkHistogram ths [1; 0; 0; 1; 0; 0; 0; 0; 0; 0] 2))
    as (m2 & E2 & Ht2 & Hh2); [rewrite Ht1; reflexivity | rewrite Hh1; reflexivity |].
  exists m2. split.
  - unfold exec. cbn [handle_all]. unfold bind. rewrite E1, E2. reflexivity.
  - rewrite Ht2. split; reflexivity.
Qed.

(** ** float64: the fraction of a duration *)

Ltac abstract_pow :=
  repeat match goal with
         | |- context [2 ^ ?e] => let a := fresh "a" in set (a := 2 ^ e) in *; clearbody a
         | H : context [2 ^ ?e] |- _ => let a := fresh "a" in set (a := 2 ^ e) in *; clearbody a
         end; lia.

Lemma digits2_pos_bound (p : positive) :
  2 ^ (Z.pos (digits2_pos p) - 1) <= Z.pos p < 2 ^ Z.pos (digits2_pos p).
Proof.
  induction p as [p IH|p IH|]; cbn [digits2_pos].
  - rewrite Pos2Z.inj_succ, (Pos2Z.inj_xI p).
    replace (Z.succ (Z.pos (digits2_pos p)) - 1) with (Z.succ (Z.pos (digits2_pos p) - 1)) by lia.
    rewrite !Z.pow_succ_r by lia. abstract_pow.
  - rewrite Pos2Z.inj_succ, (Pos2Z.inj_xO p).
    replace (Z.succ (Z.pos (digits2_pos p)) - 1) with (Z.succ (Z.pos (digits2_pos p) - 1)) by lia.
    rewrite !Z.pow_succ_r by lia. abstract_pow.
  - cbn. lia.
Qed.

Lemma digits2_pos_iter (p q : positive) :
  digits2_pos (Pos.iter xO p q) = (digits2_pos p + q)%positive.
Proof.
  induction q as [|q IH] using Pos.peano_ind.
  - cbn. lia.
  - rewrite Pos.iter_succ. cbn [digits2_pos]. rewrite IH. lia.
Qed.

Lemma Zpos_iter_xO (p q : positive) :
  Z.pos (Pos.iter xO p q) = Z.pos p * 2 ^ Z.pos q.
Proof.
  induction q as [|q IH] using Pos.peano_ind.
  - cbn. lia.
  - rewrite Pos.iter_succ, (Pos2Z.inj_xO (Pos.iter xO p q)), IH.
    rewrite Pos2Z.inj_succ, Z.pow_succ_r by lia. lia.
Qed.

Lemma round_aux_aligned (m : positive) (e : Z) :
  Z.pos (digits2_pos m) = 53 -> -1074 <= e <= 971 ->
  binary_round_aux 53 1024 false (Z.pos m) e loc_Exact = S754_finite false m e.
Proof.
  intros Hm He.
  unfold binary_round_aux, shr_fexp, Zdigits2, fexp, SpecFloat.emin.
  rewrite Hm.
  replace (Z.max (53 + e - 53) (3 - 1024 - 53) - e) with 0 by lia.
  cbn [shr shr_record_of_loc shr_m loc_of_shr_record round_nearest_even].
  rewrite Hm.
  replace (Z.max (53 + e - 53) (3 - 1024 - 53) - e) with 0 by lia.
  cbn [shr shr_record_of_loc shr_m].
  replace (e <=? 1024 - 53) with true by (symmetry; apply Z.leb_le; lia).
  reflexivity.
Qed.

Lemma normalize_small (p : positive) :
  Z.pos p < 2 ^ 53 ->
  exists m e, binary_normalize prec emax (Z.pos p) 0 false = S754_finite false m e /\
              time.trunc_SF (S754_finite false m e) = Z.pos p.
Proof.
  intros Hp.
  pose proof (digits2_pos_bound p) as [Hlo Hhi].
  assert (Hd : Z.pos (digits2_pos p) <= 53).
  { destruct (Z_le_gt_dec (Z.pos (digits2_pos p)) 53) as [H|H]; [exact H|].
    assert (2 ^ 53 <= 2 ^ (Z.pos (digits2_pos p) - 1)) by (apply Z.pow_le_mono_r; lia).
    lia. }
  assert (Hlt : (Z.pos p <? 2 ^ 64) = true) by (apply Z.ltb_lt; lia).
  unfold binary_normalize, binary_round.
  unfold fexp at 1, SpecFloat.emin, prec, emax.
  rewrite Z.max_l by lia.
  unfold shl_align.
  destruct (Z.pos (digits2_pos p) + 0 - 53 - 0) as [|q|q] eqn:E; [| lia |].
  - rewrite round_aux_aligned by lia.
    eexists _, _. split; [reflexivity|].
    unfold time.trunc_SF.
    replace (Z.pos (digits2_pos p) + 0 - 53) with 0 by lia.
    cbn. exact (f_equal (fun b : bool => if b then Z.pos p else 0) Hlt).
  - rewrite round_aux_aligned by (rewrite ?digits2_pos_iter; lia).
    eexists _, _. split; [reflexivity|].
    unfold time.trunc_SF.
    replace (0 <=? Z.pos (digits2_pos p) + 0 - 53) with false
      by (symmetry; apply Z.leb_gt; lia).
    replace (- (Z.pos (digits2_pos p) + 0 - 53)) with (Z.pos q) by lia.
    rewrite Zpos_iter_xO, Z.shiftr_div_pow2, Z.div_mul by lia.
    cbv zeta. rewrite Hlt. reflexivity.
Qed.

Lemma check_upto_spec (P : Z -> bool) (n : N) :
  check_upto P n = true -> forall i, 0 <= i < Z.of_N n -> P i = true.
Proof.
  unfold check_upto.
  assert (H : forall n, fst (N.iter n (fun '(i, ok) => (i + 1, ok && P i)) (0, true)) = Z.of_N n
              /\ (snd (N.iter n (fun '(i, ok) => (i + 1, ok && P i)) (0, true)) = true ->
                  forall i, 0 <= i < Z.of_N n -> P i = true)).
  { clear n. intros n. induction n as [|n IH] using N.peano_ind.
    - cbn. split; [reflexivity | intros _ i Hi; lia].
    - rewrite N.iter_succ. destruct IH as [IH1 IH2].
      destruct (N.iter n _ _) as [j ok]. cbn [fst snd] in *. subst j.
      split; [lia|]. intros Hok i Hi.
      apply andb_true_iff in Hok as [Hok HP].
      destruct (Z.eq_dec i (Z.of_N n)) as [->|Hne]; [exact HP|].
      apply IH2; [exact Hok | lia]. }
  apply H.
Qed.

Lemma SFeqb_finite (a : spec_float) (m : positive) (e : Z) :
  SFeqb a (S754_finite false m e) = true -> a = S754_finite false m e.
Proof.
  unfold SFeqb, SFcompare.
  destruct a as [s|s| |s m' e']; try discriminate; try (destruct s; discriminate).
  destruct s; [discriminate|].
  destruct (Z.compare_spec e' e) as [->|?|?]; try discriminate.
  destruct (Pos.compare_cont Eq m' m) eqn:E; try discriminate.
  intros _. apply Pos.compare_eq in E. subst. reflexivity.
Qed.

Lemma SFeqb_zero (a : spec_float) (s : bool) :
  SFeqb a (S754_zero s) = true -> time.trunc_SF a = 0.
Proof.
  unfold SFeqb, SFcompare.
  destruct a as [s'|s'| |s' m' e']; try discriminate; try (destruct s'; discriminate).
  reflexivity.
Qed.

Lemma eqb_trunc (x : float) (n : int) :
  Uint63.to_Z n < 2 ^ 53 ->
  PrimFloat.eqb x (PrimFloat.of_uint63 n) = true ->
  time.uint64_of_float64 x = Uint63.to_Z n.
Proof.
  intros Hn Heq.
  rewrite FloatAxioms.eqb_spec, of_uint63_spec in Heq. unfold time.uint64_of_float64.
  pose proof (Uint63.to_Z_bounded n) as Hb.
  destruct (Uint63.to_Z n) as [|p|p] eqn:E; [| | lia].
  - cbn in Heq. apply SFeqb_zero in Heq. exact Heq.
  - destruct (normalize_small p Hn) as (m & e & Hnorm & Htr).
    rewrite Hnorm in Heq. apply SFeqb_finite in Heq. rewrite Heq. exact Htr.
Qed.

Lemma exact_for_1 : exact_for 1 = true.
Proof. vm_compute. reflexivity. Qed.
Lemma exact_for_2 : exact_for 2 = true.
Proof. vm_compute. reflexivity. Qed.
Lemma exact_for_3 : exact_for 3 = true.
Proof. vm_compute. reflexivity. Qed.
Lemma exact_for_4 : exact_for 4 = true.
Proof. vm_compute. reflexivity. Qed.
Lemma exact_for_5 : exact_for 5 = true.
Proof. vm_compute. reflexivity. Qed.
Lemma exact_for_6 : exact_for 6 = true.
Proof. vm_compute. reflexivity. Qed.

Lemma frac_exact (k : nat) (f : Z) :
  (1 <= k <= 6)%nat -> 0 <= f < 10 ^ Z.of_nat k ->
  time.uint64_of_float64
    (PrimFloat.mul (time.float64_of_uint64 f)
       (PrimFloat.div (time.float64_of_uint64 1000000) (scale_up k 1%float)))
  = f * 10 ^ (6 - Z.of_nat k).
Proof.
  intros Hk Hf.
  assert (Hex : exact_for k = true).
  { destruct k as [|[|[|[|[|[|[|k]]]]]]]; try lia;
      [exact exact_for_1 | exact exact_for_2 | exact exact_for_3
      | exact exact_for_4 | exact exact_for_5 | exact exact_for_6]. }
  assert (Hpow : 10 ^ Z.of_nat k <= 10 ^ 6) by (apply Z.pow_le_mono_r; lia).
  assert (HM : 1 <= 10 ^ (6 - Z.of_nat k) /\ f * 10 ^ (6 - Z.of_nat k) < 10 ^ 6).
  { assert (10 ^ Z.of_nat k * 10 ^ (6 - Z.of_nat k) = 10 ^ 6).
    { rewrite <- Z.pow_add_r by lia. f_equal. lia. }
    assert (0 < 10 ^ (6 - Z.of_nat k)) by (apply Z.pow_pos_nonneg; lia).
    split; [lia|].
    apply Z.lt_le_trans with (10 ^ Z.of_nat k * 10 ^ (6 - Z.of_nat k)); [|lia].
    apply Z.mul_lt_mono_pos_r; lia. }
  assert (HM2 : 10 ^ (6 - Z.of_nat k) <= 10 ^ 6) by (apply Z.pow_le_mono_r; lia).
  assert (H6 : 10 ^ 6 = 1000000) by reflexivity.
  assert (H63 : 2 ^ 63 = 9223372036854775808) by reflexivity.
  pose proof (check_upto_spec _ _ Hex f) as Hat.
  rewrite N2Z.inj_pow, nat_N_Z in Hat. specialize (Hat Hf).
  unfold exact_at, unit_over_scale in Hat.
  unfold time.float64_of_uint64 at 1.
  replace (f <? 2 ^ 63) with true by (symmetry; apply Z.ltb_lt; lia).
  assert (Hto : Uint63.to_Z (Uint63.mul (Uint63.of_Z f) (Uint63.of_Z (10 ^ (6 - Z.of_nat k))))
                = f * 10 ^ (6 - Z.of_nat k)).
  { rewrite Uint63.mul_spec, !Uint63.of_Z_spec.
    change wB with (2 ^ 63).
    rewrite (Z.mod_small f) by lia.
    rewrite (Z.mod_small (10 ^ _)) by lia.
    apply Z.mod_small. lia. }
  assert (H53 : 2 ^ 53 = 9007199254740992) by reflexivity.
  rewrite <- Hto. apply eqb_trunc; [rewrite Hto; lia | exact Hat].
Qed.

(** ** Strings *)

Lemma append_assoc (s t u : string) : ((s ++ t) ++ u = s ++ (t ++ u))%string.
Proof. induction s as [|c s IH]; cbn; [reflexivity | rewrite IH; reflexivity]. Qed.

Lemma length_append (s t : string) :
  String.length (s ++ t) = (String.length s + String.length t)%nat.
Proof. induction s as [|c s IH]; cbn; [reflexivity | rewrite IH; reflexivity]. Qed.

Lemma substring_append (s t : string) :
  substring 0 (String.length s) (s ++ t) = s.
Proof.
  induction s as [|c s IH]; cbn.
  - destruct t; reflexivity.
  - rewrite IH. reflexivity.
Qed.

Lemma digit_value (c : ascii) :
  time.is_digit c = true -> 0 <= time.byte c - 48 <= 9.
Proof. unfold time.is_digit. intros H. apply andb_true_iff in H. lia. Qed.

Lemma decimal_from_lin (ds : string) (x : Z) :
  decimal_from x ds = x * 10 ^ Z.of_nat (String.length ds) + decimal ds.
Proof.
  unfold decimal. revert x. induction ds as [|c ds IH]; intros x.
  - cbn. lia.
  - cbn [decimal_from String.length]. rewrite IH, (IH (0 * 10 + _)).
    rewrite Nat2Z.inj_succ, Z.pow_succ_r by lia. lia.
Qed.

Lemma decimal_bounds (ds : string) :
  all_digits ds = true -> 0 <= decimal ds < 10 ^ Z.of_nat (String.length ds).
Proof.
  induction ds as [|c ds IH]; intros H.
  - cbn. lia.
  - cbn [all_digits] in H. apply andb_true_iff in H as [Hc Hds].
    specialize (IH Hds). pose proof (digit_value c Hc) as Hv.
    unfold decimal in *. cbn [decimal_from String.length].
    rewrite decimal_from_lin. unfold decimal.
    rewrite Nat2Z.inj_succ, Z.pow_succ_r by lia.
    assert (0 < 10 ^ Z.of_nat (String.length ds)) by (apply Z.pow_pos_nonneg; lia).
    nia.
Qed.

(** ** The pattern [PING_LINE] on a data line *)

Lemma run_Digits_cons p pos c s marks :
  regexp.run (regexp.Digits :: p) pos (String c s) marks =
  if time.is_digit c then
    match regexp.run (regexp.Digits :: p) (S pos) s marks with
    | Some r => Some r
    | None => regexp.run p (S pos) s marks
    end
  else None.
Proof. reflexivity. Qed.

Lemma run_Digits_end p pos rest marks :
  ends_number rest = true ->
  regexp.run (regexp.Digits :: p) pos rest marks = None.
Proof.
  destruct rest as [|c rest]; intros H; [reflexivity|].
  rewrite run_Digits_cons. cbn in H. apply negb_true_iff in H. rewrite H. reflexivity.
Qed.

Lemma run_Digits_app p (ds rest : string) pos marks r :
  number ds ->
  ends_number rest = true ->
  regexp.run p (pos + String.length ds)%nat rest marks = Some r ->
  regexp.run (regexp.Digits :: p) pos (ds ++ rest) marks = Some r.
Proof.
  intros [Hne Hds]. revert pos.
  induction ds as [|c ds IH]; [contradiction|]. intros pos Hrest Hk.
  cbn [all_digits] in Hds. apply andb_true_iff in Hds as [Hc Hds].
  cbn [String.append]. rewrite run_Digits_cons, Hc.
  cbn [String.length] in Hk. rewrite Nat.add_succ_r in Hk.
  destruct ds as [|c' ds].
  - cbn [String.append]. rewrite (run_Digits_end p (S pos) rest marks Hrest).
    rewrite Nat.add_0_r in Hk. exact Hk.
  - rewrite IH; [reflexivity | discriminate | exact Hds | exact Hrest | exact Hk].
Qed.

Lemma run_Char p c s pos marks r :
  regexp.run p (S pos) s marks = Some r ->
  regexp.run (regexp.Char c :: p) pos (String c s) marks = Some r.
Proof. intros H. cbn [regexp.run]. rewrite Ascii.eqb_refl. exact H. Qed.

Lemma run_dot p s pos marks r :
  regexp.run p (pos + 1)%nat s marks = Some r ->
  regexp.run (regexp.AnyNotNL :: p) pos (String "." s) marks = Some r.
Proof. intros H. exact H. Qed.

Lemma run_CapOpen p s pos marks r :
  regexp.run p pos s (s :: marks) = Some r ->
  regexp.run (regexp.CapOpen :: p) pos s marks = Some r.
Proof. intros H. exact H. Qed.

Lemma run_CapClose p s pos marks r :
  regexp.run p pos s (s :: marks) = Some r ->
  regexp.run (regexp.CapClose :: p) pos s marks = Some r.
Proof. intros H. exact H. Qed.

Lemma PING_LINE_matches (n a b c d seq ttl ip fp : string) :
  number n -> number a -> number b -> number c -> number d ->
  number seq -> number ttl -> number ip -> number fp ->
  regexp.FindStringSubmatch ping.PING_LINE (data_line n a b c d seq ttl ip fp) =
  [data_line n a b c d seq ttl ip fp; (ip ++ "." ++ fp)%string].
Proof.
  intros Hn Ha Hb Hc Hd Hseq Httl Hip Hfp.
  unfold regexp.FindStringSubmatch.
  assert (Hrun : regexp.run ping.PING_LINE 0 (data_line n a b c d seq ttl ip fp) [] =
                 Some [" ms"%string; ((ip ++ "." ++ fp) ++ " ms")%string]).
  { unfold ping.PING_LINE, data_line. cbn [app regexp.lit].
    change (regexp.run (regexp.BeginText :: ?p) 0 ?s ?m) with (regexp.run p 0%nat s m).
    rewrite !append_assoc.
    repeat first
      [ apply run_Char
      | apply run_dot
      | apply run_CapOpen
      | apply run_CapClose
      | apply run_Digits_app; [assumption | reflexivity |]
      | progress cbn [String.append] ].
    reflexivity. }
  rewrite Hrun. f_equal. f_equal.
  rewrite (length_append (ip ++ "." ++ fp) " ms"). cbn [String.length].
  replace (String.length (ip ++ "." ++ fp) + 3 - 3)%nat
    with (String.length (ip ++ "." ++ fp)) by lia.
  apply substring_append.
Qed.

(** ** The fuel of [parse_groups] *)

Lemma leadingInt_from_length (s r : string) (x v : Z) :
  time.leadingInt_from x s = Some (v, r) -> (String.length r <= String.length s)%nat.
Proof.
  revert x. induction s as [|c s IH]; intros x H; cbn [time.leadingInt_from] in H.
  - injection H as _ <-. lia.
  - destruct (negb (time.is_digit c)); [injection H as _ <-; lia|].
    destruct (x >? 2 ^ 63 / 10); [discriminate|].
    destruct (_ >? 2 ^ 63); [discriminate|].
    apply IH in H. cbn [String.length]. lia.
Qed.

Lemma leadingFraction_from_length (s r : string) (x f : Z) (scale scale' : float)
      (o : bool) :
  time.leadingFraction_from x scale o s = (f, scale', r) ->
  (String.length r <= String.length s)%nat.
Proof.
  revert x scale o. induction s as [|c s IH]; intros x scale o H;
    cbn [time.leadingFraction_from] in H.
  - injection H as _ _ <-. lia.
  - cbn [String.length].
    destruct (negb (time.is_digit c)); [injection H as _ _ <-; cbn; lia|].
    destruct o; [apply IH in H; lia|].
    destruct (x >? (2 ^ 63 - 1) / 10); [apply IH in H; lia|].
    destruct (_ >? 2 ^ 63); apply IH in H; lia.
Qed.

Lemma span_unit_length (s u r : string) :
  time.span_unit s = (u, r) ->
  String.length s = (String.length u + String.length r)%nat.
Proof.
  revert u. induction s as [|c s IH]; intros u H; cbn [time.span_unit] in H.
  - injection H as <- <-. reflexivity.
  - destruct ((time.byte c =? 46) || time.is_digit c); [injection H as <- <-; reflexivity|].
    destruct (time.span_unit s) as [u' r'] eqn:E. injection H as <- <-.
    cbn [String.length]. rewrite (IH u' eq_refl). reflexivity.
Qed.

Lemma parse_groups_fuel (fuel : nat) (d : Z) (s : string) :
  (String.length s < fuel)%nat -> time.parse_groups fuel d s <> None.
Proof.
  revert d s. induction fuel as [|fuel IH]; intros d s Hlen; [lia|].
  cbn [time.parse_groups].
  destruct s as [|c0 s0]; [discriminate|].
  destruct (negb _); [discriminate|].
  destruct (time.leadingInt (String c0 s0)) as [[v s1]|] eqn:Ei; [|discriminate].
  apply leadingInt_from_length in Ei.
  set (npre := negb _).
  destruct (match s1 with
            | ""%string => (0, 1%float, s1, false)
            | String c1 s1' => _
            end) as [[[f scale] s2] post] eqn:Ef.
  assert (Hs2 : (String.length s2 <= String.length s1)%nat).
  { destruct s1 as [|c1 s1']; [injection Ef as _ _ <- _; lia|].
    destruct (time.byte c1 =? 46); [|injection Ef as _ _ <- _; lia].
    destruct (time.leadingFraction s1') as [[f' scale'] s2'] eqn:El.
    injection Ef as _ _ <- _.
    apply leadingFraction_from_length in El. cbn [String.length]. lia. }
  cbv beta iota.
  destruct (npre && negb post); [discriminate|].
  destruct (time.span_unit s2) as [u s3] eqn:Eu.
  apply span_unit_length in Eu. cbv beta iota.
  destruct (String.length u =? 0)%nat eqn:E0; [discriminate|].
  apply Nat.eqb_neq in E0.
  destruct (time.unitMap u) as [unit|]; [|discriminate].
  destruct (v >? 2 ^ 63 / unit); [discriminate|].
  destruct (_ && _); [discriminate|].
  destruct (_ >? 2 ^ 63); [discriminate|].
  apply IH. cbn [String.length] in *. lia.
Qed.

(** [ParseDuration] gives [parse_groups] enough fuel for any string. *)
Lemma ParseDuration_fuel (d : Z) (s : string) :
  time.parse_groups (S (String.length s)) d s <> None.
Proof. apply parse_groups_fuel. lia. Qed.

(** ** [time.ParseDuration] on a decimal number of milliseconds *)

Lemma leadingInt_from_end (x : Z) (rest : string) :
  ends_number rest = true -> time.leadingInt_from x rest = Some (x, rest).
Proof.
  destruct rest as [|c rest]; intros H; [reflexivity|].
  cbn in *. rewrite H. reflexivity.
Qed.

Lemma decimal_from_ge (ds : string) (x : Z) :
  all_digits ds = true -> 0 <= x -> x <= decimal_from x ds.
Proof.
  intros Hds Hx. rewrite decimal_from_lin.
  pose proof (decimal_bounds ds Hds).
  assert (1 <= 10 ^ Z.of_nat (String.length ds)) by (apply Z.lt_pred_le, Z.pow_pos_nonneg; lia).
  nia.
Qed.

Lemma accumulate_digit (x : Z) (c : ascii) :
  time.is_digit c = true -> 0 <= x <= 2 ^ 63 / 10 ->
  Uint64.sub (Uint64.add (Uint64.mul x 10) (time.byte c)) 48 = x * 10 + (time.byte c - 48).
Proof.
  intros Hc Hx. pose proof (digit_value c Hc) as Hv.
  change (2 ^ 63 / 10) with 922337203685477580 in Hx.
  unfold Uint64.sub, Uint64.add, Uint64.mul, Uint64.wrap.
  change (2 ^ 64) with 18446744073709551616.
  rewrite (Z.mod_small (x * 10)) by lia.
  rewrite (Z.mod_small (x * 10 + _)) by lia.
  rewrite Z.mod_small by lia. lia.
Qed.

Lemma leadingInt_from_app (ds rest : string) (x : Z) :
  all_digits ds = true ->
  ends_number rest = true ->
  0 <= x ->
  decimal_from x ds <= 2 ^ 63 ->
  time.leadingInt_from x (ds ++ rest) = Some (decimal_from x ds, rest).
Proof.
  revert x. induction ds as [|c ds IH]; intros x Hds Hrest Hx Hmax.
  - apply leadingInt_from_end, Hrest.
  - cbn [all_digits] in Hds. apply andb_true_iff in Hds as [Hc Hds].
    pose proof (digit_value c Hc) as Hv.
    cbn [decimal_from] in Hmax.
    pose proof (decimal_from_ge ds (x * 10 + (time.byte c - 48)) Hds ltac:(lia)) as Hge.
    change (2 ^ 63) with 9223372036854775808 in *.
    cbn [String.append time.leadingInt_from decimal_from]. rewrite Hc. cbn [negb].
    change (2 ^ 63 / 10) with 922337203685477580.
    replace (x >? 922337203685477580) with false
      by (symmetry; rewrite Z.gtb_ltb; apply Z.ltb_ge; lia).
    rewrite accumulate_digit
      by (try assumption; change (2 ^ 63 / 10) with 922337203685477580; lia).
    change (2 ^ 63) with 9223372036854775808.
    replace (x * 10 + (time.byte c - 48) >? 9223372036854775808) with false
      by (symmetry; rewrite Z.gtb_ltb; apply Z.ltb_ge; lia).
    apply IH; try assumption; lia.
Qed.

Lemma leadingFraction_from_end (x : Z) (scale : float) (rest : string) :
  ends_number rest = true ->
  time.leadingFraction_from x scale false rest = (x, scale, rest).
Proof.
  destruct rest as [|c rest]; intros H; [reflexivity|].
  cbn in *. rewrite H. reflexivity.
Qed.

Lemma leadingFraction_from_app (ds rest : string) (x : Z) (scale : float) :
  all_digits ds = true ->
  ends_number rest = true ->
  0 <= x ->
  decimal_from x ds <= 2 ^ 63 - 1 ->
  time.leadingFraction_from x scale false (ds ++ rest) =
  (decimal_from x ds, scale_up (String.length ds) scale, rest).
Proof.
  revert x scale. induction ds as [|c ds IH]; intros x scale Hds Hrest Hx Hmax.
  - apply leadingFraction_from_end, Hrest.
  - cbn [all_digits] in Hds. apply andb_true_iff in Hds as [Hc Hds].
    pose proof (digit_value c Hc) as Hv.
    cbn [decimal_from] in Hmax.
    pose proof (decimal_from_ge ds (x * 10 + (time.byte c - 48)) Hds ltac:(lia)) as Hge.
    change (2 ^ 63) with 9223372036854775808 in *.
    cbn [String.append time.leadingFraction_from decimal_from String.length scale_up].
    rewrite Hc. cbn [negb].
    change (2 ^ 63) with 9223372036854775808.
    change ((9223372036854775808 - 1) / 10) with 922337203685477580.
    replace (x >? 922337203685477580) with false
      by (symmetry; rewrite Z.gtb_ltb; apply Z.ltb_ge; lia).
    rewrite accumulate_digit
      by (try assumption; change (2 ^ 63 / 10) with 922337203685477580; lia).
    change (2 ^ 63) with 9223372036854775808.
    replace (x * 10 + (time.byte c - 48) >? 9223372036854775808) with false
      by (symmetry; rewrite Z.gtb_ltb; apply Z.ltb_ge; lia).
    apply IH; try assumption; lia.
Qed.

Lemma append_not_empty (s t : string) (c : ascii) :
  (s ++ String c t)%string <> EmptyString.
Proof. destruct s; discriminate. Qed.

Lemma ParseDuration_ms (ip fp : string) :
  number ip -> number fp ->
  (String.length fp <= 6)%nat ->
  decimal ip * 1000000 + decimal fp * 10 ^ (6 - Z.of_nat (String.length fp))
    <= Int64.max_int ->
  time.ParseDuration ((ip ++ "." ++ fp) ++ "ms") =
  (decimal ip * 1000000 + decimal fp * 10 ^ (6 - Z.of_nat (String.length fp)), None).
Proof.
  intros [Hipne Hip] [Hfpne Hfp] Hlen Hmax.
  set (k := String.length fp) in *.
  assert (Hk : (1 <= k <= 6)%nat).
  { subst k. destruct fp; [contradiction | cbn in *; lia]. }
  pose proof (decimal_bounds ip Hip) as Hv.
  pose proof (decimal_bounds fp Hfp) as Hf. fold k in Hf.
  assert (Hfrac : 0 <= decimal fp * 10 ^ (6 - Z.of_nat k) < 1000000).
  { assert (10 ^ Z.of_nat k * 10 ^ (6 - Z.of_nat k) = 1000000).
    { rewrite <- Z.pow_add_r by lia. replace (Z.of_nat k + (6 - Z.of_nat k)) with 6 by lia.
      reflexivity. }
    assert (0 < 10 ^ (6 - Z.of_nat k)) by (apply Z.pow_pos_nonneg; lia).
    split; [apply Z.mul_nonneg_nonneg; lia|].
    apply Z.lt_le_trans with (10 ^ Z.of_nat k * 10 ^ (6 - Z.of_nat k)); [|lia].
    apply Z.mul_lt_mono_pos_r; lia. }
  assert (Hpow6 : 10 ^ Z.of_nat k <= 1000000).
  { change 1000000 with (10 ^ 6). apply Z.pow_le_mono_r; lia. }
  unfold Int64.max_int in Hmax. change (2 ^ 63 - 1) with 9223372036854775807 in Hmax.
  rewrite !append_assoc.
  destruct ip as [|c0 ip']; [contradiction|].
  assert (Hc0 : time.is_digit c0 = true).
  { cbn [all_digits] in Hip. apply andb_true_iff in Hip. tauto. }
  pose proof (digit_value c0 Hc0) as Hc0v.
  set (s := (String c0 ip' ++ "." ++ fp ++ "ms")%string).
  assert (Hs : s = String c0 (ip' ++ String "." (fp ++ "ms"))) by reflexivity.
  unfold time.ParseDuration.
  rewrite Hs at 1.
  replace ((time.byte c0 =? 45) || (time.byte c0 =? 43)) with false
    by (symmetry; apply orb_false_iff; split; apply Z.eqb_neq; lia).
  assert (Hne0 : (s =? "0")%string = false).
  { apply String.eqb_neq. rewrite Hs. intros [= _ E]. exact (append_not_empty _ _ _ E). }
  assert (Hne1 : (s =? "")%string = false).
  { apply String.eqb_neq. rewrite Hs. discriminate. }
  rewrite Hne0, Hne1.
  assert (Hpg : time.parse_groups (S (String.length s)) 0 s =
                Some (inr (decimal (String c0 ip') * 1000000
                           + decimal fp * 10 ^ (6 - Z.of_nat k)))).
  { assert (Hint : time.leadingInt s =
                   Some (decimal (String c0 ip'), String "." (fp ++ "ms"))).
    { unfold time.leadingInt, decimal.
      apply (leadingInt_from_app (String c0 ip') (String "." (fp ++ "ms")) 0);
        [exact Hip | reflexivity | lia |].
      fold (decimal (String c0 ip')). change (2 ^ 63) with 9223372036854775808. lia. }
    assert (Hfr : time.leadingFraction (fp ++ "ms") =
                  (decimal fp, scale_up k 1%float, "ms"%string)).
    { unfold time.leadingFraction, decimal.
      apply (leadingFraction_from_app fp "ms" 0 1%float);
        [exact Hfp | reflexivity | lia |].
      fold (decimal fp). change (2 ^ 63 - 1) with 9223372036854775807. lia. }
    assert (Hl1 : (String.length (String c0 (ip' ++ String "." (fp ++ "ms")))
                   =? String.length (String "." (fp ++ "ms")))%nat = false).
    { apply Nat.eqb_neq. cbn [String.length].
      rewrite (length_append ip' (String "." (fp ++ "ms"))). cbn [String.length]. lia. }
    assert (Hfuel : exists n, String.length s = S n).
    { rewrite Hs. cbn [String.length]. eexists. reflexivity. }
    destruct Hfuel as [n Hn].
    remember (String.length s) as m eqn:Hm.
    assert (Hend : forall d, time.parse_groups m d "" = Some (inr d))
      by (intros d; rewrite Hn; reflexivity).
    clear Hn Hm.
    rewrite Hs in Hint |- *.
    cbn [time.parse_groups].
    replace ((time.byte c0 =? 46) || time.is_digit c0) with true
      by (rewrite Hc0; symmetry; apply orb_true_r).
    cbn [negb]. rewrite Hint.
    replace (time.byte "." =? 46) with true by reflexivity.
    rewrite Hfr, Hl1. cbn [negb andb].
    change (time.span_unit "ms") with ("ms"%string, ""%string).
    cbv beta iota. change (String.length "ms" =? 0)%nat with false. cbv iota.
    change (time.unitMap "ms") with (Some 1000000). cbv beta iota.
    rewrite (frac_exact k (decimal fp) Hk Hf).
    change (2 ^ 63 / 1000000) with 9223372036854.
    change (2 ^ 63) with 9223372036854775808.
    set (V := decimal (String c0 ip')) in *.
    set (F := decimal fp * 10 ^ (6 - Z.of_nat k)) in *.
    replace (V >? 9223372036854) with false
      by (symmetry; rewrite Z.gtb_ltb; apply Z.ltb_ge; lia).
    assert (HT : (if decimal fp >? 0
                  then Uint64.add (Uint64.mul V 1000000) F
                  else Uint64.mul V 1000000) = V * 1000000 + F).
    { unfold Uint64.add, Uint64.mul, Uint64.wrap.
      change (2 ^ 64) with 18446744073709551616.
      rewrite (Z.mod_small (V * 1000000)) by lia.
      destruct (decimal fp >? 0) eqn:E.
      - apply Z.mod_small. lia.
      - assert (decimal fp = 0) by lia. subst F. rewrite H. lia. }
    rewrite HT.
    replace (V * 1000000 + F >? 9223372036854775808) with false
      by (symmetry; rewrite Z.gtb_ltb; apply Z.ltb_ge; lia).
    rewrite andb_false_r.
    assert (HT0 : Uint64.add 0 (V * 1000000 + F) = V * 1000000 + F).
    { unfold Uint64.add, Uint64.wrap. change (2 ^ 64) with 18446744073709551616.
      apply Z.mod_small. lia. }
    rewrite HT0.
    replace (V * 1000000 + F >? 9223372036854775808) with false
      by (symmetry; rewrite Z.gtb_ltb; apply Z.ltb_ge; lia).
    apply Hend. }
  rewrite Hpg.
  set (T := decimal (String c0 ip') * 1000000 + decimal fp * 10 ^ (6 - Z.of_nat k)) in *.
  change (2 ^ 63 - 1) with 9223372036854775807.
  replace (T >? 9223372036854775807) with false
    by (symmetry; rewrite Z.gtb_ltb; apply Z.ltb_ge; lia).
  rewrite wrap_in_range; [reflexivity|].
  unfold Int64.in_range, Int64.min_int, Int64.max_int. subst T. lia.
Qed.

(** C8, as the code has it. For every data line
    [<n> bytes from <a>.<b>.<c>.<d>: icmp_seq=<seq> ttl=<ttl> time=<ip>.<fp> ms],
    each field a decimal number, whose latency has at most six fraction
    digits and is at most the greatest [time.Duration], the parser yields
    exactly that latency: [ip.fp] milliseconds, as nanoseconds. The other
    fields play no part in the result. *)
Theorem processLine_data_line (n a b c d seq ttl ip fp : string) :
  number n -> number a -> number b -> number c -> number d ->
  number seq -> number ttl -> number ip -> number fp ->
  (String.length fp <= 6)%nat ->
  decimal ip * 1000000 + decimal fp * 10 ^ (6 - Z.of_nat (String.length fp))
    <= Int64.max_int ->
  ping.processLine (data_line n a b c d seq ttl ip fp) =
    (decimal ip * 1000000 + decimal fp * 10 ^ (6 - Z.of_nat (String.length fp)), None)
  /\ exact_sample (data_line n a b c d seq ttl ip fp) ip fp.
Proof.
  intros Hn Ha Hb Hc Hd Hseq Httl Hip Hfp Hlen Hmax.
  assert (E : ping.processLine (data_line n a b c d seq ttl ip fp) =
    (decimal ip * 1000000 + decimal fp * 10 ^ (6 - Z.of_nat (String.length fp)), None)).
  { unfold ping.processLine.
    rewrite PING_LINE_matches by assumption.
    cbn [length nth Nat.ltb Nat.leb].
    rewrite (ParseDuration_ms ip fp Hip Hfp Hlen Hmax). reflexivity. }
  split; [exact E|].
  exists (decimal ip * 1000000 + decimal fp * 10 ^ (6 - Z.of_nat (String.length fp))).
  split; [exact E|].
  set (k := Z.of_nat (String.length fp)).
  assert (Hk : 0 <= k <= 6) by (subst k; lia).
  assert (H6 : 10 ^ (6 - k) * 10 ^ k = 1000000).
  { rewrite <- Z.pow_add_r by lia. replace (6 - k + k) with 6 by lia. reflexivity. }
  rewrite Z.mul_add_distr_r, <- (Z.mul_assoc (decimal fp)), H6. lia.
Qed.

Lemma processLine_data_line_witness :
  number "64" /\ number "1" /\ number "2" /\ number "3" /\ number "4" /\
  number "23" /\
  (String.length "4" <= 6)%nat /\
  decimal "23" * 1000000 + decimal "4" * 10 ^ (6 - Z.of_nat (String.length "4"))
    <= Int64.max_int /\
  ping.processLine "64 bytes from 1.2.3.4: icmp_seq=1 ttl=64 time=23.4 ms"
    = (23400000, None) /\
  exact_sample "64 bytes from 1.2.3.4: icmp_seq=1 ttl=64 time=23.4 ms" "23" "4".
Proof.
  assert (N : forall s, s <> EmptyString -> all_digits s = true -> number s)
    by (intros s H1 H2; split; assumption).
  assert (H64 : number "64") by (apply N; [discriminate | reflexivity]).
  assert (H1 : number "1") by (apply N; [discriminate | reflexivity]).
  assert (H2 : number "2") by (apply N; [discriminate | reflexivity]).
  assert (H3 : number "3") by (apply N; [discriminate | reflexivity]).
  assert (H4 : number "4") by (apply N; [discriminate | reflexivity]).
  assert (H23 : number "23") by (apply N; [discriminate | reflexivity]).
  assert (Hl : (String.length "4" <= 6)%nat) by (cbn; lia).
  assert (Hm : decimal "23" * 1000000
               + decimal "4" * 10 ^ (6 - Z.of_nat (String.length "4"))
               <= Int64.max_int) by (vm_compute; discriminate).
  repeat (split; [assumption|]).
  exact (processLine_data_line "64" "1" "2" "3" "4" "1" "64" "23" "4"
           H64 H1 H2 H3 H4 H1 H64 H23 H4 Hl Hm).
Defined.

(** C8, as stated, fails: a data line may carry more fraction digits than
    a [time.Duration], a whole number of nanoseconds, can hold. The line
    with time=0.0000001 ms yields the sample 0, not 0.0000001 ms. *)
Lemma processLine_not_exact_below_a_nanosecond :
  ~ (forall n a b c d seq ttl ip fp : string,
       number n -> number a -> number b -> number c -> number d ->
       number seq -> number ttl -> number ip -> number fp ->
       exact_sample (data_line n a b c d seq ttl ip fp) ip fp).
Proof.
  intros H.
  assert (N : forall s, s <> EmptyString -> all_digits s = true -> number s)
    by (intros s H1 H2; split; assumption).
  destruct (H "64" "1" "2" "3" "4" "1" "64" "0" "0000001")%string
    as (dur & E & Hd); try (apply N; [discriminate | reflexivity]).
  assert (E0 : ping.processLine
                 (data_line "64" "1" "2" "3" "4" "1" "64" "0" "0000001")
               = (0, None)) by (vm_compute; reflexivity).
  rewrite E0 in E. injection E as <-.
  vm_compute in Hd. discriminate Hd.
Qed.

(** ** The producer *)

Lemma run_app (tr1 tr2 : list Run.label) (st : Run.state) :
  Run.run (tr1 ++ tr2) st =
  match Run.run tr1 st with
  | Some st1 => Run.run tr2 st1
  | None => None
  end.
Proof.
  revert st. induction tr1 as [|l tr1 IH]; intros st; cbn [app Run.run]; [reflexivity|].
  destruct (Run.step l st); [apply IH | reflexivity].
Qed.

Ltac step_inv H :=
  unfold Run.step, Run.close, Run.set_outer, Run.set_scanner, Run.set_waiter,
    Run.set_pings_closed, Run.set_errs_closed, Run.set_proc, Run.set_stdout,
    Run.set_cancelled, Run.set_panicked in H;
  cbn [Run.outer Run.scanner Run.waiter Run.pings_closed Run.errs_closed Run.proc
       Run.stdout Run.cancelled Run.panicked] in H;
  repeat match type of H with
         | context [match ?x with _ => _ end] => destruct x eqn:?; try discriminate H
         | context [if ?x then _ else _] => destruct x eqn:?; try discriminate H
         end;
  try discriminate H;
  injection H as <-;
  cbn [Run.outer Run.scanner Run.waiter Run.pings_closed Run.errs_closed Run.proc
       Run.stdout Run.cancelled Run.panicked] in *.




Lemma no_exit_step (b : bool) (l : Run.label) (st st' : Run.state) :
  Run.no_exit_state b st ->
  Run.step l st = Some st' ->
  Run.is_exit l = false ->
  Run.no_exit_state (b || Run.is_start l) st' /\
  (Run.cancelled st = true -> Run.cancelled st' = true) /\
  (l = Run.Outcome None -> b = true /\ Run.cancelled st = true).
Proof.
  unfold Run.no_exit_state.
  destruct st as [o sc w pc ec pr out ca pa].
  cbn [Run.outer Run.scanner Run.waiter Run.errs_closed Run.pings_closed Run.proc
       Run.cancelled Run.panicked].
  intros Hst H Hl.
  destruct b;
    [ destruct Hst as (-> & Hw & Ho) | destruct Hst as (-> & -> & -> & Ho) ];
    destruct o as [| | | | |[[| |]|]| | |];
    repeat match goal with
           | H : _ /\ _ |- _ => destruct H
           | H : False |- _ => destruct H
           | H : _ \/ _ |- _ => destruct H
           end; subst;
    destruct l; try discriminate Hl; step_inv H; cbn [orb Run.is_start];
    try discriminate;
    repeat split; auto; try discriminate;
    match goal with
    | E : Run.Outcome _ = Run.Outcome None |- _ =>
        injection E as ->; cbn in *; discriminate
    end.
Qed.

Lemma no_exit_run (tr : list Run.label) (b : bool) (st st' : Run.state) :
  Run.no_exit_state b st ->
  Run.run tr st = Some st' ->
  existsb Run.is_exit tr = false ->
  Run.no_exit_state (b || existsb Run.is_start tr) st' /\
  (Run.cancelled st = true -> Run.cancelled st' = true) /\
  (List.In (Run.Outcome None) tr ->
   b || existsb Run.is_start tr = true /\ Run.cancelled st' = true).
Proof.
  revert b st. induction tr as [|l tr IH]; intros b st Hst H Hex;
    cbn [Run.run existsb List.In] in *.
  - injection H as <-. rewrite orb_false_r. repeat split; [exact Hst | auto | tauto | tauto].
  - destruct (Run.step l st) as [st1|] eqn:E; [|discriminate H].
    apply orb_false_iff in Hex as [Hl Hex].
    destruct (no_exit_step b l st st1 Hst E Hl) as (Hst1 & Hc1 & Ho1).
    destruct (IH _ st1 Hst1 H Hex) as (Hst' & Hc' & Ho').
    rewrite orb_assoc. split; [exact Hst'|]. split; [auto|].
    intros [Hl0|Hin].
    + destruct (Ho1 Hl0) as [-> Hc]. split; [reflexivity | auto].
    + apply Ho', Hin.
Qed.

Lemma no_exit_init : Run.no_exit_state false Run.init.
Proof. repeat split. Qed.

(** C5, as the code has it. In a run in which the subprocess does not
    exit on its own, nothing the producer does stops it: it is running
    from [cmd.Start] on, whatever has been delivered or closed since. When
    the context is cancelled and the outer goroutine is at its select, the
    cancellation branch can be taken and delivers the outcome nil
    (cancelled); and whenever that outcome has been delivered, the context
    was cancelled and the subprocess is still running. *)
Theorem Run_never_terminates_subprocess (tr : list Run.label) (st : Run.state) :
  Run.run tr Run.init = Some st ->
  existsb Run.is_exit tr = false ->
  Run.proc st = (if existsb Run.is_start tr then Run.Running else Run.NotStarted) /\
  (Run.outer st = Run.OSelect -> Run.cancelled st = true ->
   exists st', Run.run [Run.SelectCancel; Run.Outcome None] st = Some st' /\
               Run.outer st' = Run.OCloseErrs /\ Run.proc st' = Run.Running) /\
  (List.In (Run.Outcome None) tr ->
   Run.cancelled st = true /\ Run.proc st = Run.Running).
Proof.
  intros H Hex.
  destruct (no_exit_run tr false Run.init st no_exit_init H Hex) as (Hst & _ & Ho).
  cbn [orb] in *. unfold Run.no_exit_state in Hst.
  split; [|split].
  - destruct (existsb Run.is_start tr); apply Hst.
  - intros Hsel Hc.
    destruct (existsb Run.is_start tr).
    + destruct st as [o sc w pc ec pr out ca pa].
      cbn [Run.outer Run.scanner Run.waiter Run.errs_closed Run.pings_closed Run.proc
           Run.cancelled Run.panicked] in *.
      subst. destruct Hst as (-> & _ & -> & _ & ->).
      eexists. repeat split.
    + rewrite Hsel in Hst. tauto.
  - intros Hin. destruct (Ho Hin) as [Hs Hc].
    rewrite Hs in Hst. split; [exact Hc | apply Hst].
Qed.

Lemma Run_never_terminates_subprocess_witness :
  exists st,
    Run.run Run.cancellation Run.init = Some st /\
    existsb Run.is_exit Run.cancellation = false /\
    Run.outer st = Run.ODone /\
    Run.errs_closed st = true /\ Run.pings_closed st = true /\
    Run.proc st =
      (if existsb Run.is_start Run.cancellation then Run.Running else Run.NotStarted) /\
    (Run.outer st = Run.OSelect -> Run.cancelled st = true ->
     exists st', Run.run [Run.SelectCancel; Run.Outcome None] st = Some st' /\
                 Run.outer st' = Run.OCloseErrs /\ Run.proc st' = Run.Running) /\
    (List.In (Run.Outcome None) Run.cancellation ->
     Run.cancelled st = true /\ Run.proc st = Run.Running).
Proof.
  assert (H : Run.run Run.cancellation Run.init =
              Some (Run.mkState Run.ODone Run.SScan Run.WWait true true Run.Running
                                [] true false)) by reflexivity.
  assert (Hex : existsb Run.is_exit Run.cancellation = false) by reflexivity.
  eexists. split; [exact H|]. split; [exact Hex|].
  split; [reflexivity|]. split; [reflexivity|]. split; [reflexivity|].
  exact (Run_never_terminates_subprocess Run.cancellation _ H Hex).
Defined.

(** C5, as stated, fails: after cancellation the outcome is delivered,
    both channels are closed and the outer goroutine has ended, and the
    subprocess is still running. *)
Lemma Run_cancellation_leaves_subprocess_running :
  ~ (forall tr st,
       Run.run tr Run.init = Some st ->
       existsb Run.is_outcome tr = true ->
       Run.proc st <> Run.Running).
Proof.
  intros H.
  apply (H Run.cancellation
           (Run.mkState Run.ODone Run.SScan Run.WWait true true Run.Running
                        [] true false)); reflexivity.
Qed.

(** The run in which the subprocess exits with a non-zero status: the
    outcome is delivered, then the waiter and the outer goroutine both
    close [errs], and the second close panics. *)
Lemma Run_exit_failure_double_close :
  exists st,
    Run.run [Run.PipeOk; Run.StartOk; Run.SpawnScanner; Run.SpawnWaiter;
             Run.Exit false; Run.WaitReturns; Run.SelectFinished;
             Run.Outcome (Some Run.WaitErr); Run.WaiterCloseErrs;
             Run.OuterCloseErrs] Run.init = Some st /\
    Run.panicked st = true /\ Run.pings_closed st = false.
Proof. eexists. split; [vm_compute; reflexivity|]. split; reflexivity. Qed.

(** * Further properties *)

(** ** Window *)

Lemma foldl_min_le (ds : list Z) (d : Z) :
  foldl Z.min d ds <= d /\ Forall (fun x => foldl Z.min d ds <= x) ds.
Proof.
  revert d. induction ds as [|x ds IH]; intros d; cbn [foldl].
  - split; [lia | constructor].
  - destruct (IH (Z.min d x)) as [H1 H2]. split; [lia|].
    constructor; [lia | exact H2].
Qed.

Lemma foldl_max_ge (ds : list Z) (d : Z) :
  d <= foldl Z.max d ds /\ Forall (fun x => x <= foldl Z.max d ds) ds.
Proof.
  revert d. induction ds as [|x ds IH]; intros d; cbn [foldl].
  - split; [lia | constructor].
  - destruct (IH (Z.max d x)) as [H1 H2]. split; [lia|].
    constructor; [lia | exact H2].
Qed.

Lemma sumZ_between (ds : list Z) (lo hi : Z) :
  Forall (fun x => lo <= x <= hi) ds ->
  lo * Z.of_nat (length ds) <= sumZ ds <= hi * Z.of_nat (length ds).
Proof.
  induction 1 as [|x ds Hx Hds IH]; cbn [length].
  - cbn. lia.
  - change (sumZ (x :: ds)) with (x + sumZ ds). lia.
Qed.

(** X1. For a window that has taken one or more positive samples (their
    number and their sum within int64), Min and Max are two of the samples
    and every sample lies between them; Average is the sum divided by the
    count, rounded down, and lies between Min and Max. *)
Theorem Window_Average_between_Min_and_Max (d : Z) (ds : list Z) :
  Forall (fun x => 0 < x) (d :: ds) ->
  Z.of_nat (length (d :: ds)) <= Int64.max_int ->
  sumZ (d :: ds) <= Int64.max_int ->
  exists w avg,
    exec (Window_updates (d :: ds)) Window.zero = Some w /\
    eval Window.Average w = Some avg /\
    Forall (fun x => Min w <= x <= Max w) (d :: ds) /\
    List.In (Min w) (d :: ds) /\ List.In (Max w) (d :: ds) /\
    avg = sumZ (d :: ds) / Z.of_nat (length (d :: ds)) /\
    Min w <= avg <= Max w.
Proof.
  intros Hpos Hlen Hsum.
  destruct (Window_updates_positive d ds Hpos Hlen Hsum)
    as (w & E & Hmin & Hmax & Hcnt & Htot & Havg).
  exists w, (sumZ (d :: ds) / Z.of_nat (length (d :: ds))).
  destruct (foldl_min_le ds d) as [Hm1 Hm2].
  destruct (foldl_max_ge ds d) as [HM1 HM2].
  fold (minimum d ds) in Hm1, Hm2. fold (maximum d ds) in HM1, HM2.
  assert (Hall : Forall (fun x => Min w <= x <= Max w) (d :: ds)).
  { rewrite Hmin, Hmax. constructor; [lia|].
    rewrite Forall_forall in Hm2, HM2 |- *. intros x Hx.
    specialize (Hm2 x Hx). specialize (HM2 x Hx). cbn beta in *. lia. }
  assert (Hin : forall (f : Z -> Z -> Z) ds d,
             (forall a b, f a b = a \/ f a b = b) -> List.In (foldl f d ds) (d :: ds)).
  { clear. intros f ds. induction ds as [|x ds IH]; intros d Hf; cbn [foldl].
    - left. reflexivity.
    - destruct (IH (f d x) Hf) as [H|H].
      + rewrite <- H. destruct (Hf d x) as [->| ->]; [left | right; left]; reflexivity.
      + right. right. exact H. }
  split; [exact E|]. split; [exact Havg|]. split; [exact Hall|].
  split; [rewrite Hmin; apply Hin; intros a b; lia|].
  split; [rewrite Hmax; apply Hin; intros a b; lia|].
  split; [reflexivity|].
  pose proof (sumZ_between _ _ _ Hall) as Hs.
  set (n := Z.of_nat (length (d :: ds))) in *.
  assert (0 < n) by (subst n; cbn [length]; lia).
  split.
  - apply Z.div_le_lower_bound; lia.
  - apply Z.div_le_upper_bound; lia.
Qed.

Lemma Window_Average_between_Min_and_Max_witness :
  Forall (fun x => 0 < x) [12; 7; 30] /\
  exists w avg,
    exec (Window_updates [12; 7; 30]) Window.zero = Some w /\
    eval Window.Average w = Some avg /\
    Forall (fun x => Min w <= x <= Max w) [12; 7; 30] /\
    List.In (Min w) [12; 7; 30] /\ List.In (Max w) [12; 7; 30] /\
    avg = sumZ [12; 7; 30] / Z.of_nat (length [12; 7; 30]) /\
    Min w <= avg <= Max w.
Proof.
  assert (Hpos : Forall (fun x => 0 < x) [12; 7; 30]) by (repeat constructor).
  split; [exact Hpos|].
  apply (Window_Average_between_Min_and_Max 12 [7; 30] Hpos);
    vm_compute; discriminate.
Defined.

Lemma bounds_latest_calls (cs : list Window_call) (w : Window) (acc : list Z) :
  bounds_latest w acc ->
  exists w', Window_calls cs w = Some (tt, w') /\ bounds_latest w' (since_reset acc cs).
Proof.
  revert w acc.
  induction cs as [|[d|] cs IH]; intros w acc Hw; cbn [Window_calls Window_do since_reset].
  - exists w. split; [reflexivity | exact Hw].
  - unfold bind. rewrite Window_Update_run. apply IH.
    destruct Hw as [HM _]. unfold bounds_latest, maximum in *. cbn [Min Max].
    rewrite foldl_app. cbn [foldl]. rewrite <- HM.
    assert (HM' : (if d >? Max w then d else Max w) = Z.max (Max w) d)
      by (destruct (d >? Max w) eqn:E; lia).
    split; [exact HM'|].
    intros acc' d' E. apply app_inj_tail in E as [_ <-]. rewrite HM'.
    destruct ((Min w =? 0) || (d <? Min w)) eqn:E1; [lia|].
    apply orb_false_iff in E1. lia.
  - unfold bind. rewrite Window_Reset_run. apply IH.
    split; [reflexivity|]. intros acc' d E. destruct acc'; discriminate E.
Qed.

(** X2. Whatever the calls of Update and Reset, and whatever the sign of
    the samples, Max is the greatest of 0 and the samples applied since the
    last reset: it is never negative, so that a window of negative samples
    has Max = 0. The sample applied last lies between Min and Max. *)
Theorem Window_Max_greatest_or_zero (cs : list Window_call) :
  exists w, exec (Window_calls cs) Window.zero = Some w /\
    Max w = maximum 0 (since_reset [] cs) /\
    0 <= Max w /\
    Forall (fun d => d <= Max w) (since_reset [] cs) /\
    (forall ds d, since_reset [] cs = ds ++ [d] -> Min w <= d <= Max w).
Proof.
  destruct (bounds_latest_calls cs Window.zero []) as (w & E & HM & Hlast).
  { split; [reflexivity|]. intros acc' d E. destruct acc'; discriminate E. }
  exists w. unfold exec. rewrite E. split; [reflexivity|].
  destruct (foldl_max_ge (since_reset [] cs) 0) as [H0 Hall].
  fold (maximum 0 (since_reset [] cs)) in H0, Hall. rewrite <- HM in H0, Hall.
  auto.
Qed.




(** ** Histogram *)

Lemma Histogram_Update_run (d : Z) (h : Histogram) :
  Histogram.Update d h =
  match first_fit d (thresholds h) with
  | Some i =>
      match buckets h !! i with
      | Some b => Some (tt, mkHistogram (thresholds h) (<[i := Int64.add b 1]> (buckets h))
                                        (Int64.add (total h) 1))
      | None => None
      end
  | None => Some (tt, mkHistogram (thresholds h) (buckets h) (Int64.add (total h) 1))
  end.
Proof.
  unfold Histogram.Update, bind, get. rewrite range_thresholds_run.
  destruct (first_fit d (thresholds h)) as [i|]; [|reflexivity].
  cbn [Nat.add]. unfold Histogram.incr_bucket, bind, get.
  destruct (buckets h !! i); reflexivity.
Qed.

(** X4. With the thresholds in non-decreasing order, bucket [i] takes
    the samples [d] with [thresholds[i-1] < d <= thresholds[i]] (those with
    [d <= thresholds[0]] for the first bucket), and a sample above the last
    threshold is counted in the total only. *)
Theorem Histogram_Update_ascending_interval (h : Histogram) (d : Z) :
  ascending (thresholds h) ->
  (forall i t b,
     thresholds h !! i = Some t -> d <= t ->
     (forall t', thresholds h !! Nat.pred i = Some t' -> i <> 0%nat -> t' < d) ->
     buckets h !! i = Some b ->
     exec (Histogram.Update d) h =
       Some (mkHistogram (thresholds h) (<[i := Int64.add b 1]> (buckets h))
                         (Int64.add (total h) 1))) /\
  (forall t, last (thresholds h) = Some t -> t < d ->
     exec (Histogram.Update d) h =
       Some (mkHistogram (thresholds h) (buckets h) (Int64.add (total h) 1))).
Proof.
  intros Hasc. split.
  - intros i t b Ei Hle Hprev Eb.
    assert (Ef : first_fit d (thresholds h) = Some i).
    { apply first_fit_Some. exists t. repeat split; [exact Ei | exact Hle|].
      intros j t' Hj Ej.
      destruct (lookup_lt_is_Some_2 (thresholds h) (Nat.pred i)) as [tp Ep].
      { apply lookup_lt_Some in Ei. lia. }
      specialize (Hprev tp Ep ltac:(lia)).
      specialize (Hasc j (Nat.pred i) t' tp ltac:(lia) Ej Ep). lia. }
    unfold exec. rewrite Histogram_Update_run, Ef, Eb. reflexivity.
  - intros t El Hlt.
    assert (Ef : first_fit d (thresholds h) = None).
    { apply first_fit_None. apply Forall_lookup. intros j tj Ej.
      rewrite last_lookup in El.
      apply (Hasc j _ tj t) in El; [lia | | exact Ej].
      apply lookup_lt_Some in Ej. lia. }
    unfold exec. rewrite Histogram_Update_run, Ef. reflexivity.
Qed.

Lemma Histogram_Update_ascending_interval_witness :
  let h := NewHistogram [1; 2; 5; 10; 20; 50; 100; 200; 500; 1000] in
  ascending (thresholds h) /\
  exec (Histogram.Update 7) h =
    Some (mkHistogram (thresholds h) [0; 0; 0; 1; 0; 0; 0; 0; 0; 0] 1) /\
  exec (Histogram.Update 1001) h =
    Some (mkHistogram (thresholds h) (buckets h) 1).
Proof.
  intros h.
  assert (Hasc : ascending (thresholds h)).
  { intros j k tj tk Hjk Ej Ek.
    do 10 (destruct j as [|j];
           [do 10 (destruct k as [|k]; [cbn in Ej, Ek; simplify_eq; lia|]);
            discriminate Ek|]).
    discriminate Ej. }
  destruct (Histogram_Update_ascending_interval h 7 Hasc) as [H1 _].
  destruct (Histogram_Update_ascending_interval h 1001 Hasc) as [_ H2].
  split; [exact Hasc|]. split.
  - apply (H1 3%nat 10 0); [reflexivity | lia | | reflexivity].
    intros t' E _. cbn in E. injection E as <-. lia.
  - apply (H2 1000); [reflexivity | lia].
Defined.

Lemma Histogram_updates_invariant (P : Histogram -> Prop) (ds : list Z) (h : Histogram) :
  (forall d h, P h -> exists h', Histogram.Update d h = Some (tt, h') /\ P h') ->
  P h ->
  exists h', Histogram_updates ds h = Some (tt, h') /\ P h'.
Proof.
  intros Hstep. revert h. induction ds as [|d ds IH]; intros h Hh; cbn [Histogram_updates].
  - exists h. split; [reflexivity | exact Hh].
  - destruct (Hstep d h Hh) as (h1 & E1 & H1).
    destruct (IH h1 H1) as (h2 & E2 & H2).
    exists h2. split; [unfold bind; rewrite E1; exact E2 | exact H2].
Qed.

(** X5. A threshold that comes after one at least as large never takes a
    sample: its bucket stays 0 whatever the samples, since the loop stops
    at the first threshold that fits. *)
Theorem Histogram_shadowed_bucket_stays_empty (ths ds : list Z) (i j : nat) (ti tj : Z) :
  (j < i)%nat -> ths !! j = Some tj -> ths !! i = Some ti -> ti <= tj ->
  exists h, exec (Histogram_updates ds) (NewHistogram ths) = Some h /\
            buckets h !! i = Some 0.
Proof.
  intros Hji Ej Ei Hle.
  destruct (Histogram_updates_invariant
              (fun h => thresholds h = ths /\ length (buckets h) = length ths /\
                        buckets h !! i = Some 0) ds (NewHistogram ths))
    as (h & E & _ & _ & Hi).
  - intros d h (Hth & Hlen & Hi).
    rewrite Histogram_Update_run, Hth.
    destruct (first_fit d ths) as [k|] eqn:Ek.
    + pose proof (first_fit_lt _ _ _ Ek) as Hk.
      destruct (lookup_lt_is_Some_2 (buckets h) k) as [b Eb]; [lia|].
      rewrite Eb. eexists. split; [reflexivity|]. cbn [thresholds buckets].
      split; [reflexivity|]. split; [rewrite length_insert; exact Hlen|].
      apply first_fit_Some in Ek as (t & Et & Hdt & Hbefore).
      assert (k <> i).
      { intros ->. specialize (Hbefore j tj Hji Ej).
        rewrite Ei in Et. injection Et as <-. lia. }
      rewrite list_lookup_insert_ne by assumption. exact Hi.
    + eexists. split; [reflexivity|]. cbn [thresholds buckets]. auto.
  - unfold NewHistogram. cbn [thresholds buckets].
    split; [reflexivity|]. split; [apply length_replicate|].
    apply lookup_replicate_2. apply lookup_lt_Some in Ei. exact Ei.
  - exists h. unfold exec. rewrite E. split; [reflexivity | exact Hi].
Qed.

Lemma Histogram_shadowed_bucket_stays_empty_witness :
  let ths := [10; 5; 20] in
  let ds := [3; 7; 5; 12; 40] in
  exists h, exec (Histogram_updates ds) (NewHistogram ths) = Some h /\
            buckets h !! 1%nat = Some 0.
Proof.
  intros ths ds.
  apply (Histogram_shadowed_bucket_stays_empty ths ds 1 0 5 10);
    [lia | reflexivity | reflexivity | lia].
Defined.

(** X6. [Histogram.Update] panics (index out of range) exactly when the
    first threshold that fits the sample has no bucket, which a histogram
    made by [NewHistogram] excludes. When it returns, it has added one to
    the total and left the thresholds and the number of buckets as they
    were. *)
Theorem Histogram_Update_panics_without_bucket (h : Histogram) (d : Z) :
  (Histogram.Update d h = None <->
   exists i t, thresholds h !! i = Some t /\ d <= t /\
     (forall j t', (j < i)%nat -> thresholds h !! j = Some t' -> t' < d) /\
     (length (buckets h) <= i)%nat) /\
  (forall h', exec (Histogram.Update d) h = Some h' ->
     thresholds h' = thresholds h /\ length (buckets h') = length (buckets h) /\
     total h' = Int64.add (total h) 1).
Proof.
  unfold exec. rewrite Histogram_Update_run. split.
  - destruct (first_fit d (thresholds h)) as [i|] eqn:Ei.
    + pose proof (proj1 (first_fit_Some _ _ _) Ei) as (t & Et & Hle & Hb).
      destruct (buckets h !! i) as [b|] eqn:Eb.
      * split; [discriminate|]. intros (i' & t' & Et' & Hle' & Hb' & Hlen).
        assert (first_fit d (thresholds h) = Some i') as Ei'
          by (apply first_fit_Some; eauto).
        rewrite Ei in Ei'. injection Ei' as <-.
        apply lookup_lt_Some in Eb. lia.
      * split; [|reflexivity]. intros _. exists i, t.
        apply lookup_ge_None in Eb. auto.
    + split; [discriminate|]. intros (i' & t' & Et' & Hle' & Hb' & Hlen).
      assert (first_fit d (thresholds h) = Some i') as Ei'
        by (apply first_fit_Some; eauto).
      rewrite Ei in Ei'. discriminate Ei'.
  - intros h'. destruct (first_fit d (thresholds h)) as [i|].
    + destruct (buckets h !! i) as [b|]; [|discriminate].
      intros [= <-]. cbn. rewrite length_insert. auto.
    + intros [= <-]. cbn. auto.
Qed.

(** ** Stats *)

Lemma Stats_updates_app (xs ys : list (time.Time * time.Time * Z)) (s : Stats) :
  Stats_updates (xs ++ ys) s =
  match Stats_updates xs s with
  | Some (_, s1) => Stats_updates ys s1
  | None => None
  end.
Proof.
  revert s. induction xs as [|[[n1 n2] d] xs IH]; intros s; cbn [app Stats_updates];
    [reflexivity|].
  unfold bind. destruct (Stats.Update n1 n2 d s) as [[[] s1]|]; [apply IH | reflexivity].
Qed.

Lemma Window_updates_app (xs ys : list Z) (w : Window) :
  Window_updates (xs ++ ys) w =
  match Window_updates xs w with
  | Some (_, w1) => Window_updates ys w1
  | None => None
  end.
Proof.
  revert w. induction xs as [|d xs IH]; intros w; cbn [app Window_updates]; [reflexivity|].
  unfold bind. destruct (Window.Update d w) as [[[] w1]|]; [apply IH | reflexivity].
Qed.

Lemma Window_Update_Count (d : Z) (w : Window) (n : Z) :
  0 <= Count w <= n -> n < Int64.max_int ->
  exists w', Window.Update d w = Some (tt, w') /\ Count w' = Count w + 1.
Proof.
  intros Hc Hn. rewrite Window_Update_run. eexists. split; [reflexivity|].
  cbn [Count]. unfold Int64.add. apply wrap_in_range.
  unfold Int64.in_range, Int64.min_int, Int64.max_int in *. lia.
Qed.

Lemma Stats_counts_Update (size : time.Duration) (ths : list Z) (n : Z) (s : Stats)
      (now1 now2 : time.Time) (d : Z) :
  Stats_counts size ths n s -> n < Int64.max_int ->
  exists s', Stats.Update now1 now2 d s = Some (tt, s') /\ Stats_counts size ths (n + 1) s'.
Proof.
  intros (Hsz & Hth & Hwf & Htot & Hct & Hcw & Hcl) Hn.
  destruct (Window_Update_Count d (window s) n Hcw Hn) as (w' & Ew & Hw').
  destruct (Window_Update_Count d (totals s) n ltac:(lia) Hn) as (t' & Et & Ht').
  destruct (Histogram_Update_total d _ Hwf) as (h' & Eh & Hwf' & Hth' & Htot').
  rewrite (Stats_Update_run now1 now2 d s w' t' h' Ew Et Eh).
  eexists. split; [reflexivity|].
  assert (Hadd : Int64.add (total (histogram s)) 1 = n + 1).
  { unfold Int64.add. rewrite Htot. apply wrap_in_range.
    unfold Int64.in_range, Int64.min_int, Int64.max_int in *. lia. }
  unfold Stats_counts.
  destruct (Stats.elapsed_exceeds now1 s);
    cbn [windowSize histogram totals window lastWindow Count Window.zero];
    repeat split; try assumption; try congruence; lia.
Qed.

(** X7. From the statistics that [test] starts with, after any samples
    (fewer than 2^63) at whatever clock readings: the total of the
    histogram and the count of the lifetime window both are the number of
    samples, the counts of the current and of the last completed window do
    not exceed it, and the window span and the thresholds are unchanged. *)
Theorem Stats_Update_counts_agree (span : Z) (now : time.Time)
        (samples : list (time.Time * time.Time * Z)) :
  Z.of_nat (length samples) <= Int64.max_int ->
  exists s, exec (Stats_updates samples) (model.initial_stats span now) = Some s /\
    total (histogram s) = Z.of_nat (length samples) /\
    Count (totals s) = Z.of_nat (length samples) /\
    0 <= Count (window s) <= Count (totals s) /\
    0 <= Count (lastWindow s) <= Count (totals s) /\
    windowSize s = windowSize (model.initial_stats span now) /\
    thresholds (histogram s) = [1; 2; 5; 10; 20; 50; 100; 200; 500; 1000].
Proof.
  set (s0 := model.initial_stats span now).
  set (ths := [1; 2; 5; 10; 20; 50; 100; 200; 500; 1000]).
  assert (H : forall samples n s,
             Stats_counts (windowSize s0) ths n s ->
             n + Z.of_nat (length samples) <= Int64.max_int ->
             exists s', Stats_updates samples s = Some (tt, s') /\
                        Stats_counts (windowSize s0) ths (n + Z.of_nat (length samples)) s').
  { clear samples. induction samples as [|[[n1 n2] d] samples IH]; intros n s Hs Hn.
    - exists s. cbn. rewrite Z.add_0_r. auto.
    - cbn [length] in Hn.
      destruct (Stats_counts_Update _ _ n s n1 n2 d Hs) as (s1 & E1 & H1); [lia|].
      destruct (IH (n + 1) s1 H1) as (s2 & E2 & H2); [lia|].
      exists s2. cbn [Stats_updates]. unfold bind. rewrite E1.
      split; [exact E2|].
      replace (n + Z.of_nat (length ((n1, n2, d) :: samples)))
        with (n + 1 + Z.of_nat (length samples)) by (cbn [length]; lia).
      exact H2. }
  intros Hlen.
  destruct (H samples 0 s0) as (s & E & Hsz & Hth & _ & Htot & Hct & Hcw & Hcl).
  - repeat split; cbn; lia.
  - lia.
  - exists s. unfold exec. rewrite E. cbn [Z.add] in *.
    rewrite Hct. repeat split; try assumption; lia.
Qed.

Lemma Stats_Update_counts_agree_witness :
  let samples := [(1000000000, 1000000001, 12); (6000000000, 6000000001, 7);
                  (7000000000, 7000000001, 2000)] in
  Z.of_nat (length samples) <= Int64.max_int /\
  exists s, exec (Stats_updates samples) (model.initial_stats 5 0) = Some s /\
    total (histogram s) = Z.of_nat (length samples) /\
    Count (totals s) = Z.of_nat (length samples) /\
    0 <= Count (window s) <= Count (totals s) /\
    0 <= Count (lastWindow s) <= Count (totals s) /\
    windowSize s = windowSize (model.initial_stats 5 0) /\
    thresholds (histogram s) = [1; 2; 5; 10; 20; 50; 100; 200; 500; 1000].
Proof.
  intros samples.
  assert (H : Z.of_nat (length samples) <= Int64.max_int) by (vm_compute; discriminate).
  split; [exact H | exact (Stats_Update_counts_agree 5 0 samples H)].
Defined.

Lemma elapsed_exceeds_same (now : time.Time) (s s' : Stats) :
  windowSize s' = windowSize s -> windowStart s' = windowStart s ->
  Stats.elapsed_exceeds now s' = Stats.elapsed_exceeds now s.
Proof. unfold Stats.elapsed_exceeds. intros -> ->. reflexivity. Qed.

Lemma Histogram_updates_app (xs ys : list Z) (h : Histogram) :
  Histogram_updates (xs ++ ys) h =
  match Histogram_updates xs h with
  | Some (_, h1) => Histogram_updates ys h1
  | None => None
  end.
Proof.
  revert h. induction xs as [|d xs IH]; intros h; cbn [app Histogram_updates]; [reflexivity|].
  unfold bind. destruct (Histogram.Update d h) as [[[] h1]|]; [apply IH | reflexivity].
Qed.

(** While no sample finds the window past its span, [Stats.Update] is the
    three updates and nothing else. *)
Lemma Stats_updates_within_span (samples : list (time.Time * time.Time * Z)) (s : Stats) :
  well_formed (histogram s) ->
  within_span s samples ->
  exists w' t' h',
    Window_updates (values samples) (window s) = Some (tt, w') /\
    Window_updates (values samples) (totals s) = Some (tt, t') /\
    Histogram_updates (values samples) (histogram s) = Some (tt, h') /\
    well_formed h' /\
    Stats_updates samples s =
      Some (tt, mkStats (windowSize s) (windowStart s) w' (lastWindow s) t' h').
Proof.
  revert s. induction samples as [|[[n1 n2] d] samples IH]; intros s Hwf Hq.
  - exists (window s), (totals s), (histogram s). destruct s. repeat split. exact Hwf.
  - inversion Hq as [|? ? Hd Hq']; subst. cbn [fst] in Hd.
    destruct (Histogram_Update_total d _ Hwf) as (h1 & Eh & Hwf1 & _).
    pose proof (Stats_Update_run n1 n2 d s _ _ h1
                  (Window_Update_run d _) (Window_Update_run d _) Eh) as E1.
    rewrite Hd in E1.
    set (s1 := mkStats _ _ _ _ _ _) in E1.
    destruct (IH s1 Hwf1) as (w' & t' & h' & Ew & Et & Eh' & Hwf' & E).
    { unfold within_span in *. eapply Forall_impl; [exact Hq'|].
      intros x Hx. cbn beta in *. rewrite <- Hx. apply elapsed_exceeds_same; reflexivity. }
    exists w', t', h'.
    unfold values in *. cbn [map snd Window_updates Histogram_updates Stats_updates].
    unfold bind. rewrite !Window_Update_run, Eh, E1.
    repeat split; assumption.
Qed.

(** X8. Until a sample first finds the window past its span there is no
    completed window: [lastWindow] is still the zero Window, the current
    window equals the lifetime window, and [String] shows
    "Window - Min: 0ms, Max: 0ms, Avg: 0ms" above the totals, however many
    samples have been applied. *)
Theorem Stats_before_first_rollover (span : Z) (now : time.Time)
        (samples : list (time.Time * time.Time * Z)) :
  within_span (model.initial_stats span now) samples ->
  exists s tot,
    exec (Stats_updates samples) (model.initial_stats span now) = Some s /\
    lastWindow s = Window.zero /\
    exec (Window_updates (values samples)) Window.zero = Some (window s) /\
    totals s = window s /\
    windowStart s = now /\
    eval Window.String (totals s) = Some tot /\
    eval Stats.String s =
      Some ("Window - Min: 0ms, Max: 0ms, Avg: 0ms" ++ newline ++ "Totals - " ++ tot)%string.
Proof.
  intros Hq.
  destruct (Stats_updates_within_span samples (model.initial_stats span now))
    as (w' & t' & h' & Ew & Et & Eh & Hwf & E); [reflexivity | exact Hq |].
  cbn [model.initial_stats window totals histogram windowSize windowStart
       lastWindow] in *.
  rewrite Ew in Et. injection Et as <-.
  destruct (Window_String_run w') as (tot & Etot).
  exists (mkStats (Int64.mul span time.Second) now w' Window.zero w' h'), tot.
  cbn [lastWindow window totals windowStart].
  split; [unfold exec; rewrite E; reflexivity|].
  split; [reflexivity|].
  split; [unfold exec; rewrite Ew; reflexivity|].
  split; [reflexivity|]. split; [reflexivity|].
  split; [unfold eval; rewrite Etot; reflexivity|].
  unfold eval, Stats.String, bind, zoom, ret.
  cbn [lastWindow totals Stats.set_lastWindow Stats.set_totals windowSize windowStart
       window histogram].
  assert (Ez : Window.String Window.zero =
               Some ("Min: 0ms, Max: 0ms, Avg: 0ms"%string, Window.zero)) by reflexivity.
  rewrite Ez.
  cbn [lastWindow totals Stats.set_lastWindow Stats.set_totals windowSize windowStart
       window histogram].
  rewrite Etot. reflexivity.
Qed.

Lemma Stats_before_first_rollover_witness :
  let samples := [(1000000000, 1000000001, 12); (2000000000, 2000000001, 7)] in
  within_span (model.initial_stats 5 0) samples /\
  exists s tot,
    exec (Stats_updates samples) (model.initial_stats 5 0) = Some s /\
    lastWindow s = Window.zero /\
    exec (Window_updates (values samples)) Window.zero = Some (window s) /\
    totals s = window s /\
    windowStart s = 0 /\
    eval Window.String (totals s) = Some tot /\
    eval Stats.String s =
      Some ("Window - Min: 0ms, Max: 0ms, Avg: 0ms" ++ newline ++ "Totals - " ++ tot)%string.
Proof.
  intros samples.
  assert (H : within_span (model.initial_stats 5 0) samples).
  { repeat constructor; vm_compute; reflexivity. }
  split; [exact H | exact (Stats_before_first_rollover 5 0 samples H)].
Defined.

(** X9. A completed window holds the samples of its time. From
    statistics whose current window is empty, the samples up to and
    including the first that finds the window past its span are those of
    [lastWindow] afterwards: it is the Window that the same Updates make of
    the zero Window. The current window is empty again, opened at the
    second clock reading of that sample, and the lifetime window has taken
    the same samples. *)
Theorem Stats_completed_window (s : Stats) (seg : list (time.Time * time.Time * Z))
        (now1 now2 : time.Time) (d : Z) :
  well_formed (histogram s) ->
  window s = Window.zero ->
  within_span s seg ->
  Stats.elapsed_exceeds now1 s = true ->
  exists s',
    exec (Stats_updates (seg ++ [(now1, now2, d)])) s = Some s' /\
    exec (Window_updates (values seg ++ [d])) Window.zero = Some (lastWindow s') /\
    exec (Window_updates (values seg ++ [d])) (totals s) = Some (totals s') /\
    window s' = Window.zero /\
    windowStart s' = now2 /\ windowSize s' = windowSize s.
Proof.
  intros Hwf Hw0 Hq Hex.
  destruct (Stats_updates_within_span seg s Hwf Hq)
    as (w1 & t1 & h1 & Ew & Et & Eh & Hwf1 & E).
  rewrite Hw0 in Ew.
  set (s1 := mkStats (windowSize s) (windowStart s) w1 (lastWindow s) t1 h1) in *.
  destruct (Histogram_Update_total d h1 Hwf1) as (h2 & Eh2 & _).
  pose proof (Stats_Update_run now1 now2 d s1 _ _ h2
                (Window_Update_run d _) (Window_Update_run d _) Eh2) as E2.
  rewrite (elapsed_exceeds_same now1 s s1 eq_refl eq_refl), Hex in E2.
  eexists. unfold exec.
  rewrite Stats_updates_app, E. cbn [Stats_updates]. unfold bind at 1. rewrite E2.
  rewrite !Window_updates_app, Ew, Et. cbn [Window_updates]. unfold bind.
  rewrite !Window_Update_run.
  cbn [ret fmap option_fmap option_map snd lastWindow totals window
       windowStart windowSize s1].
  repeat split.
Qed.

Lemma Stats_completed_window_witness :
  let s := model.initial_stats 5 0 in
  let seg := [(1000000000, 1000000001, 12); (2000000000, 2000000001, 7)] in
  well_formed (histogram s) /\ window s = Window.zero /\
  within_span s seg /\ Stats.elapsed_exceeds 6000000000 s = true /\
  exists s',
    exec (Stats_updates (seg ++ [(6000000000, 6000000002, 30)])) s = Some s' /\
    exec (Window_updates (values seg ++ [30])) Window.zero = Some (lastWindow s') /\
    exec (Window_updates (values seg ++ [30])) (totals s) = Some (totals s') /\
    window s' = Window.zero /\
    windowStart s' = 6000000002 /\ windowSize s' = windowSize s.
Proof.
  intros s seg.
  assert (Hwf : well_formed (histogram s)) by reflexivity.
  assert (Hw : window s = Window.zero) by reflexivity.
  assert (Hq : within_span s seg) by (repeat constructor; vm_compute; reflexivity).
  assert (Hex : Stats.elapsed_exceeds 6000000000 s = true) by (vm_compute; reflexivity).
  split; [exact Hwf|]. split; [exact Hw|]. split; [exact Hq|]. split; [exact Hex|].
  exact (Stats_completed_window s seg 6000000000 6000000002 30 Hwf Hw Hq Hex).
Defined.

(** ** The lines [processLine] accepts *)

Lemma run_Char_inv p c pos s marks r :
  regexp.run (regexp.Char c :: p) pos s marks = Some r ->
  exists s', s = String c s' /\ regexp.run p (S pos) s' marks = Some r.
Proof.
  cbn [regexp.run]. destruct s as [|c' s']; [discriminate|].
  destruct (Ascii.eqb c c') eqn:E; [|discriminate].
  apply Ascii.eqb_eq in E as <-. eauto.
Qed.

Lemma run_lit_inv (l : string) p pos s marks r :
  regexp.run (regexp.lit l ++ p) pos s marks = Some r ->
  exists s', s = (l ++ s')%string /\
             regexp.run p (pos + String.length l)%nat s' marks = Some r.
Proof.
  revert pos s. induction l as [|c l IH]; intros pos s H; cbn [regexp.lit app] in H.
  - exists s. rewrite Nat.add_0_r. auto.
  - apply run_Char_inv in H as (s1 & -> & H).
    apply IH in H as (s' & -> & H).
    exists s'. cbn [String.length String.append]. rewrite Nat.add_succ_r. auto.
Qed.

Lemma run_Digits_inv p pos s marks r :
  regexp.run (regexp.Digits :: p) pos s marks = Some r ->
  exists ds s', s = (ds ++ s')%string /\ number ds /\
                regexp.run p (pos + String.length ds)%nat s' marks = Some r.
Proof.
  revert pos. induction s as [|c s IH]; intros pos H; [discriminate H|].
  rewrite run_Digits_cons in H.
  destruct (time.is_digit c) eqn:Ec; [|discriminate H].
  destruct (regexp.run (regexp.Digits :: p) (S pos) s marks) as [r'|] eqn:E.
  - injection H as ->. destruct (IH _ E) as (ds & s' & -> & [Hne Hds] & Hk).
    exists (String c ds), s'. unfold number. cbn [String.append String.length all_digits].
    rewrite Nat.add_succ_r, Ec, Hds. repeat split; [discriminate | exact Hk].
  - exists (String c EmptyString), s. unfold number.
    cbn [String.append String.length all_digits].
    rewrite Nat.add_1_r, Ec. repeat split; [discriminate | exact H].
Qed.

Lemma rune_width_bounds (s : string) :
  s <> EmptyString ->
  (1 <= regexp.rune_width s <= 4)%nat /\ (regexp.rune_width s <= String.length s)%nat.
Proof.
  intros Hs. destruct s as [|c0 s]; [contradiction|]. unfold regexp.rune_width.
  destruct (regexp.first (time.byte c0)) as [[[sz lo] hi]|]; [|cbn; lia].
  destruct s as [|c1 s]; [cbn; lia|].
  destruct (negb (regexp.between lo hi c1)); [cbn; lia|].
  destruct (sz <=? 2)%nat; [cbn; lia|].
  destruct s as [|c2 s]; [cbn; lia|].
  destruct (negb (regexp.between 128 191 c2)); [cbn; lia|].
  destruct (sz <=? 3)%nat; [cbn; lia|].
  destruct s as [|c3 s]; [cbn; lia|].
  destruct (negb (regexp.between 128 191 c3)); cbn; lia.
Qed.

Lemma take_drop (n : nat) (s : string) :
  (n <= String.length s)%nat ->
  s = (substring 0 n s ++ regexp.drop n s)%string /\ String.length (substring 0 n s) = n.
Proof.
  revert s. induction n as [|n IH]; intros s Hn.
  - destruct s; cbn; auto.
  - destruct s as [|c s]; [cbn in Hn; lia|].
    cbn [String.length] in Hn. destruct (IH s ltac:(lia)) as [H1 H2].
    cbn [substring regexp.drop String.append String.length].
    rewrite <- H1, H2. auto.
Qed.

Lemma run_Any_inv p pos s marks r :
  regexp.run (regexp.AnyNotNL :: p) pos s marks = Some r ->
  exists w s', s = (w ++ s')%string /\ one_char w /\
               regexp.run p (pos + String.length w)%nat s' marks = Some r.
Proof.
  cbn [regexp.run]. destruct s as [|c s0]; [discriminate|].
  destruct (time.byte c =? 10) eqn:Ec; [discriminate|]. intros H.
  set (s := String c s0) in *.
  destruct (rune_width_bounds s) as [Hw Hl]; [discriminate|].
  destruct (take_drop (regexp.rune_width s) s Hl) as [Hs Hlen].
  exists (substring 0 (regexp.rune_width s) s), (regexp.drop (regexp.rune_width s) s).
  split; [exact Hs|]. rewrite Hlen. split; [|exact H].
  split; [lia|]. intros c' w' E.
  assert (c' = c) as ->.
  { subst s. destruct (regexp.rune_width (String c s0)) as [|k]; [lia|].
    cbn [substring] in E. injection E as <- _. reflexivity. }
  apply Z.eqb_neq, Ec.
Qed.

Lemma PING_LINE_shape (line : string) (r : list string) :
  regexp.run ping.PING_LINE 0 line [] = Some r ->
  exists n a w1 b w2 c w3 d seq ttl ip w fp,
    line = line_shape n a w1 b w2 c w3 d seq ttl ip w fp /\
    number n /\ number a /\ number b /\ number c /\ number d /\
    number seq /\ number ttl /\ number ip /\ number fp /\
    one_char w1 /\ one_char w2 /\ one_char w3 /\ one_char w /\
    r = [" ms"%string; (ip ++ w ++ fp ++ " ms")%string].
Proof.
  unfold ping.PING_LINE. cbn [app]. intros H.
  change (regexp.run (regexp.BeginText :: ?p) 0 ?s ?m) with (regexp.run p 0%nat s m) in H.
  apply run_Digits_inv in H as (n & s1 & -> & Hn & H).
  apply (run_lit_inv " bytes from ") in H as (s2 & -> & H).
  apply run_Digits_inv in H as (a & s3 & -> & Ha & H).
  apply run_Any_inv in H as (w1 & s4 & -> & Hw1 & H).
  apply run_Digits_inv in H as (b & s5 & -> & Hb & H).
  apply run_Any_inv in H as (w2 & s6 & -> & Hw2 & H).
  apply run_Digits_inv in H as (c & s7 & -> & Hc & H).
  apply run_Any_inv in H as (w3 & s8 & -> & Hw3 & H).
  apply run_Digits_inv in H as (d & s9 & -> & Hd & H).
  apply (run_lit_inv ": icmp_seq=") in H as (s10 & -> & H).
  apply run_Digits_inv in H as (seq & s11 & -> & Hseq & H).
  apply (run_lit_inv " ttl=") in H as (s12 & -> & H).
  apply run_Digits_inv in H as (ttl & s13 & -> & Httl & H).
  apply (run_lit_inv " time=") in H as (s14 & -> & H).
  change (regexp.run (regexp.CapOpen :: ?p) ?pos ?s ?m)
    with (regexp.run p pos s (s :: m)) in H.
  apply run_Digits_inv in H as (ip & s15 & E15 & Hip & H).
  apply run_Any_inv in H as (w & s16 & -> & Hw & H).
  apply run_Digits_inv in H as (fp & s17 & -> & Hfp & H).
  change (regexp.run (regexp.CapClose :: ?p) ?pos ?s ?m)
    with (regexp.run p pos s (s :: m)) in H.
  apply (run_lit_inv " ms") in H as (s18 & -> & H).
  cbn [regexp.run] in H. destruct s18; [|discriminate H]. injection H as <-.
  subst s14.
  exists n, a, w1, b, w2, c, w3, d, seq, ttl, ip, w, fp.
  unfold line_shape.
  repeat match goal with |- _ /\ _ => split end; try assumption; reflexivity.
Qed.

Lemma parse_groups_nonneg (fuel : nat) (d d' : Z) (s : string) :
  0 <= d -> time.parse_groups fuel d s = Some (inr d') -> 0 <= d'.
Proof.
  revert d s. induction fuel as [|fuel IH]; intros d s Hd H; [discriminate H|].
  cbn [time.parse_groups] in H.
  destruct s as [|c0 s0]; [injection H as <-; exact Hd|].
  destruct (negb _); [discriminate|].
  destruct (time.leadingInt (String c0 s0)) as [[v s1]|]; [|discriminate].
  set (npre := negb _) in H.
  destruct (match s1 with
            | ""%string => (0, 1%float, s1, false)
            | String c1 s1' => _
            end) as [[[f scale] s2] post].
  cbv beta iota in H.
  destruct (npre && negb post); [discriminate|].
  destruct (time.span_unit s2) as [u s3]. cbv beta iota in H.
  destruct (String.length u =? 0)%nat; [discriminate|].
  destruct (time.unitMap u) as [unit|]; [|discriminate].
  destruct (v >? 2 ^ 63 / unit); [discriminate|].
  destruct (_ && _); [discriminate|].
  destruct (_ >? 2 ^ 63); [discriminate|].
  apply IH in H; [exact H|].
  unfold Uint64.add, Uint64.wrap. apply Z.mod_pos_bound. reflexivity.
Qed.

(** [time.ParseDuration] gives a negative duration only for a string that
    begins with a minus sign, and the duration 0 with every error. *)
Lemma ParseDuration_sign (s : string) (d : time.Duration) (e : option time.error) :
  time.ParseDuration s = (d, e) ->
  match e with
  | None => (forall s', s <> String "-" s') -> 0 <= d <= Int64.max_int
  | Some _ => d = 0
  end.
Proof.
  unfold time.ParseDuration.
  set (ns := match s with
             | String c s' => if (time.byte c =? 45) || (time.byte c =? 43)
                              then (time.byte c =? 45, s') else (false, s)
             | EmptyString => (false, s)
             end).
  assert (Hneg : fst ns = true -> exists s', s = String "-" s').
  { subst ns. destruct s as [|c s']; [discriminate|].
    destruct ((time.byte c =? 45) || (time.byte c =? 43)); [|discriminate].
    cbn [fst]. intros E. exists s'. f_equal.
    apply Z.eqb_eq in E. unfold time.byte in E.
    assert (En : N_of_ascii c = 45%N) by lia.
    rewrite <- (ascii_N_embedding c), En. reflexivity. }
  destruct ns as [neg s0]. cbn [fst] in Hneg.
  destruct (String.eqb s0 "0"); [intros [= <- <-]; intros _; unfold Int64.max_int; lia|].
  destruct (String.eqb s0 ""); [intros [= <- <-]; reflexivity|].
  destruct (time.parse_groups _ 0 s0) as [[err|d0]|] eqn:E;
    [intros [= <- <-]; reflexivity | | intros [= <- <-]; reflexivity].
  apply parse_groups_nonneg in E; [|lia].
  destruct neg.
  - intros [= <- <-] Hs. destruct (Hneg eq_refl) as [s' ->]. destruct (Hs s' eq_refl).
  - destruct (d0 >? 2 ^ 63 - 1) eqn:Eg; [intros [= <- <-]; reflexivity|].
    intros [= <- <-] _.
    rewrite wrap_in_range; unfold Int64.in_range, Int64.min_int, Int64.max_int; lia.
Qed.

Lemma FindStringSubmatch_shape (line : string) :
  regexp.FindStringSubmatch ping.PING_LINE line = [] \/
  exists n a w1 b w2 c w3 d seq ttl ip w fp,
    line = line_shape n a w1 b w2 c w3 d seq ttl ip w fp /\
    number n /\ number a /\ number b /\ number c /\ number d /\
    number seq /\ number ttl /\ number ip /\ number fp /\
    one_char w1 /\ one_char w2 /\ one_char w3 /\ one_char w /\
    regexp.FindStringSubmatch ping.PING_LINE line = [line; (ip ++ w ++ fp)%string].
Proof.
  unfold regexp.FindStringSubmatch.
  destruct (regexp.run ping.PING_LINE 0 line []) as [r|] eqn:E; [|left; reflexivity].
  apply PING_LINE_shape in E
    as (n & a & w1 & b & w2 & c & w3 & d & seq & ttl & ip & w & fp & Hl & H).
  right. exists n, a, w1, b, w2, c, w3, d, seq, ttl, ip, w, fp.
  split; [exact Hl|].
  repeat match goal with
         | H : _ /\ _ |- _ => destruct H
         | |- _ /\ _ => split; [assumption|]
         end.
  subst r. f_equal. f_equal.
  replace (ip ++ w ++ fp ++ " ms")%string with ((ip ++ w ++ fp) ++ " ms")%string
    by (rewrite !append_assoc; reflexivity).
  rewrite (length_append (ip ++ w ++ fp) " ms"). cbn [String.length].
  replace (String.length (ip ++ w ++ fp) + 3 - 3)%nat
    with (String.length (ip ++ w ++ fp)) by lia.
  apply substring_append.
Qed.



(** X11. [processLine] never yields a negative duration: a duration
    returned without an error is between 0 and the greatest Duration, and
    with an error the duration is 0. *)
Theorem processLine_never_negative (line : string) :
  match ping.processLine line with
  | (d, None) => 0 <= d <= Int64.max_int
  | (d, Some _) => d = 0
  end.
Proof.
  unfold ping.processLine.
  destruct (FindStringSubmatch_shape line)
    as [->|(n & a & w1 & b & w2 & c & w3 & d & seq & ttl & ip & w & fp & Hl & H)].
  - reflexivity.
  - repeat match goal with H : _ /\ _ |- _ => destruct H end.
    match goal with E : regexp.FindStringSubmatch _ _ = _ |- _ => rewrite E end.
    cbn [length nth Nat.ltb Nat.leb].
    destruct (time.ParseDuration ((ip ++ w ++ fp) ++ "ms")) as [d0 e] eqn:E.
    pose proof (ParseDuration_sign _ _ _ E) as Hs.
    destruct e as [e|]; cbn [fmap option_fmap option_map]; [exact Hs|].
    apply Hs. intros s' Es.
    match goal with Hip : number ip |- _ => destruct Hip as [Hne Hd] end.
    destruct ip as [|c0 ip']; [contradiction|].
    cbn [String.append] in Es. injection Es as -> _.
    cbn [all_digits] in Hd. vm_compute in Hd. discriminate Hd.
Qed.

(** ** A latency printed as a whole number *)

Lemma digit_is_ascii (c : ascii) :
  time.is_digit c = true ->
  (time.byte c =? 10) = false /\ forall s, regexp.rune_width (String c s) = 1%nat.
Proof.
  intros H. pose proof (digit_value c H) as Hv. split; [apply Z.eqb_neq; lia|].
  intros s. unfold regexp.rune_width, regexp.first.
  replace (time.byte c <? 194) with true by (symmetry; apply Z.ltb_lt; lia).
  reflexivity.
Qed.

Lemma all_digits_app (s t : string) :
  all_digits (s ++ t) = all_digits s && all_digits t.
Proof.
  induction s as [|c s IH]; cbn [String.append all_digits]; [reflexivity|].
  rewrite IH, andb_assoc. reflexivity.
Qed.

Lemma split_last_two (t : string) :
  (3 <= String.length t)%nat ->
  exists t0 c1 c2, t = (t0 ++ String c1 (String c2 ""))%string /\ t0 <> EmptyString.
Proof.
  induction t as [|c t IH]; cbn [String.length]; [lia|]. intros H.
  destruct t as [|c1 [|c2 [|c3 t]]]; cbn [String.length] in *; try lia.
  - exists (String c ""), c1, c2. split; [reflexivity | discriminate].
  - destruct IH as (t0 & d1 & d2 & E & _); [lia|].
    exists (String c t0), d1, d2. cbn [String.append]. rewrite <- E.
    split; [reflexivity | discriminate].
Qed.

Lemma whole_number_two (c1 c2 : ascii) (pos : nat) (marks : list string) :
  time.is_digit c1 = true -> time.is_digit c2 = true ->
  regexp.run (regexp.Digits :: after_digits) pos (String c1 (String c2 " ms")) marks = None /\
  regexp.run after_digits pos (String c1 (String c2 " ms")) marks
    = Some (" ms"%string :: marks).
Proof.
  intros H1 H2.
  destruct (digit_is_ascii c1 H1) as [N1 W1]. destruct (digit_is_ascii c2 H2) as [N2 W2].
  split.
  - rewrite run_Digits_cons, H1, run_Digits_cons, H2.
    rewrite (run_Digits_end _ _ " ms") by reflexivity.
    unfold after_digits at 1 2. cbn [app regexp.lit].
    cbn [regexp.run]. rewrite N2, W2. cbn [regexp.drop Nat.add].
    reflexivity.
  - unfold after_digits. cbn [app regexp.lit].
    change (regexp.run (regexp.AnyNotNL :: ?p) pos (String c1 ?s) marks)
      with (if time.byte c1 =? 10 then None
            else regexp.run p (pos + regexp.rune_width (String c1 s))%nat
                   (regexp.drop (regexp.rune_width (String c1 s)) (String c1 s)) marks).
    rewrite N1, W1. cbn [regexp.drop].
    rewrite run_Digits_cons, H2. rewrite (run_Digits_end _ _ " ms") by reflexivity.
    reflexivity.
Qed.

Lemma whole_number_capture (t0 : string) (c1 c2 : ascii) (pos : nat) (marks : list string) :
  t0 <> EmptyString -> all_digits t0 = true ->
  time.is_digit c1 = true -> time.is_digit c2 = true ->
  regexp.run (regexp.Digits :: after_digits) pos
             (t0 ++ String c1 (String c2 " ms")) marks
  = Some (" ms"%string :: marks).
Proof.
  intros Hne Hd H1 H2. revert pos.
  induction t0 as [|c t0 IH]; [contradiction|]. intros pos.
  cbn [all_digits] in Hd. apply andb_true_iff in Hd as [Hc Hd].
  cbn [String.append]. rewrite run_Digits_cons, Hc.
  destruct t0 as [|c' t0].
  - cbn [String.append].
    destruct (whole_number_two c1 c2 (S pos) marks H1 H2) as [-> ->]. reflexivity.
  - rewrite IH; [reflexivity | discriminate | exact Hd].
Qed.

Lemma PING_LINE_matches_whole (n a b c d seq ttl t : string) :
  number n -> number a -> number b -> number c -> number d ->
  number seq -> number ttl -> number t -> (3 <= String.length t)%nat ->
  regexp.FindStringSubmatch ping.PING_LINE (whole_line n a b c d seq ttl t) =
  [whole_line n a b c d seq ttl t; t].
Proof.
  intros Hn Ha Hb Hc Hd Hseq Httl [_ Ht] Hlen.
  destruct (split_last_two t Hlen) as (t0 & c1 & c2 & E & Hne).
  assert (Ht' := Ht). rewrite E, all_digits_app in Ht'.
  apply andb_true_iff in Ht' as [Ht0 H12]. cbn [all_digits] in H12.
  rewrite andb_true_r in H12. apply andb_true_iff in H12 as [H1 H2].
  unfold regexp.FindStringSubmatch.
  assert (Hrun : regexp.run ping.PING_LINE 0 (whole_line n a b c d seq ttl t) [] =
                 Some [" ms"%string; (t ++ " ms")%string]).
  { unfold ping.PING_LINE, whole_line. cbn [app regexp.lit].
    change (regexp.run (regexp.BeginText :: ?p) 0 ?s ?m) with (regexp.run p 0%nat s m).
    repeat first
      [ apply run_Char
      | apply run_dot
      | apply run_Digits_app; [assumption | reflexivity |]
      | progress cbn [String.append] ].
    apply run_CapOpen. rewrite E, append_assoc. cbn [String.append].
    apply (whole_number_capture t0 c1 c2); assumption. }
  rewrite Hrun. f_equal. f_equal.
  rewrite (length_append t " ms"). cbn [String.length].
  replace (String.length t + 3 - 3)%nat with (String.length t) by lia.
  apply substring_append.
Qed.

Lemma ParseDuration_whole_ms (t : string) :
  number t -> decimal t * 1000000 <= Int64.max_int ->
  time.ParseDuration (t ++ "ms") = (decimal t * 1000000, None).
Proof.
  intros [Hne Ht] Hmax.
  pose proof (decimal_bounds t Ht) as Hv.
  unfold Int64.max_int in Hmax. change (2 ^ 63 - 1) with 9223372036854775807 in Hmax.
  destruct t as [|c0 t']; [contradiction|].
  assert (Hc0 : time.is_digit c0 = true).
  { cbn [all_digits] in Ht. apply andb_true_iff in Ht. tauto. }
  pose proof (digit_value c0 Hc0) as Hc0v.
  set (s := (String c0 t' ++ "ms")%string).
  assert (Hs : s = String c0 (t' ++ "ms")) by reflexivity.
  unfold time.ParseDuration.
  rewrite Hs at 1.
  replace ((time.byte c0 =? 45) || (time.byte c0 =? 43)) with false
    by (symmetry; apply orb_false_iff; split; apply Z.eqb_neq; lia).
  assert (Hne0 : (s =? "0")%string = false).
  { apply String.eqb_neq. rewrite Hs. intros [= _ E]. exact (append_not_empty _ _ _ E). }
  assert (Hne1 : (s =? "")%string = false).
  { apply String.eqb_neq. rewrite Hs. discriminate. }
  rewrite Hne0, Hne1.
  set (V := decimal (String c0 t')) in *.
  assert (Hpg : time.parse_groups (S (String.length s)) 0 s = Some (inr (V * 1000000))).
  { assert (Hint : time.leadingInt s = Some (V, "ms"%string)).
    { unfold time.leadingInt. subst V. unfold decimal.
      apply (leadingInt_from_app (String c0 t') "ms" 0); [exact Ht | reflexivity | lia |].
      fold (decimal (String c0 t')). change (2 ^ 63) with 9223372036854775808. lia. }
    assert (Hl1 : (String.length (String c0 (t' ++ "ms")) =? String.length "ms")%nat = false).
    { apply Nat.eqb_neq. cbn [String.length]. rewrite (length_append t' "ms").
      cbn [String.length]. lia. }
    assert (Hfuel : exists n, String.length s = S n).
    { rewrite Hs. cbn [String.length]. eexists. reflexivity. }
    destruct Hfuel as [n Hn].
    remember (String.length s) as m eqn:Hm.
    assert (Hend : forall d, time.parse_groups m d "" = Some (inr d))
      by (intros d; rewrite Hn; reflexivity).
    clear Hn Hm.
    rewrite Hs in Hint |- *.
    cbn [time.parse_groups].
    replace ((time.byte c0 =? 46) || time.is_digit c0) with true
      by (rewrite Hc0; symmetry; apply orb_true_r).
    cbn [negb]. rewrite Hint.
    replace (time.byte "m" =? 46) with false by reflexivity.
    rewrite Hl1. cbn [negb andb].
    change (time.span_unit "ms") with ("ms"%string, ""%string).
    cbv beta iota. change (String.length "ms" =? 0)%nat with false. cbv iota.
    change (time.unitMap "ms") with (Some 1000000). cbv beta iota.
    change (2 ^ 63 / 1000000) with 9223372036854.
    change (2 ^ 63) with 9223372036854775808.
    replace (V >? 9223372036854) with false
      by (symmetry; rewrite Z.gtb_ltb; apply Z.ltb_ge; lia).
    change (0 >? 0) with false. cbv iota. cbn [andb].
    assert (HT : Uint64.add 0 (Uint64.mul V 1000000) = V * 1000000).
    { unfold Uint64.add, Uint64.mul, Uint64.wrap.
      change (2 ^ 64) with 18446744073709551616.
      rewrite (Z.mod_small (V * 1000000)) by lia. apply Z.mod_small. lia. }
    rewrite HT.
    replace (V * 1000000 >? 9223372036854775808) with false
      by (symmetry; rewrite Z.gtb_ltb; apply Z.ltb_ge; lia).
    apply Hend. }
  rewrite Hpg.
  change (2 ^ 63 - 1) with 9223372036854775807.
  replace (V * 1000000 >? 9223372036854775807) with false
    by (symmetry; rewrite Z.gtb_ltb; apply Z.ltb_ge; lia).
  rewrite wrap_in_range; [reflexivity|].
  unfold Int64.in_range, Int64.min_int, Int64.max_int. lia.
Qed.

(** X12. A latency printed as a whole number of three or more digits
    ([time=123 ms]) is accepted, a digit in the middle being taken by the
    unescaped dot of the pattern: the sample is that number of
    milliseconds, and the scanner sends it. *)
Theorem processLine_whole_number (n a b c d seq ttl t : string) :
  number n -> number a -> number b -> number c -> number d ->
  number seq -> number ttl -> number t ->
  (3 <= String.length t)%nat ->
  decimal t * 1000000 <= Int64.max_int ->
  ping.processLine (whole_line n a b c d seq ttl t) = (decimal t * 1000000, None) /\
  ping.scan_line (whole_line n a b c d seq ttl t) = Some (decimal t * 1000000).
Proof.
  intros Hn Ha Hb Hc Hd Hseq Httl Ht Hlen Hmax.
  assert (E : ping.processLine (whole_line n a b c d seq ttl t)
              = (decimal t * 1000000, None)).
  { unfold ping.processLine.
    rewrite PING_LINE_matches_whole by assumption.
    cbn [length nth Nat.ltb Nat.leb].
    rewrite (ParseDuration_whole_ms t Ht Hmax). reflexivity. }
  split; [exact E|].
  unfold ping.scan_line. rewrite E.
  destruct Hn as [Hne Hnd]. destruct n as [|c0 n']; [contradiction|].
  cbn [all_digits] in Hnd. apply andb_true_iff in Hnd as [Hc0 _].
  pose proof (digit_value c0 Hc0) as Hv.
  unfold whole_line. cbn [String.append String.length Nat.ltb Nat.leb String.prefix].
  destruct (ascii_dec c0 "P") as [->|Hne0]; [vm_compute in Hc0; discriminate Hc0|].
  destruct (Ascii.ascii_dec "P" c0) as [<-|_]; [contradiction | reflexivity].
Qed.

Lemma processLine_whole_number_witness :
  number "64" /\ number "10" /\ number "0" /\ number "1" /\ number "7" /\
  number "57" /\ number "123" /\
  (3 <= String.length "123")%nat /\
  ping.processLine "64 bytes from 10.0.0.1: icmp_seq=7 ttl=57 time=123 ms"
    = (123000000, None) /\
  ping.scan_line "64 bytes from 10.0.0.1: icmp_seq=7 ttl=57 time=123 ms"
    = Some 123000000.
Proof.
  assert (N : forall s, s <> EmptyString -> all_digits s = true -> number s)
    by (intros s H1 H2; split; assumption).
  assert (H64 : number "64") by (apply N; [discriminate | reflexivity]).
  assert (H10 : number "10") by (apply N; [discriminate | reflexivity]).
  assert (H0 : number "0") by (apply N; [discriminate | reflexivity]).
  assert (H1 : number "1") by (apply N; [discriminate | reflexivity]).
  assert (H7 : number "7") by (apply N; [discriminate | reflexivity]).
  assert (H57 : number "57") by (apply N; [discriminate | reflexivity]).
  assert (H123 : number "123") by (apply N; [discriminate | reflexivity]).
  assert (Hl : (3 <= String.length "123")%nat) by (cbn; lia).
  assert (Hm : decimal "123" * 1000000 <= Int64.max_int) by (vm_compute; discriminate).
  repeat (split; [assumption|]).
  exact (processLine_whole_number "64" "10" "0" "0" "1" "7" "57" "123"
           H64 H10 H0 H0 H1 H7 H57 H123 Hl Hm).
Defined.

(** ** The command of the subprocess *)

Lemma to_int_norm (z : Z) : Z.to_int z = Decimal.norm (Z.to_int z).
Proof. rewrite <- to_of, of_to. reflexivity. Qed.

Lemma format_d_inj (a b : Z) : format_d a = format_d b -> a = b.
Proof.
  unfold format_d. intros H.
  assert (Hn : forall z, Z.to_int z <> Decimal.Pos Decimal.Nil /\
                         Z.to_int z <> Decimal.Neg Decimal.Nil).
  { intros z. rewrite to_int_norm. destruct (Z.to_int z) as [u|u]; cbn [Decimal.norm].
    - split; [|discriminate]. intros [= E]. exact (unorm_nonnil u E).
    - destruct (Decimal.nzhead u); split; discriminate. }
  apply to_int_inj.
  assert (E : NilZero.int_of_string (NilZero.string_of_int (Z.to_int a)) =
              NilZero.int_of_string (NilZero.string_of_int (Z.to_int b)))
    by (rewrite H; reflexivity).
  rewrite !NilZero.isi in E by apply Hn. injection E as E. exact E.
Qed.

(** X17. The command that [Init] starts is [ping <host> -i <interval>]
    with the interval of the model exactly when that interval is between
    -9223372036 and 9223372036 seconds: [NewPinger] multiplies it by
    [time.Second] in int64 and [Run] divides again, and beyond that range
    the product wraps around. The interval is not checked otherwise (zero
    and negative values are passed on). *)
Theorem Pinger_command_interval (h : string) (i : Z) :
  Pinger.command (Pinger.NewPinger h i) = ["ping"; h; "-i"; format_d i]%string <->
  -9223372036 <= i <= 9223372036.
Proof.
  unfold Pinger.command, Pinger.NewPinger. cbn [Pinger.host Pinger.interval].
  unfold Int64.quot, Int64.mul, time.Second.
  assert (Hw : forall z, - 2 ^ 63 <= Int64.wrap z <= 2 ^ 63 - 1).
  { intros z. unfold Int64.wrap.
    change (2 ^ 63) with 9223372036854775808. change (2 ^ 64) with 18446744073709551616.
    pose proof (Z.mod_pos_bound (z + 9223372036854775808) 18446744073709551616 eq_refl). lia. }
  assert (Hq : forall v, - 2 ^ 63 <= v <= 2 ^ 63 - 1 ->
                         -9223372036 <= Z.quot v 1000000000 <= 9223372036).
  { intros v Hv. change (2 ^ 63) with 9223372036854775808 in Hv.
    destruct (Z_le_gt_dec 0 v).
    - rewrite Z.quot_div_nonneg by lia.
      assert (0 <= v / 1000000000) by (apply Z.div_pos; lia).
      assert (v / 1000000000 < 9223372037) by (apply Z.div_lt_upper_bound; lia).
      lia.
    - replace v with (- (- v)) by lia. rewrite Z.quot_opp_l by lia.
      rewrite Z.quot_div_nonneg by lia.
      assert (0 <= - v / 1000000000) by (apply Z.div_pos; lia).
      assert (- v / 1000000000 < 9223372037) by (apply Z.div_lt_upper_bound; lia).
      lia. }
  split.
  - intros [= E]. apply format_d_inj in E.
    specialize (Hq _ (Hw (i * 1000000000))).
    rewrite wrap_in_range in E
      by (unfold Int64.in_range, Int64.min_int, Int64.max_int;
          change (2 ^ 63) with 9223372036854775808; lia).
    lia.
  - intros Hi. do 4 f_equal.
    rewrite (wrap_in_range (i * 1000000000))
      by (unfold Int64.in_range, Int64.min_int, Int64.max_int;
          change (2 ^ 63) with 9223372036854775808; lia).
    rewrite Z.quot_mul by lia. f_equal.
    apply wrap_in_range. unfold Int64.in_range, Int64.min_int, Int64.max_int.
    change (2 ^ 63) with 9223372036854775808. lia.
Qed.

(** ** The producer: channels and samples *)

Lemma run_snoc (tr : list Run.label) (l : Run.label) (st : Run.state) :
  Run.run (tr ++ [l]) st =
  match Run.run tr st with
  | Some st1 => Run.step l st1
  | None => None
  end.
Proof.
  rewrite run_app. destruct (Run.run tr st) as [st1|]; [|reflexivity].
  cbn [Run.run]. destruct (Run.step l st1); reflexivity.
Qed.

Lemma closed_once_step (l : Run.label) (st st' : Run.state) :
  Run.step l st = Some st' ->
  waiter_unborn st ->
  (Run.errs_closed st = Run.outer_closed_errs st || Run.waiter_closed_errs st) ->
  Run.outer_closed_errs st && Run.waiter_closed_errs st = false ->
  Run.panicked st' = false ->
  waiter_unborn st' /\
  (Run.errs_closed st' = Run.outer_closed_errs st' || Run.waiter_closed_errs st') /\
  Run.outer_closed_errs st' && Run.waiter_closed_errs st' = false.
Proof.
  unfold waiter_unborn, Run.outer_closed_errs, Run.waiter_closed_errs.
  destruct st as [o sc w pc ec pr out ca pa].
  cbn [Run.outer Run.waiter Run.errs_closed].
  intros H Hu He Hx Hp.
  destruct l; step_inv H; cbn in *; subst;
    try discriminate; try (repeat split; assumption || reflexivity);
    repeat match goal with
           | |- context [match ?x with _ => _ end] => destruct x; cbn in *
           end; try discriminate; auto.
Qed.

(** X13. [errs] is closed by the outer goroutine (line 42) and by the
    waiter (line 82), and no run gets past both closes without a panic.
    While the program has not panicked, at most one of the two goroutines
    has closed [errs]; [errs] is closed exactly when one of them has; and
    the close that the other one is about to do panics. *)
Theorem Run_errs_closed_once (tr : list Run.label) (st : Run.state) :
  Run.run tr Run.init = Some st ->
  Run.panicked st = false ->
  ~ (Run.waiter st = Run.WDone /\ (Run.outer st = Run.OClosePings \/ Run.outer st = Run.ODone)) /\
  (Run.errs_closed st = true <->
   Run.waiter st = Run.WDone \/ Run.outer st = Run.OClosePings \/ Run.outer st = Run.ODone) /\
  (Run.errs_closed st = true -> Run.outer st = Run.OCloseErrs ->
   exists st', Run.step Run.OuterCloseErrs st = Some st' /\ Run.panicked st' = true) /\
  (Run.errs_closed st = true -> Run.waiter st = Run.WCloseErrs ->
   exists st', Run.step Run.WaiterCloseErrs st = Some st' /\ Run.panicked st' = true).
Proof.
  intros H Hp.
  assert (Hinv : waiter_unborn st /\
                 (Run.errs_closed st
                  = Run.outer_closed_errs st || Run.waiter_closed_errs st) /\
                 Run.outer_closed_errs st && Run.waiter_closed_errs st = false).
  { revert st H Hp. induction tr as [|l tr IH] using rev_ind; intros st H Hp.
    - injection H as <-. repeat split.
    - rewrite run_snoc in H. destruct (Run.run tr Run.init) as [st1|] eqn:E; [|discriminate H].
      assert (Hp1 : Run.panicked st1 = false).
      { unfold Run.step in H. destruct (Run.panicked st1); [discriminate H | reflexivity]. }
      destruct (IH st1 eq_refl Hp1) as (Hu & He & Hx).
      exact (closed_once_step l st1 st H Hu He Hx Hp). }
  destruct Hinv as (_ & He & Hx).
  unfold Run.outer_closed_errs, Run.waiter_closed_errs in *.
  destruct st as [o sc w pc ec pr out ca pa].
  cbn [Run.outer Run.waiter Run.errs_closed Run.panicked] in *. subst pa.
  repeat split.
  - intros [-> [-> | ->]]; discriminate Hx.
  - intros ->. destruct o; destruct w; cbn in He; try discriminate He; auto.
  - intros [-> | [-> | ->]]; rewrite He; cbn; try reflexivity.
    destruct o; reflexivity.
  - intros -> ->. eexists. split; reflexivity.
  - intros -> ->. unfold Run.step. cbn [Run.panicked Run.outer Run.scanner Run.waiter].
    destruct o; destruct sc; eexists; split; reflexivity.
Qed.

Lemma parsed_app (xs ys : list string) :
  Run.parsed (xs ++ ys) = Run.parsed xs ++ Run.parsed ys.
Proof. unfold Run.parsed. apply omap_app. Qed.

Lemma written_snoc (tr : list Run.label) (l : Run.label) :
  Run.written (tr ++ [l]) =
  Run.written tr ++ match l with Run.Writes line => [line] | _ => [] end.
Proof. unfold Run.written. rewrite omap_app. destruct l; reflexivity. Qed.

Lemma delivered_snoc (tr : list Run.label) (l : Run.label) :
  Run.delivered (tr ++ [l]) =
  Run.delivered tr ++ match l with Run.Sample d => [d] | _ => [] end.
Proof. unfold Run.delivered. rewrite omap_app. destruct l; reflexivity. Qed.

Lemma in_order_step (tr : list Run.label) (l : Run.label) (st st' : Run.state) :
  in_order tr st -> Run.step l st = Some st' -> in_order (tr ++ [l]) st'.
Proof.
  unfold in_order, Run.in_flight.
  rewrite written_snoc, delivered_snoc, parsed_app.
  destruct st as [o sc w pc ec pr out ca pa].
  intros [Hu HK] H.
  destruct l; step_inv H; cbn [Run.scanner Run.stdout Run.outer] in *;
    rewrite ?app_nil_r, ?parsed_app; subst;
    (split; [try exact I; try assumption; try reflexivity;
             destruct o; try exact I; try discriminate Hu; try reflexivity|]);
    try assumption;
    try (rewrite Hu in HK; exact HK);
    try solve [eauto];
    try (unfold Run.parsed in *; cbn [omap list_omap] in HK;
         match goal with E : ping.scan_line _ = _ |- _ => rewrite E in HK end;
         exact HK).
  - match goal with
    | E : (_ =? _) && _ = true |- _ =>
        apply andb_true_iff in E as [E _]; apply Z.eqb_eq in E; subst
    end.
    rewrite <- app_assoc. exact HK.
  - destruct sc; try (rewrite HK, <- app_assoc; reflexivity).
    destruct HK as [rest ->]. exists (rest ++ Run.parsed [line]).
    rewrite app_assoc. reflexivity.
Qed.

Lemma in_order_run (tr : list Run.label) (st : Run.state) :
  Run.run tr Run.init = Some st -> in_order tr st.
Proof.
  revert st. induction tr as [|l tr IH] using rev_ind; intros st H.
  - injection H as <-. split; reflexivity.
  - rewrite run_snoc in H. destruct (Run.run tr Run.init) as [st1|] eqn:E; [|discriminate H].
    exact (in_order_step tr l st1 st (IH st1 eq_refl) H).
Qed.

(** X14. The consumer receives the samples in the order of the lines.
    In every run the samples delivered on [pings] are a prefix of the
    samples that the scanner makes of the lines written by the subprocess:
    none is invented, repeated or out of order. What is missing is the
    sample the scanner holds and those of the lines not yet read; when the
    scanner waits for input and nothing is left to read, every sample has
    been delivered. *)
Theorem Run_samples_in_order (tr : list Run.label) (st : Run.state) :
  Run.run tr Run.init = Some st ->
  (exists rest, Run.parsed (Run.written tr) = Run.delivered tr ++ rest) /\
  (Run.scanner st <> Run.SDone ->
   Run.parsed (Run.written tr) = Run.delivered tr ++ Run.in_flight st) /\
  (Run.scanner st = Run.SScan -> Run.stdout st = [] ->
   Run.delivered tr = Run.parsed (Run.written tr)).
Proof.
  intros H. destruct (in_order_run tr st H) as [_ HK]. split; [|split].
  - destruct (Run.scanner st); eauto.
  - intros Hs. destruct (Run.scanner st); try exact HK. contradiction.
  - intros Hs Ho. unfold Run.in_flight in HK. rewrite Hs, Ho in HK.
    rewrite HK. cbn. rewrite app_nil_r. reflexivity.
Qed.

Lemma Run_samples_in_order_witness :
  let l1 := "64 bytes from 10.0.0.1: icmp_seq=1 ttl=57 time=23.4 ms"%string in
  let l2 := "Request timeout for icmp_seq 2"%string in
  let l3 := "64 bytes from 10.0.0.1: icmp_seq=3 ttl=57 time=7.31 ms"%string in
  let tr := [Run.PipeOk; Run.StartOk; Run.Writes l1; Run.SpawnScanner; Run.SpawnWaiter;
             Run.ScanLine; Run.Writes l2; Run.Writes l3; Run.Sample 23400000;
             Run.ScanLine; Run.ScanLine] in
  exists st, Run.run tr Run.init = Some st /\
    Run.delivered tr = [23400000] /\
    Run.in_flight st = [7310000] /\
    (exists rest, Run.parsed (Run.written tr) = Run.delivered tr ++ rest) /\
    (Run.scanner st <> Run.SDone ->
     Run.parsed (Run.written tr) = Run.delivered tr ++ Run.in_flight st) /\
    (Run.scanner st = Run.SScan -> Run.stdout st = [] ->
     Run.delivered tr = Run.parsed (Run.written tr)).
Proof.
  intros l1 l2 l3 tr.
  assert (H : Run.run tr Run.init =
              Some (Run.mkState Run.OSelect (Run.SSend 7310000) Run.WWait false false
                                Run.Running [] false false)) by (vm_compute; reflexivity).
  eexists. split; [exact H|].
  split; [vm_compute; reflexivity|]. split; [vm_compute; reflexivity|].
  exact (Run_samples_in_order tr _ H).
Defined.

Lemma not_started_step (b : bool) (l : Run.label) (st st' : Run.state) :
  Run.not_started b st ->
  Run.step l st = Some st' ->
  Run.is_start l = false ->
  Run.not_started (b || Run.is_outcome l) st' /\
  (forall d, l <> Run.Sample d) /\
  (forall e, l = Run.Outcome e -> e = Some Run.PipeErr \/ e = Some Run.StartErr).
Proof.
  unfold Run.not_started.
  destruct st as [o sc w pc ec pr out ca pa].
  cbn [Run.outer Run.scanner Run.waiter Run.errs_closed Run.pings_closed Run.proc
       Run.panicked].
  intros (-> & -> & -> & -> & Ho) H Hl.
  destruct o as [| | | | |[[| |]|]| | |];
    repeat match goal with
           | H : _ /\ _ |- _ => destruct H
           | H : False |- _ => destruct H
           end; subst;
    destruct l; try discriminate Hl; step_inv H; cbn [orb Run.is_outcome];
    try discriminate;
    (split; [repeat split; auto | split; [intros ?; discriminate|]]);
    intros e' [= <-]; auto;
    match goal with
    | E : Run.err_eqb ?e _ && _ = true |- _ =>
        destruct e as [[| |]|]; cbn in E; try discriminate E; auto
    end.
Qed.

(** X15. When [cmd.StdoutPipe] or [cmd.Start] fails: no subprocess
    runs, nothing is delivered on [pings], nothing panics, and the only
    outcome delivered on [errs] is the error of the start. When the outer
    goroutine has ended, the outcome has been delivered and both channels
    are closed. *)
Theorem Run_without_start (tr : list Run.label) (st : Run.state) :
  Run.run tr Run.init = Some st ->
  existsb Run.is_start tr = false ->
  Run.panicked st = false /\ Run.proc st = Run.NotStarted /\
  Run.delivered tr = [] /\
  (forall e, List.In (Run.Outcome e) tr -> e = Some Run.PipeErr \/ e = Some Run.StartErr) /\
  (Run.outer st = Run.ODone ->
   existsb Run.is_outcome tr = true /\
   Run.errs_closed st = true /\ Run.pings_closed st = true).
Proof.
  intros H Hns.
  assert (Hinv : Run.not_started (existsb Run.is_outcome tr) st /\
                 Run.delivered tr = [] /\
                 forall e, List.In (Run.Outcome e) tr ->
                           e = Some Run.PipeErr \/ e = Some Run.StartErr).
  { revert st H Hns. induction tr as [|l tr IH] using rev_ind; intros st H Hns.
    - injection H as <-. split; [repeat split|]. split; [reflexivity | intros e []].
    - rewrite run_snoc in H. destruct (Run.run tr Run.init) as [st1|] eqn:E; [|discriminate H].
      rewrite existsb_app in Hns. cbn [existsb] in Hns. rewrite orb_false_r in Hns.
      apply orb_false_iff in Hns as [Hns Hl].
      destruct (IH st1 eq_refl Hns) as (Hst1 & Hd & Ho).
      destruct (not_started_step _ l st1 st Hst1 H Hl) as (Hst & Hsample & Hout).
      rewrite existsb_app. cbn [existsb]. rewrite orb_false_r.
      split; [exact Hst|]. split.
      + rewrite delivered_snoc, Hd. destruct l; try reflexivity.
        destruct (Hsample d eq_refl).
      + intros e Hin. apply in_app_iff in Hin as [Hin|[Hl'|[]]]; auto. }
  destruct Hinv as ((Hpr & _ & _ & Hp & Ho) & Hd & Hout).
  split; [exact Hp|]. split; [exact Hpr|]. split; [exact Hd|]. split; [exact Hout|].
  intros Hdone. rewrite Hdone in Ho. tauto.
Qed.

Lemma Run_without_start_witness :
  let tr := [Run.PipeOk; Run.StartFail; Run.Outcome (Some Run.StartErr);
             Run.OuterCloseErrs; Run.OuterClosePings] in
  exists st, Run.run tr Run.init = Some st /\
    Run.outer st = Run.ODone /\
    Run.panicked st = false /\ Run.proc st = Run.NotStarted /\
    Run.delivered tr = [] /\
    (forall e, List.In (Run.Outcome e) tr -> e = Some Run.PipeErr \/ e = Some Run.StartErr) /\
    (Run.outer st = Run.ODone ->
     existsb Run.is_outcome tr = true /\
     Run.errs_closed st = true /\ Run.pings_closed st = true).
Proof.
  intros tr.
  assert (H : Run.run tr Run.init =
              Some (Run.mkState Run.ODone Run.SNotStarted Run.WNotStarted true true
                                Run.NotStarted [] false false)) by reflexivity.
  assert (Hns : existsb Run.is_start tr = false) by reflexivity.
  eexists. split; [exact H|]. split; [reflexivity|].
  exact (Run_without_start tr _ H Hns).
Defined.

Lemma pings_closed_step (l : Run.label) (st st' : Run.state) (d : time.Duration) :
  scanner_spawned st ->
  Run.pings_closed st = true -> Run.scanner st = Run.SSend d ->
  Run.step l st = Some st' ->
  scanner_spawned st' /\
  Run.pings_closed st' = true /\ Run.scanner st' = Run.SSend d /\
  (forall d', l <> Run.Sample d').
Proof.
  unfold scanner_spawned.
  destruct st as [o sc w pc ec pr out ca pa].
  cbn [Run.pings_closed Run.scanner Run.outer]. intros Hsp -> -> H.
  destruct l; step_inv H; subst; try contradiction;
    try match goal with
        | E : _ && negb true = true |- _ => rewrite andb_false_r in E; discriminate E
        end;
    repeat split; try first [reflexivity | discriminate | exact Hsp].
Qed.

Lemma pings_closed_run (tr : list Run.label) (st st' : Run.state) (d : time.Duration) :
  scanner_spawned st ->
  Run.pings_closed st = true -> Run.scanner st = Run.SSend d ->
  Run.run tr st = Some st' ->
  Run.delivered tr = [] /\ Run.scanner st' = Run.SSend d.
Proof.
  revert st. induction tr as [|l tr IH]; intros st Hs1 Hc Hs H; cbn [Run.run] in H.
  - injection H as <-. split; [reflexivity | exact Hs].
  - destruct (Run.step l st) as [st2|] eqn:E; [|discriminate H].
    destruct (pings_closed_step l st st2 d Hs1 Hc Hs E) as (Hs2 & Hc2 & Hsc2 & Hl).
    destruct (IH st2 Hs2 Hc2 Hsc2 H) as [Hd Hs'].
    split; [|exact Hs'].
    unfold Run.delivered in *. cbn [omap list_omap].
    destruct l; try exact Hd. destruct (Hl d0 eq_refl).
Qed.

(** X16. Once [pings] is closed while the subprocess still runs (as
    after a cancellation), the next line that parses to a sample leaves the
    scanner with a send on the closed channel: in no continuation of the
    run is that sample, or any other, delivered, and the send panics. *)
Theorem Run_sample_after_close_panics (tr : list Run.label) (st : Run.state)
        (line : string) (d : time.Duration) :
  Run.run tr Run.init = Some st ->
  Run.pings_closed st = true ->
  Run.panicked st = false ->
  Run.proc st = Run.Running -> Run.scanner st = Run.SScan -> Run.stdout st = [] ->
  ping.scan_line line = Some d ->
  exists st1,
    Run.run [Run.Writes line; Run.ScanLine] st = Some st1 /\
    Run.scanner st1 = Run.SSend d /\
    (exists st2, Run.step Run.SendOnClosedPings st1 = Some st2 /\ Run.panicked st2 = true) /\
    forall tr' st', Run.run tr' st1 = Some st' ->
      Run.delivered tr' = [] /\ Run.scanner st' = Run.SSend d.
Proof.
  intros Hrun Hpc Hp Hpr Hsc Hout Hline.
  assert (Hsp : scanner_spawned st).
  { destruct (in_order_run tr st Hrun) as [Hu _]. unfold scanner_spawned.
    rewrite Hsc in Hu. destruct (Run.outer st); try exact I; discriminate Hu. }
  clear Hrun.
  destruct st as [o sc w pc ec pr out ca pa].
  cbn [Run.pings_closed Run.panicked Run.proc Run.scanner Run.stdout] in *. subst.
  exists (Run.mkState o (Run.SSend d) w true ec Run.Running [] ca false).
  split.
  { cbn [Run.run]. unfold Run.step, Run.set_stdout, Run.set_scanner.
    cbn [Run.panicked Run.outer Run.scanner Run.waiter Run.proc Run.stdout
         Run.pings_closed Run.errs_closed Run.cancelled app].
    rewrite Hline. destruct o; reflexivity. }
  split; [reflexivity|]. split.
  { unfold Run.step. cbn [Run.panicked Run.outer Run.scanner Run.waiter Run.pings_closed].
    destruct o; eexists; split; reflexivity. }
  intros tr' st'. apply pings_closed_run; [exact Hsp | reflexivity | reflexivity].
Qed.

Lemma Run_sample_after_close_panics_witness :
  let line := "64 bytes from 10.0.0.1: icmp_seq=9 ttl=57 time=23.4 ms"%string in
  exists st,
    Run.run Run.cancellation Run.init = Some st /\
    Run.pings_closed st = true /\ Run.proc st = Run.Running /\
    ping.scan_line line = Some 23400000 /\
    exists st1,
      Run.run [Run.Writes line; Run.ScanLine] st = Some st1 /\
      Run.scanner st1 = Run.SSend 23400000 /\
      (exists st2, Run.step Run.SendOnClosedPings st1 = Some st2 /\ Run.panicked st2 = true) /\
      forall tr' st', Run.run tr' st1 = Some st' ->
        Run.delivered tr' = [] /\ Run.scanner st' = Run.SSend 23400000.
Proof.
  intros line.
  assert (H : Run.run Run.cancellation Run.init =
              Some (Run.mkState Run.ODone Run.SScan Run.WWait true true Run.Running
                                [] true false)) by reflexivity.
  assert (Hl : ping.scan_line line = Some 23400000) by (vm_compute; reflexivity).
  eexists. split; [exact H|]. split; [reflexivity|]. split; [reflexivity|].
  split; [exact Hl|].
  exact (Run_sample_after_close_panics Run.cancellation _ line 23400000 H
           eq_refl eq_refl eq_refl eq_refl eq_refl Hl).
Defined.

Lemma Run_errs_closed_once_witness :
  let tr := [Run.PipeOk; Run.StartOk; Run.SpawnScanner; Run.SpawnWaiter;
             Run.Exit false; Run.WaitReturns; Run.SelectFinished;
             Run.Outcome (Some Run.WaitErr); Run.WaiterCloseErrs] in
  exists st,
    Run.run tr Run.init = Some st /\ Run.panicked st = false /\
    Run.waiter st = Run.WDone /\ Run.outer st = Run.OCloseErrs /\
    ~ (Run.waiter st = Run.WDone /\
       (Run.outer st = Run.OClosePings \/ Run.outer st = Run.ODone)) /\
    (Run.errs_closed st = true <->
     Run.waiter st = Run.WDone \/ Run.outer st = Run.OClosePings \/ Run.outer st = Run.ODone) /\
    (Run.errs_closed st = true -> Run.outer st = Run.OCloseErrs ->
     exists st', Run.step Run.OuterCloseErrs st = Some st' /\ Run.panicked st' = true) /\
    (Run.errs_closed st = true -> Run.waiter st = Run.WCloseErrs ->
     exists st', Run.step Run.WaiterCloseErrs st = Some st' /\ Run.panicked st' = true).
Proof.
  intros tr.
  assert (H : Run.run tr Run.init =
              Some (Run.mkState Run.OCloseErrs Run.SScan Run.WDone false true
                                (Run.Exited false) [] false false))
    by (vm_compute; reflexivity).
  eexists. split; [exact H|]. split; [reflexivity|]. split; [reflexivity|].
  split; [reflexivity|].
  exact (Run_errs_closed_once tr _ H eq_refl).
Defined.

(** ** float64: the length of a bar *)

Lemma iter_pos_nat {A : Type} (f : A -> A) (p : positive) (x : A) :
  SpecFloat.iter_pos f p x = Nat.iter (Pos.to_nat p) f x.
Proof.
  revert x. induction p as [p IH|p IH|]; intros x; cbn [SpecFloat.iter_pos].
  - rewrite !IH, Pos2Nat.inj_xI, <- Nat.iter_succ_r, <- Nat.iter_add. f_equal. lia.
  - rewrite !IH, Pos2Nat.inj_xO, <- Nat.iter_add. f_equal. lia.
  - reflexivity.
Qed.

Lemma shr_1_spec (m : Z) (r s : bool) :
  0 <= m ->
  shr_1 {| shr_m := m; shr_r := r; shr_s := s |} =
  {| shr_m := m / 2; shr_r := Z.odd m; shr_s := r || s |}.
Proof.
  intros Hm. destruct m as [|[p|p|]|p]; try lia; cbn [shr_1 Z.odd].
  - reflexivity.
  - rewrite (Pos2Z.inj_xI p). f_equal. apply Z.div_unique with 1; lia.
  - rewrite (Pos2Z.inj_xO p). f_equal. apply Z.div_unique with 0; lia.
  - reflexivity.
Qed.

Lemma iter_shr_1 (k : nat) (m : Z) (r s : bool) :
  0 <= m ->
  let mrs := Nat.iter k shr_1 {| shr_m := m; shr_r := r; shr_s := s |} in
  shr_m mrs = m / 2 ^ Z.of_nat k /\
  (r = false -> s = false -> m mod 2 ^ Z.of_nat k = 0 ->
   shr_r mrs = false /\ shr_s mrs = false).
Proof.
  intros Hm. induction k as [|k IH]; cbn zeta.
  - cbn. rewrite Z.div_1_r. auto.
  - change (Nat.iter (S k) shr_1 ?x) with (shr_1 (Nat.iter k shr_1 x)). cbn zeta in IH.
    destruct (Nat.iter k shr_1 _) as [mk rk sk]. cbn [shr_m shr_r shr_s] in IH.
    destruct IH as [IHm IHrs].
    assert (Hp : 0 < 2 ^ Z.of_nat k) by (apply Z.pow_pos_nonneg; lia).
    assert (Hmk : 0 <= mk) by (rewrite IHm; apply Z.div_pos; lia).
    rewrite shr_1_spec by exact Hmk. cbn [shr_m shr_r shr_s].
    rewrite Nat2Z.inj_succ, Z.pow_succ_r by lia.
    split.
    + rewrite IHm, Z.div_div by lia. f_equal. lia.
    + intros Hr Hs Hmod.
      apply Z.mod_divide in Hmod; [|lia]. destruct Hmod as [t Ht].
      assert (Hmk2 : mk = 2 * t).
      { rewrite IHm, Ht. replace (t * (2 * 2 ^ Z.of_nat k)) with (2 * t * 2 ^ Z.of_nat k) by lia.
        apply Z.div_mul. lia. }
      destruct IHrs as [-> ->]; [assumption | assumption | |].
      * rewrite Ht. replace (t * (2 * 2 ^ Z.of_nat k)) with (t * 2 * 2 ^ Z.of_nat k) by lia.
        apply Z.mod_mul. lia.
      * rewrite Hmk2, Z.odd_mul. split; reflexivity.
Qed.

Lemma round_nearest_even_bounds (m : Z) (l : location) :
  m <= round_nearest_even m l <= m + 1 /\
  (l = loc_Exact -> round_nearest_even m l = m).
Proof.
  unfold round_nearest_even.
  destruct l as [|[| |]]; try destruct (Z.even m); split; try lia; auto; discriminate.
Qed.

(** A shift to the right of a mantissa: the quotient, and an exact
    location when nothing is lost. *)
Lemma shr_spec (m e n : Z) (l : location) :
  0 <= m ->
  exists mrs,
    shr (shr_record_of_loc m l) e n = (mrs, e + Z.max n 0) /\
    shr_m mrs = m / 2 ^ Z.max n 0 /\
    (l = loc_Exact -> m mod 2 ^ Z.max n 0 = 0 -> loc_of_shr_record mrs = loc_Exact).
Proof.
  intros Hm. unfold shr. destruct n as [|p|p].
  - eexists. split; [rewrite Z.add_0_r; reflexivity|]. cbn [Z.max Z.compare].
    change (2 ^ 0) with 1. rewrite Z.div_1_r.
    split; [destruct l as [|[| |]]; reflexivity|].
    intros ->. reflexivity.
  - eexists. split; [rewrite Z.max_l by lia; reflexivity|].
    rewrite Z.max_l by lia. rewrite iter_pos_nat.
    assert (Hk : Z.pos p = Z.of_nat (Pos.to_nat p)) by lia. rewrite Hk.
    split.
    + destruct l as [|[| |]]; apply iter_shr_1; exact Hm.
    + intros -> Hmod.
      destruct (iter_shr_1 (Pos.to_nat p) m false false Hm) as [_ H].
      destruct (H eq_refl eq_refl Hmod) as [Hr Hs].
      cbn [shr_record_of_loc].
      destruct (Nat.iter _ _ _) as [m' r' s']. cbn [shr_r shr_s] in *. subst.
      reflexivity.
  - eexists. split; [rewrite Z.max_r by lia; rewrite Z.add_0_r; reflexivity|].
    rewrite Z.max_r by lia. change (2 ^ 0) with 1. rewrite Z.div_1_r.
    split; [destruct l as [|[| |]]; reflexivity|].
    intros ->. reflexivity.
Qed.

Lemma Zdigits2_bound (m : Z) (k : Z) :
  0 <= m -> 0 <= k -> m < 2 ^ k -> Zdigits2 m <= k.
Proof.
  intros Hm Hk Hlt. destruct m as [|p|p]; [cbn; lia | | lia].
  cbn [Zdigits2]. pose proof (digits2_pos_bound p) as [Hlo _].
  destruct (Z_le_gt_dec (Z.pos (digits2_pos p)) k) as [H|H]; [exact H|].
  assert (2 ^ k <= 2 ^ (Z.pos (digits2_pos p) - 1)) by (apply Z.pow_le_mono_r; lia).
  lia.
Qed.

(** Rounding to nearest even does not pass an integer bound [c] that the
    value rounded does not pass. *)
Lemma binary_round_aux_le (mx ex : Z) (lx : location) (c : Z) :
  0 <= mx -> ex <= 0 -> 0 < c <= 64 ->
  (mx < c * 2 ^ (- ex) \/ (lx = loc_Exact /\ mx <= c * 2 ^ (- ex))) ->
  binary_round_aux 53 1024 false mx ex lx = S754_zero false \/
  exists m e,
    binary_round_aux 53 1024 false mx ex lx = S754_finite false m e /\
    e <= 0 /\ Z.pos m <= c * 2 ^ (- e).
Proof.
  intros Hmx Hex Hc Hle.
  assert (Hle' : mx <= c * 2 ^ (- ex)) by (destruct Hle as [?|[_ ?]]; lia).
  assert (Hpow : forall k, 0 <= k -> 0 < 2 ^ k) by (intros; apply Z.pow_pos_nonneg; lia).
  assert (Hsplit : forall a b, 0 <= a -> 0 <= b -> 2 ^ (a + b) = 2 ^ a * 2 ^ b)
    by (intros; apply Z.pow_add_r; lia).
  (* the digits of a mantissa below c * 2^k *)
  assert (Hdig : forall m k, 0 <= m -> 0 <= k -> m <= c * 2 ^ k -> Zdigits2 m <= 7 + k).
  { intros m k Hm Hk Hmk. apply Zdigits2_bound; [lia | lia |].
    rewrite (Hsplit 7 k) by lia. change (2 ^ 7) with 128.
    specialize (Hpow k Hk). nia. }
  unfold binary_round_aux, shr_fexp.
  set (n := fexp 53 1024 (Zdigits2 mx + ex) - ex).
  assert (Hn : ex + Z.max n 0 <= 0).
  { subst n. unfold fexp, SpecFloat.emin.
    specialize (Hdig mx (- ex) Hmx ltac:(lia) Hle'). lia. }
  destruct (shr_spec mx ex n lx Hmx) as (mrs1 & -> & Hm1 & Hex1).
  set (e1 := ex + Z.max n 0) in *.
  set (m1 := shr_m mrs1) in *.
  set (m2 := round_nearest_even m1 (loc_of_shr_record mrs1)).
  assert (Hc1 : c * 2 ^ (- ex) = c * 2 ^ (- e1) * 2 ^ Z.max n 0).
  { rewrite <- Z.mul_assoc, <- Hsplit by lia. do 2 f_equal. lia. }
  assert (Hm1nn : 0 <= m1) by (rewrite Hm1; apply Z.div_pos; [lia | apply Hpow; lia]).
  assert (Hm2 : 0 <= m2 <= c * 2 ^ (- e1)).
  { destruct (round_nearest_even_bounds m1 (loc_of_shr_record mrs1)) as [Hb Hexact].
    fold m2 in Hb, Hexact. split; [lia|].
    assert (Hp := Hpow (Z.max n 0) ltac:(lia)).
    destruct (Z_lt_le_dec mx (c * 2 ^ (- ex))) as [Hlt|Hge].
    - assert (m1 < c * 2 ^ (- e1)).
      { rewrite Hm1. apply Z.div_lt_upper_bound; [lia|]. rewrite Hc1 in Hlt. lia. }
      lia.
    - destruct Hle as [?|[-> Hle]]; [lia|].
      assert (Heq : mx = c * 2 ^ (- e1) * 2 ^ Z.max n 0) by lia.
      rewrite Hexact.
      + rewrite Hm1, Heq, Z.div_mul by lia. lia.
      + apply Hex1; [reflexivity|]. rewrite Heq. apply Z.mod_mul. lia. }
  cbv beta iota.
  set (n2 := fexp 53 1024 (Zdigits2 m2 + e1) - e1).
  assert (Hn2 : e1 + Z.max n2 0 <= 0).
  { subst n2. unfold fexp, SpecFloat.emin.
    specialize (Hdig m2 (- e1) ltac:(lia) ltac:(lia) ltac:(lia)). lia. }
  destruct (shr_spec m2 e1 n2 loc_Exact ltac:(lia)) as (mrs2 & -> & Hm3 & _).
  set (e3 := e1 + Z.max n2 0) in *.
  cbv beta iota.
  assert (Hm3b : 0 <= shr_m mrs2 <= c * 2 ^ (- e3)).
  { rewrite Hm3. assert (Hp := Hpow (Z.max n2 0) ltac:(lia)).
    split; [apply Z.div_pos; lia|].
    apply Z.div_le_upper_bound; [lia|].
    replace (2 ^ Z.max n2 0 * (c * 2 ^ (- e3))) with (c * (2 ^ (- e3) * 2 ^ Z.max n2 0)) by lia.
    rewrite <- Hsplit by lia. replace (- e3 + Z.max n2 0) with (- e1) by lia. lia. }
  destruct (shr_m mrs2) as [|m|m]; [left; reflexivity | | lia].
  right. exists m, e3.
  replace (e3 <=? 1024 - 53) with true by (symmetry; apply Z.leb_le; lia).
  repeat split; lia.
Qed.

(** The float64 of a positive integer below 2^53: a mantissa of 53 bits
    and the exponent that makes the value exact. *)
Lemma normalize_norm (p : positive) :
  Z.pos p < 2 ^ 53 ->
  exists m,
    binary_normalize prec emax (Z.pos p) 0 false
      = S754_finite false m (Z.pos (digits2_pos p) - 53) /\
    Z.pos (digits2_pos m) = 53 /\
    Z.pos m = Z.pos p * 2 ^ (53 - Z.pos (digits2_pos p)) /\
    Z.pos (digits2_pos p) <= 53.
Proof.
  intros Hp.
  pose proof (digits2_pos_bound p) as [Hlo Hhi].
  assert (Hd : Z.pos (digits2_pos p) <= 53).
  { destruct (Z_le_gt_dec (Z.pos (digits2_pos p)) 53) as [H|H]; [exact H|].
    assert (2 ^ 53 <= 2 ^ (Z.pos (digits2_pos p) - 1)) by (apply Z.pow_le_mono_r; lia).
    lia. }
  unfold binary_normalize, binary_round.
  unfold fexp at 1, SpecFloat.emin, prec, emax.
  rewrite Z.max_l by lia.
  unfold shl_align.
  destruct (Z.pos (digits2_pos p) + 0 - 53 - 0) as [|q|q] eqn:E; [| lia |].
  - rewrite round_aux_aligned by lia.
    exists p. replace (Z.pos (digits2_pos p) - 53) with 0 by lia.
    replace (53 - Z.pos (digits2_pos p)) with 0 by lia.
    repeat split; lia.
  - rewrite round_aux_aligned by (rewrite ?digits2_pos_iter; lia).
    exists (Pos.iter xO p q).
    replace (Z.pos (digits2_pos p) + 0 - 53) with (Z.pos (digits2_pos p) - 53) by lia.
    split; [reflexivity|]. split; [rewrite digits2_pos_iter; lia|].
    split; [|exact Hd]. rewrite Zpos_iter_xO. do 2 f_equal. lia.
Qed.

Lemma float64_of_int64_small (z : Z) :
  0 <= z < 2 ^ 53 ->
  Prim2SF (time.float64_of_int64 z) = binary_normalize prec emax z 0 false.
Proof.
  intros Hz. unfold time.float64_of_int64.
  replace (z <? 0) with false by (symmetry; apply Z.ltb_ge; lia).
  rewrite of_uint63_spec, Uint63.of_Z_spec.
  change wB with (2 ^ 63).
  rewrite Z.mod_small; [reflexivity|].
  assert (2 ^ 53 < 2 ^ 63) by reflexivity. lia.
Qed.

Lemma digits2_pos_mono (p q : positive) :
  Z.pos p <= Z.pos q -> Z.pos (digits2_pos p) <= Z.pos (digits2_pos q).
Proof.
  intros Hpq.
  pose proof (digits2_pos_bound p) as [Hlo _].
  pose proof (digits2_pos_bound q) as [_ Hhi].
  destruct (Z_le_gt_dec (Z.pos (digits2_pos p)) (Z.pos (digits2_pos q))) as [H|H]; [exact H|].
  assert (2 ^ Z.pos (digits2_pos q) <= 2 ^ (Z.pos (digits2_pos p) - 1))
    by (apply Z.pow_le_mono_r; lia).
  lia.
Qed.

(** The quotient of two float64 with mantissas of 53 bits, the first
    below the second, is at most 1. *)
Lemma SFdiv_below_one (m1 m2 : positive) (e1 e2 : Z) :
  Z.pos (digits2_pos m1) = 53 -> Z.pos (digits2_pos m2) = 53 ->
  -52 <= e1 -> e1 <= e2 -> e2 <= 0 ->
  Z.pos m1 < Z.pos m2 * 2 ^ (e2 - e1) ->
  SFdiv 53 1024 (S754_finite false m1 e1) (S754_finite false m2 e2) = S754_zero false \/
  exists m e,
    SFdiv 53 1024 (S754_finite false m1 e1) (S754_finite false m2 e2)
      = S754_finite false m e /\
    e <= 0 /\ Z.pos m <= 1 * 2 ^ (- e).
Proof.
  intros Hd1 Hd2 He1 He12 He2 Hlt.
  unfold SFdiv, SFdiv_core_binary. cbn [Zdigits2 xorb]. rewrite Hd1, Hd2.
  unfold fexp, SpecFloat.emin.
  replace (Z.min (Z.max (53 + e1 - (53 + e2) - 53) (3 - 1024 - 53)) (e1 - e2))
    with (e1 - e2 - 53) by lia.
  replace (e1 - e2 - (e1 - e2 - 53)) with 53 by lia.
  cbv beta iota zeta.
  rewrite Z.shiftl_mul_pow2 by lia.
  pose proof (Z_div_mod (Z.pos m1 * 2 ^ 53) (Z.pos m2) ltac:(lia)) as Hdm.
  destruct (Z.div_eucl (Z.pos m1 * 2 ^ 53) (Z.pos m2)) as [q r].
  destruct Hdm as [Heq Hr].
  assert (Hp : 0 < 2 ^ (e2 - e1)) by (apply Z.pow_pos_nonneg; lia).
  assert (Hq0 : 0 <= q) by nia.
  assert (Hq : q < 1 * 2 ^ (- (e1 - e2 - 53))).
  { replace (- (e1 - e2 - 53)) with (e2 - e1 + 53) by lia.
    rewrite Z.pow_add_r by lia.
    assert (0 < 2 ^ 53) by reflexivity. nia. }
  apply binary_round_aux_le; [exact Hq0 | lia | lia | left; exact Hq].
Qed.

(** The quotient of a float64 by itself is 1. *)
Lemma SFdiv_same (m : positive) (e : Z) :
  Z.pos (digits2_pos m) = 53 ->
  SFdiv 53 1024 (S754_finite false m e) (S754_finite false m e)
    = S754_finite false 4503599627370496 (-52).
Proof.
  intros Hd.
  unfold SFdiv, SFdiv_core_binary. cbn [Zdigits2 xorb]. rewrite Hd.
  unfold fexp, SpecFloat.emin.
  replace (Z.min (Z.max (53 + e - (53 + e) - 53) (3 - 1024 - 53)) (e - e))
    with (-53) by lia.
  replace (e - e - -53) with 53 by lia.
  cbv beta iota zeta.
  rewrite Z.shiftl_mul_pow2 by lia.
  pose proof (Z_div_mod (Z.pos m * 2 ^ 53) (Z.pos m) ltac:(lia)) as Hdm.
  destruct (Z.div_eucl (Z.pos m * 2 ^ 53) (Z.pos m)) as [q r].
  destruct Hdm as [Heq Hr].
  assert (Hq : q = 2 ^ 53 /\ r = 0).
  { assert (Z.pos m * (2 ^ 53 - q) = r) by lia.
    assert (2 ^ 53 - q = 0) by nia. lia. }
  destruct Hq as [-> ->].
  assert (Hloc : new_location (Z.pos m) 0 = loc_Exact).
  { unfold new_location, new_location_even, new_location_odd.
    destruct (Z.even (Z.pos m)); reflexivity. }
  rewrite Hloc. reflexivity.
Qed.

(** The product with 50 of a float64 that is at most 1 is at most 50. *)
Lemma SFmul_50_le (m : positive) (e : Z) :
  e <= 0 -> Z.pos m <= 1 * 2 ^ (- e) ->
  SFmul 53 1024 (S754_finite false m e) (Prim2SF 50) = S754_zero false \/
  exists m' e',
    SFmul 53 1024 (S754_finite false m e) (Prim2SF 50) = S754_finite false m' e' /\
    e' <= 0 /\ Z.pos m' <= 50 * 2 ^ (- e').
Proof.
  intros He Hm.
  change (Prim2SF 50) with (S754_finite false 7036874417766400 (-47)).
  unfold SFmul. cbn [xorb].
  apply binary_round_aux_le; [lia | lia | lia |].
  right. split; [reflexivity|].
  rewrite Pos2Z.inj_mul.
  replace (- (e + -47)) with (- e + 47) by lia.
  rewrite Z.pow_add_r by lia.
  change (2 ^ 47) with 140737488355328.
  assert (0 < 2 ^ (- e)) by (apply Z.pow_pos_nonneg; lia).
  nia.
Qed.

Lemma int_of_float64_le (impl : float -> Z) (x : float) (c : Z) :
  0 <= c <= 50 ->
  (Prim2SF x = S754_zero false \/
   exists m e, Prim2SF x = S754_finite false m e /\ e <= 0 /\ Z.pos m <= c * 2 ^ (- e)) ->
  0 <= int_of_float64 impl x <= c /\
  forall impl', int_of_float64 impl' x = int_of_float64 impl x.
Proof.
  intros Hc H. unfold int_of_float64.
  destruct H as [->|(m & e & -> & He & Hm)]; [split; [lia | reflexivity]|].
  cbv zeta.
  set (v := if 0 <=? e then Z.shiftl (Z.pos m) e else Z.shiftr (Z.pos m) (- e)).
  assert (Hv : 0 <= v <= c).
  { subst v. destruct (0 <=? e) eqn:E.
    - apply Z.leb_le in E. replace e with 0 in * by lia.
      rewrite Z.shiftl_0_r. change (2 ^ (- 0)) with 1 in Hm. lia.
    - rewrite Z.shiftr_div_pow2 by lia.
      assert (0 < 2 ^ (- e)) by (apply Z.pow_pos_nonneg; lia).
      split; [apply Z.div_pos; lia|].
      apply Z.div_le_upper_bound; lia. }
  replace ((Int64.min_int <=? v) && (v <=? Int64.max_int)) with true;
    [split; [exact Hv | reflexivity]|].
  symmetry. apply andb_true_iff.
  unfold Int64.min_int, Int64.max_int. change (2 ^ 63) with 9223372036854775808.
  split; apply Z.leb_le; lia.
Qed.

(** The length of a bar: between 0 and 50, 0 for an empty bucket and 50
    for a fullest one, whatever the implementation does with the float64
    it cannot convert. *)
Lemma bar_length_spec (impl : float -> Z) (count max : Z) :
  0 <= count <= max -> 0 < max < 2 ^ 53 ->
  0 <= bar_length impl count max <= 50 /\
  (count = 0 -> bar_length impl count max = 0) /\
  (count = max -> bar_length impl count max = 50) /\
  forall impl', bar_length impl' count max = bar_length impl count max.
Proof.
  intros Hc Hmax. unfold bar_length.
  set (x := PrimFloat.mul _ _).
  assert (Hx : Prim2SF x =
               SFmul 53 1024
                 (SFdiv 53 1024 (binary_normalize prec emax count 0 false)
                                (binary_normalize prec emax max 0 false))
                 (Prim2SF 50)).
  { subst x. rewrite FloatAxioms.mul_spec, FloatAxioms.div_spec,
      !float64_of_int64_small by lia. reflexivity. }
  destruct max as [|pm|pm]; try lia.
  destruct (normalize_norm pm ltac:(lia)) as (mm & Em & Hdm & Hmm & Hdpm).
  rewrite Em in Hx.
  destruct count as [|pc|pc]; try lia.
  - (* an empty bucket *)
    assert (H0 : Prim2SF x = S754_zero false) by (rewrite Hx; reflexivity).
    destruct (int_of_float64_le impl x 0 ltac:(lia) (or_introl H0)) as [Hb Hi].
    repeat split; try lia. exact Hi.
  - destruct (normalize_norm pc ltac:(lia)) as (mc & Ec & Hdc & Hmc & Hdpc).
    rewrite Ec in Hx.
    destruct (Z.eq_dec (Z.pos pc) (Z.pos pm)) as [Heq|Hne].
    + (* a fullest bucket *)
      injection Heq as ->. rewrite Em in Ec. injection Ec as ->.
      rewrite SFdiv_same in Hx by exact Hdm.
      assert (H50 : forall impl0, int_of_float64 impl0 x = 50).
      { intros impl0. unfold int_of_float64. rewrite Hx. vm_compute. reflexivity. }
      rewrite !H50. repeat split; try lia. intros impl'. apply H50.
    + assert (Hlt : Z.pos pc < Z.pos pm) by lia.
      pose proof (digits2_pos_mono pc pm ltac:(lia)) as Hmono.
      assert (Hq : SFdiv 53 1024 (S754_finite false mc (Z.pos (digits2_pos pc) - 53))
                         (S754_finite false mm (Z.pos (digits2_pos pm) - 53))
                   = S754_zero false \/
                   exists m e,
                     SFdiv 53 1024 (S754_finite false mc (Z.pos (digits2_pos pc) - 53))
                           (S754_finite false mm (Z.pos (digits2_pos pm) - 53))
                     = S754_finite false m e /\ e <= 0 /\ Z.pos m <= 1 * 2 ^ (- e)).
      { apply SFdiv_below_one; try assumption; try lia.
        rewrite Hmc, Hmm, <- Z.mul_assoc, <- Z.pow_add_r by lia.
        replace (53 - Z.pos (digits2_pos pm)
                 + (Z.pos (digits2_pos pm) - 53 - (Z.pos (digits2_pos pc) - 53)))
          with (53 - Z.pos (digits2_pos pc)) by lia.
        apply Z.mul_lt_mono_pos_r; [apply Z.pow_pos_nonneg; lia | exact Hlt]. }
      destruct (int_of_float64_le impl x 50 ltac:(lia)) as [Hb Hi].
      { rewrite Hx.
        destruct Hq as [->|(m & e & -> & He & Hm)]; [left; reflexivity|].
        apply SFmul_50_le; assumption. }
      repeat split; try lia. exact Hi.
Qed.

Lemma max_count_maximum (bs : list Z) : max_count bs = maximum 0 bs.
Proof.
  unfold max_count, maximum. generalize 0.
  induction bs as [|b bs IH]; intros m; cbn [foldl]; [reflexivity|].
  rewrite IH. f_equal. destruct (b >? m) eqn:E; lia.
Qed.

Lemma foldl_max_spec (bs : list Z) (m : Z) :
  m <= foldl Z.max m bs /\ Forall (fun b => b <= foldl Z.max m bs) bs /\
  (foldl Z.max m bs = m \/ List.In (foldl Z.max m bs) bs).
Proof.
  revert m. induction bs as [|b bs IH]; intros m; cbn [foldl].
  - repeat split; [lia | constructor | left; reflexivity].
  - destruct (IH (Z.max m b)) as (H1 & H2 & H3).
    split; [lia|]. split; [constructor; [lia | exact H2]|].
    destruct H3 as [H3|H3]; [|right; right; exact H3].
    rewrite H3.
    destruct (Z.max_spec m b) as [[_ E]|[_ E]]; rewrite E;
      [right; left; reflexivity | left; reflexivity].
Qed.

Lemma Repeat_block (n : Z) :
  0 <= n <= 50 ->
  strings.Repeat block n = Some (strings.repeat_string block (Z.to_nat n)).
Proof.
  intros Hn. unfold strings.Repeat.
  replace (n <? 0) with false by (symmetry; apply Z.ltb_ge; lia).
  change (Z.of_nat (String.length block)) with 7.
  unfold Int64.max_int. change (2 ^ 63 - 1) with 9223372036854775807.
  replace (7 * n >? 9223372036854775807) with false
    by (symmetry; rewrite Z.gtb_ltb; apply Z.ltb_ge; lia).
  reflexivity.
Qed.

Lemma bars_run (impl : float -> Z) (max : Z) (ths : list Z) (i : nat)
      (lines : list string) (s : Stats) :
  (forall j t, ths !! j = Some t ->
     exists b, buckets (histogram s) !! (i + j)%nat = Some b /\
               strings.Repeat block (bar_length impl b max) =
               Some (strings.repeat_string block (Z.to_nat (bar_length impl b max)))) ->
  bars impl max i ths lines s =
  Some (lines ++ bar_lines (fun b => bar_length impl b max) ths
                   (drop i (buckets (histogram s))), s).
Proof.
  revert i lines. induction ths as [|t ths IH]; intros i lines H.
  - cbn. rewrite app_nil_r. reflexivity.
  - destruct (H 0%nat t eq_refl) as (b & Eb & Hb). rewrite Nat.add_0_r in Eb.
    cbn [bars]. unfold bind, get. rewrite Eb, Hb.
    rewrite IH.
    + rewrite <- app_assoc. do 2 f_equal.
      rewrite (drop_S _ b i Eb). reflexivity.
    + intros j t' Ej. destruct (H (S j) t' Ej) as (b' & Eb' & Hb').
      exists b'. rewrite Nat.add_succ_r in Eb'. auto.
Qed.

(** The length of a bar is the truncated float64 product, not the exact
    quotient: 29 of 50 gives 28 blocks, not 29. *)
Example bar_length_29_of_50 (impl : float -> Z) : bar_length impl 29 50 = 28.
Proof. vm_compute. reflexivity. Qed.

(** X19. With a sample counted in some bucket, and counts below 2^53,
    [PrintHistogram] does not panic: it returns the line of the total and
    one line for each threshold. Every bar has between 0 and 50 blocks,
    none for an empty bucket and 50 for a bucket with the greatest count
    (there is one), and its length does not depend on the implementation.
    The length is the truncated float64 product; it can be one less than
    the exact quotient (see [bar_length_29_of_50]). *)
Theorem PrintHistogram_bars (impl : float -> Z) (s : Stats) :
  let h := histogram s in
  let max := max_count (buckets h) in
  well_formed h ->
  Forall (fun b => 0 <= b < 2 ^ 53) (buckets h) ->
  0 < max ->
  PrintHistogram impl s =
    Some (strings.Join
            (("Histogram, Total: " ++ format_d (total h))%string
             :: bar_lines (fun b => bar_length impl b max) (thresholds h) (buckets h))
            newline, s) /\
  Forall (fun b => 0 <= bar_length impl b max <= 50 /\
                   (b = 0 -> bar_length impl b max = 0) /\
                   (b = max -> bar_length impl b max = 50) /\
                   forall impl', bar_length impl' b max = bar_length impl b max)
         (buckets h) /\
  List.In max (buckets h).
Proof.
  intros h max Hwf Hb Hmax.
  destruct (foldl_max_spec (buckets h) 0) as (_ & Hle & Hin).
  fold (maximum 0 (buckets h)) in Hle, Hin. rewrite <- max_count_maximum in Hle, Hin.
  fold max in Hle, Hin.
  assert (Hin' : List.In max (buckets h)) by (destruct Hin as [E|?]; [lia | assumption]).
  assert (Hmax53 : max < 2 ^ 53).
  { rewrite Forall_forall in Hb. apply list_elem_of_In in Hin'.
    apply (Hb max Hin'). }
  assert (Hall : Forall (fun b => 0 <= bar_length impl b max <= 50 /\
                   (b = 0 -> bar_length impl b max = 0) /\
                   (b = max -> bar_length impl b max = 50) /\
                   forall impl', bar_length impl' b max = bar_length impl b max)
                        (buckets h)).
  { rewrite Forall_forall in Hb, Hle |- *. intros b Hbin.
    apply bar_length_spec; [|lia].
    specialize (Hb b Hbin). specialize (Hle b Hbin). cbn beta in *. lia. }
  split; [|split; assumption].
  unfold PrintHistogram, bind, get. fold h. fold max.
  rewrite bars_run.
  - cbn [drop app ret]. reflexivity.
  - intros j t Ej. cbn [Nat.add].
    destruct (lookup_lt_is_Some_2 (buckets h) j) as [b Eb].
    { unfold well_formed in Hwf. rewrite Hwf. apply lookup_lt_Some in Ej. exact Ej. }
    exists b. split; [exact Eb|]. apply Repeat_block.
    rewrite Forall_lookup in Hall. apply (Hall j b Eb).
Qed.

Lemma PrintHistogram_bars_witness :
  let s := mkStats 5000000000 0 Window.zero (mkWindow 1 5 9 3) (mkWindow 1 5 9 3)
             (mkHistogram [1; 2; 5; 10] [1; 0; 2; 0] 3) in
  let impl := fun _ : float => 0 in
  let h := histogram s in
  let max := max_count (buckets h) in
  well_formed h /\ 0 < max /\
  bar_length impl 1 max = 25 /\
  PrintHistogram impl s =
    Some (strings.Join
            (("Histogram, Total: " ++ format_d (total h))%string
             :: bar_lines (fun b => bar_length impl b max) (thresholds h) (buckets h))
            newline, s) /\
  Forall (fun b => 0 <= bar_length impl b max <= 50 /\
                   (b = 0 -> bar_length impl b max = 0) /\
                   (b = max -> bar_length impl b max = 50) /\
                   forall impl', bar_length impl' b max = bar_length impl b max)
         (buckets h) /\
  List.In max (buckets h).
Proof.
  intros s impl h max.
  assert (Hwf : well_formed h) by reflexivity.
  assert (Hb : Forall (fun b => 0 <= b < 2 ^ 53) (buckets h))
    by (repeat constructor; vm_compute; congruence).
  assert (Hmax : 0 < max) by reflexivity.
  split; [exact Hwf|]. split; [exact Hmax|]. split; [vm_compute; reflexivity|].
  exact (PrintHistogram_bars impl s Hwf Hb Hmax).
Defined.

Lemma bar_length_0_0 (impl : float -> Z) : bar_length impl 0 0 = Int64.wrap (impl nan).
Proof.
  unfold bar_length.
  replace (PrimFloat.mul (PrimFloat.div (time.float64_of_int64 0) (time.float64_of_int64 0)) 50)
    with nan by (vm_compute; reflexivity).
  reflexivity.
Qed.

Lemma max_count_zeros (bs : list Z) : Forall (fun b => b = 0) bs -> max_count bs = 0.
Proof.
  unfold max_count. induction 1 as [|b bs -> _ IH]; [reflexivity | exact IH].
Qed.

Lemma bar_lines_const (len : Z -> Z) (n : Z) (ths bs : list Z) :
  length bs = length ths -> Forall (fun b => len b = n) bs ->
  bar_lines len ths bs =
  map (fun t => format_5d t ++ "ms : " ++ strings.repeat_string block (Z.to_nat n))%string ths.
Proof.
  revert bs. induction ths as [|t ths IH]; intros [|b bs] Hl Hf; try discriminate Hl;
    [reflexivity|].
  apply Forall_cons in Hf as [Hb Hbs]. unfold bar_lines in *. cbn [zip_with map].
  rewrite Hb. f_equal. apply IH; [cbn in Hl; lia | exact Hbs].
Qed.

Lemma PrintHistogram_zero_panics (impl : float -> Z) (s : Stats) :
  well_formed (histogram s) ->
  Forall (fun b => b = 0) (buckets (histogram s)) ->
  thresholds (histogram s) <> [] ->
  Int64.wrap (impl nan) < 0 \/ Int64.max_int < 7 * Int64.wrap (impl nan) ->
  PrintHistogram impl s = None.
Proof.
  intros Hwf Hz Hne Hn. unfold PrintHistogram, bind, get.
  rewrite (max_count_zeros _ Hz).
  unfold well_formed in Hwf.
  destruct (thresholds (histogram s)) as [|t ths]; [contradiction|].
  destruct (buckets (histogram s)) as [|b bs] eqn:Eb; [discriminate Hwf|].
  apply Forall_cons in Hz as [-> _]. cbn [bars]. unfold bind, get. rewrite Eb.
  cbn [lookup list_lookup]. rewrite bar_length_0_0.
  unfold strings.Repeat. change (Z.of_nat (String.length block)) with 7.
  destruct (Int64.wrap (impl nan) <? 0) eqn:E1; [reflexivity|].
  apply Z.ltb_ge in E1.
  replace (7 * Int64.wrap (impl nan) >? Int64.max_int) with true; [reflexivity|].
  symmetry. rewrite Z.gtb_ltb. apply Z.ltb_lt. lia.
Qed.

Lemma PrintHistogram_zero_run (impl : float -> Z) (s : Stats) :
  well_formed (histogram s) ->
  Forall (fun b => b = 0) (buckets (histogram s)) ->
  0 <= Int64.wrap (impl nan) -> 7 * Int64.wrap (impl nan) <= Int64.max_int ->
  PrintHistogram impl s =
    Some (strings.Join
            (("Histogram, Total: " ++ format_d (total (histogram s)))%string
             :: map (fun t => format_5d t ++ "ms : "
                              ++ strings.repeat_string block
                                   (Z.to_nat (Int64.wrap (impl nan))))%string
                    (thresholds (histogram s)))
            newline, s).
Proof.
  intros Hwf Hz Hn0 Hn7.
  assert (Hlen : Forall (fun b => bar_length impl b 0 = Int64.wrap (impl nan))
                        (buckets (histogram s))).
  { eapply Forall_impl; [exact Hz|]. intros b ->. apply bar_length_0_0. }
  unfold PrintHistogram, bind, get. rewrite (max_count_zeros _ Hz).
  rewrite bars_run.
  - cbn [drop app ret]. rewrite (bar_lines_const _ (Int64.wrap (impl nan))) by assumption.
    reflexivity.
  - intros j t Ej. cbn [Nat.add].
    destruct (lookup_lt_is_Some_2 (buckets (histogram s)) j) as [b Eb].
    { unfold well_formed in Hwf. rewrite Hwf. apply lookup_lt_Some in Ej. exact Ej. }
    exists b. split; [exact Eb|].
    rewrite Forall_lookup in Hlen. rewrite (Hlen j b Eb).
    unfold strings.Repeat. change (Z.of_nat (String.length block)) with 7.
    replace (Int64.wrap (impl nan) <? 0) with false by (symmetry; apply Z.ltb_ge; lia).
    replace (7 * Int64.wrap (impl nan) >? Int64.max_int) with false
      by (symmetry; rewrite Z.gtb_ltb; apply Z.ltb_ge; lia).
    reflexivity.
Qed.

(** X18. With no sample counted in a bucket (before the first sample, or
    when every sample exceeded the thresholds) [max] is 0 and the length of
    every bar is [int(NaN)], the conversion of 0/0*50, which Go leaves to
    the implementation. Where that is negative, or too large for
    [strings.Repeat], [PrintHistogram] panics; otherwise every bar has
    that number of blocks (none where it is 0). *)
Theorem PrintHistogram_without_counts (impl : float -> Z) (s : Stats) :
  let h := histogram s in
  let n := Int64.wrap (impl nan) in
  well_formed h ->
  Forall (fun b => b = 0) (buckets h) ->
  thresholds h <> [] ->
  Forall (fun b => bar_length impl b (max_count (buckets h)) = n) (buckets h) /\
  (n < 0 \/ Int64.max_int < 7 * n -> PrintHistogram impl s = None) /\
  (0 <= n -> 7 * n <= Int64.max_int ->
   PrintHistogram impl s =
     Some (strings.Join
             (("Histogram, Total: " ++ format_d (total h))%string
              :: map (fun t => format_5d t ++ "ms : "
                               ++ strings.repeat_string block (Z.to_nat n))%string
                     (thresholds h))
             newline, s)).
Proof.
  intros h n Hwf Hz Hne.
  split; [|split].
  - rewrite (max_count_zeros _ Hz).
    eapply Forall_impl; [exact Hz|]. intros b ->. apply bar_length_0_0.
  - intros Hn. apply PrintHistogram_zero_panics; assumption.
  - intros Hn0 Hn7. apply PrintHistogram_zero_run; assumption.
Qed.

Lemma PrintHistogram_without_counts_witness :
  let s := model.initial_stats 5 0 in
  let h := histogram s in
  well_formed h /\ Forall (fun b => b = 0) (buckets h) /\ thresholds h <> [] /\
  PrintHistogram (fun _ => -9223372036854775808) s = None /\
  eval (PrintHistogram (fun _ => 0)) s =
    Some (strings.Join
            ["Histogram, Total: 0"; "    1ms : "; "    2ms : "; "    5ms : ";
             "   10ms : "; "   20ms : "; "   50ms : "; "  100ms : "; "  200ms : ";
             "  500ms : "; " 1000ms : "]%string newline).
Proof.
  intros s h.
  assert (Hwf : well_formed h) by reflexivity.
  assert (Hz : Forall (fun b => b = 0) (buckets h)) by (repeat constructor).
  assert (Hne : thresholds h <> []) by discriminate.
  split; [exact Hwf|]. split; [exact Hz|]. split; [exact Hne|].
  destruct (PrintHistogram_without_counts (fun _ => -9223372036854775808) s Hwf Hz Hne)
    as (_ & Hpanic & _).
  destruct (PrintHistogram_without_counts (fun _ => 0) s Hwf Hz Hne) as (_ & _ & Hok).
  split.
  - apply Hpanic. left. vm_compute. reflexivity.
  - unfold eval. rewrite Hok; [reflexivity | vm_compute; discriminate | vm_compute; discriminate].
Defined.

(** X20. The first frame. [View] on the model that [test] starts with
    panics where [int(NaN)] is negative; where it is 0 the frame is the
    heading, the two windows at zero and the histogram with its ten empty
    bars. *)
Theorem View_first_frame (impl : float -> Z) (h : string) (i w : Z) (now : time.Time) :
  let n := Int64.wrap (impl nan) in
  (n < 0 -> View impl (initial_model h i w now) = None) /\
  (n = 0 ->
   eval (View impl) (initial_model h i w now) =
     Some (strings.Join
             [("PING: " ++ h ++ " (interval: " ++ format_d i ++ "s)")%string;
              ""; "Window - Min: 0ms, Max: 0ms, Avg: 0ms";
              "Totals - Min: 0ms, Max: 0ms, Avg: 0ms"; "";
              "Histogram, Total: 0"; "    1ms : "; "    2ms : "; "    5ms : ";
              "   10ms : "; "   20ms : "; "   50ms : "; "  100ms : "; "  200ms : ";
              "  500ms : "; " 1000ms : "]%string newline)).
Proof.
  intros n.
  set (s := model.initial_stats w now).
  assert (Hwf : well_formed (histogram s)) by reflexivity.
  assert (Hz : Forall (fun b => b = 0) (buckets (histogram s))) by (repeat constructor).
  assert (Hne : thresholds (histogram s) <> []) by discriminate.
  pose proof (PrintHistogram_zero_panics impl s Hwf Hz Hne) as Hpanic.
  pose proof (PrintHistogram_zero_run impl s Hwf Hz) as Hok.
  fold n in Hpanic, Hok.
  assert (Estr : Stats.String s =
                 Some (("Window - Min: 0ms, Max: 0ms, Avg: 0ms" ++ newline
                        ++ "Totals - Min: 0ms, Max: 0ms, Avg: 0ms")%string, s))
    by reflexivity.
  split.
  - intros Hn. unfold View, bind, get, zoom, initial_model. cbn [stats]. fold s.
    rewrite Estr. cbn [model.set_stats stats host interval window_flag pings errs].
    rewrite Hpanic by (left; exact Hn). reflexivity.
  - intros Hn. unfold eval, View, bind, get, zoom, initial_model. cbn [stats]. fold s.
    rewrite Estr. cbn [model.set_stats stats host interval window_flag pings errs].
    rewrite Hok by (rewrite Hn; vm_compute; discriminate).
    rewrite Hn. cbn [ret fmap option_fmap option_map fst host interval].
    reflexivity.
Qed.

(** ** The tick of the consumer *)

(** X21. Of the three cases of [tick], only an error that is not nil
    makes [Update] return [tea.Quit]. After the cancellation of the
    context, and after a nil error, [Update] returns the model as it is and
    no command, so that no further tick is asked for; after a sample it
    asks for the next tick, when [Stats.Update] has not panicked, and
    leaves the host, the interval and the channels as they are. *)
Theorem tick_quits_only_on_error (c : tick_case) (m : model) (now1 now2 : time.Time) :
  match c with
  | FromPings d =>
      forall cmd m', model.Update now1 now2 (model_tick c) m = Some (cmd, m') ->
                     cmd = tick /\ host m' = host m /\ interval m' = interval m /\
                     pings m' = pings m /\ errs m' = errs m
  | FromErrs (Some _) => model.Update now1 now2 (model_tick c) m = Some (Quit, m)
  | FromErrs None | ContextDone =>
      model.Update now1 now2 (model_tick c) m = Some (nilCmd, m)
  end.
Proof.
  destruct c as [d|[e|]|]; cbn [model_tick]; try reflexivity.
  intros cmd m'. unfold model.Update, bind, zoom, ret.
  destruct (Stats.Update now1 now2 (time.Milliseconds d) (stats m)) as [[[] s']|];
    [|discriminate].
  intros [= <- <-]. repeat split.
Qed.
